(** * Astronomy Engine: quadratic-interpolation root search and the C
      conformance harness, embedded in Rocq.

    Sources embedded here:
    - [theory/quadratic_interpolation.ipynb]: [Parabola], [Solve] and the
      map from the interpolation parameter back to a time;
    - [generate/ctest.c]: [AstroCheck], [Diff], [DiffLine].

    Python and C floating-point values are idealised: real numbers for the
    root search and the time model, exact rationals for the decimal numbers
    read back from text files. *)

From Stdlib Require Import Reals Lra Psatz ZArith QArith Qabs List String Ascii Bool.
Import ListNotations.

(** ** Python exceptions *)

Module Py.

Inductive exn : Type :=
| ZeroDivisionError
| ValueError.

Inductive result (A : Type) : Type :=
| Return (a : A)
| Raise (e : exn).

Arguments Return {A} a.
Arguments Raise {A} e.

Definition bind {A B : Type} (m : result A) (k : A -> result B) : result B :=
  match m with
  | Return a => k a
  | Raise e => Raise e
  end.

End Py.

Import Py.

Notation "x <- m ;; k" := (Py.bind m (fun x => k))
  (at level 61, m at next level, right associativity).

Local Open Scope R_scope.

(** ** The notebook: [theory/quadratic_interpolation.ipynb] *)

Section Quadratic.

(** Python's [a / b] on floats. *)
Definition py_div (a b : R) : result R :=
  if Req_dec_T b 0 then Raise ZeroDivisionError else Return (a / b).

(** Python's [math.sqrt]. *)
Definition py_sqrt (u : R) : result R :=
  if Rlt_dec u 0 then Raise ValueError else Return (sqrt u).

Definition Rleb (a b : R) : bool := if Rle_dec a b then true else false.

(** The chained comparison [-1 <= x <= +1]. *)
Definition in_range (x : R) : bool := Rleb (-1) x && Rleb x 1.

(** [class Parabola]: the attributes [Q], [R], [S]. *)
Record Parabola : Type := mkParabola { p_Q : R; p_R : R; p_S : R }.

(** [Parabola.__init__(self, f, ta, tb)]. *)
Definition Parabola_init (f : R -> R) (ta tb : R) : Parabola :=
  let tm := (tb + ta) / 2 in
  let fa := f ta in
  let fb := f tb in
  let fm := f tm in
  {| p_Q := (fb + fa) / 2 - fm;
     p_R := (fb - fa) / 2;
     p_S := fm |}.

(** The same coefficients, from the three samples. *)
Definition fit (fa fm fb : R) : Parabola :=
  {| p_Q := (fb + fa) / 2 - fm;
     p_R := (fb - fa) / 2;
     p_S := fm |}.

(** [Parabola.Eval(self, x)]. *)
Definition Eval (p : Parabola) (x : R) : R :=
  p_Q p * x * x + p_R p * x + p_S p.

(** [Parabola.Slope(self, x)]. *)
Definition Slope (p : Parabola) (x : R) : R :=
  2 * p_Q p * x + p_R p.

(** The quantity under the square root in [Solve]. *)
Definition discriminant (p : Parabola) : R :=
  p_R p * p_R p - 4 * p_Q p * p_S p.

(** The two values the quadratic formula gives in [Solve]. *)
Definition root1 (p : Parabola) : R :=
  (- p_R p + sqrt (discriminant p)) / (2 * p_Q p).

Definition root2 (p : Parabola) : R :=
  (- p_R p - sqrt (discriminant p)) / (2 * p_Q p).

(** [def Solve(p)]; Python's [None] is [None], a float [x] is [Some x]. *)
Definition Solve (p : Parabola) : result (option R) :=
  if Req_dec_T (p_Q p) 0 then
    if Req_dec_T (p_R p) 0 then Return None
    else
      x <- py_div (- p_S p) (p_R p) ;;
      if in_range x then Return (Some x) else Return None
  else
    let u := p_R p * p_R p - 4 * p_Q p * p_S p in
    if Rle_dec u 0 then Return None
    else
      ru <- py_sqrt u ;;
      x1 <- py_div (- p_R p + ru) (2 * p_Q p) ;;
      x2 <- py_div (- p_R p - ru) (2 * p_Q p) ;;
      if in_range x1 then
        if in_range x2 then Return None else Return (Some x1)
      else if in_range x2 then Return (Some x2)
      else Return None.

(** The affine reparametrization [x = (t - tm) / (tb - tm)]. *)
Definition x_of_t (tm tb t : R) : R := (t - tm) / (tb - tm).

(** [t = tm + x*(tb-tm)]. *)
Definition t_of_x (tm tb x : R) : R := tm + x * (tb - tm).

End Quadratic.

(** ** RootSearch: the loop around the notebook's interpolation step *)

Module RootSearch.

(** The outcome of a search: a time, the expected absent result, or the
    fatal failure to converge. *)
Inductive search_result : Type :=
| Found (t : R)
| NotFound
| SearchNonConvergence.

(** The value [Solve] hands to the loop. *)
Definition Solve_value (p : Parabola) : option R :=
  match Solve p with
  | Return r => r
  | Raise _ => None
  end.

(** The iteration cap. *)
Definition iteration_cap : nat := 20.

Section Loop.

(** How the next bracket is chosen around the estimate is left open by the
    design; it is a parameter here: [shrink ta tb t0] is the new bracket. *)
Variable shrink : R -> R -> R -> R * R.

(** The function whose ascending root is sought. *)
Variable f : R -> R.

Variable tolerance_seconds : R.

(** Modelled from the spec: the loop of [Search], which is not among the
    sources (the notebook stops after one interpolation step).  Per
    iteration: midpoint and three samples, the notebook's [Parabola] and
    [Solve], the estimate [t0 = tm + x*(tb-tm)], a smaller bracket around
    [t0], and the stop test on the bracket's width in seconds.  No
    solution from [Solve] ends the search with [NotFound]; for a
    discriminant [u <= 0] the half of the window across which two samples
    have strictly opposite signs is searched instead, when there is one.
    An estimate at which the parabola does not ascend is no ascending
    root.  The fuel is the iteration cap. *)
Fixpoint SearchLoop (fuel : nat) (ta tb : R) : search_result :=
  match fuel with
  | O => SearchNonConvergence
  | S fuel' =>
      let tm := (tb + ta) / 2 in
      let p := Parabola_init f ta tb in
      match Solve_value p with
      | Some x =>
          if Rlt_dec 0 (Slope p x) then
            let t0 := t_of_x tm tb x in
            let (ta', tb') := shrink ta tb t0 in
            if Rle_dec (Rabs (tb' - ta') * 86400) tolerance_seconds
            then Found t0
            else SearchLoop fuel' ta' tb'
          else NotFound
      | None =>
          if Req_dec_T (p_Q p) 0 then NotFound
          else if Rle_dec (discriminant p) 0 then
            if Rlt_dec (f ta * f tm) 0 then SearchLoop fuel' ta tm
            else if Rlt_dec (f tm * f tb) 0 then SearchLoop fuel' tm tb
            else NotFound
          else NotFound
      end
  end.

(** Modelled from the spec: [Search(f, t1, t2, tolerance_seconds)], the
    loop started on the window [[t1, t2]] with the cap of 20 iterations. *)
Definition Search (t1 t2 : R) : search_result :=
  SearchLoop iteration_cap t1 t2.

End Loop.



End RootSearch.

(** ** The C library routines [ctest.c] reads text with *)

Module CLib.

Local Open Scope Z_scope.

(** [isspace] in the C locale. *)
Definition isspace (c : ascii) : bool :=
  let n := Z.of_nat (nat_of_ascii c) in
  (n =? 32) || ((9 <=? n) && (n <=? 13)).

(** The scan set [[A-Za-z]]. *)
Definition isletter (c : ascii) : bool :=
  let n := Z.of_nat (nat_of_ascii c) in
  ((65 <=? n) && (n <=? 90)) || ((97 <=? n) && (n <=? 122)).

Definition isdigit (c : ascii) : bool :=
  let n := Z.of_nat (nat_of_ascii c) in
  (48 <=? n) && (n <=? 57).

Definition digit_value (c : ascii) : Z := Z.of_nat (nat_of_ascii c) - 48.

Fixpoint skip_space (s : string) : string :=
  match s with
  | String c s' => if isspace c then skip_space s' else s
  | EmptyString => s
  end.

(** Up to [width] leading letters of [s], and what follows them. *)
Fixpoint take_letters (width : nat) (s : string) : string * string :=
  match width, s with
  | S w, String c s' =>
      if isletter c then
        let (l, r) := take_letters w s' in (String c l, r)
      else (EmptyString, s)
  | _, _ => (EmptyString, s)
  end.

(** Leading decimal digits: the accumulated value, how many digits were
    read, and the rest. *)
Fixpoint take_digits (s : string) (acc : Z) (n : Z) : Z * Z * string :=
  match s with
  | String c s' =>
      if isdigit c then take_digits s' (10 * acc + digit_value c) (n + 1)
      else (acc, n, s)
  | EmptyString => (acc, n, s)
  end.

(** An optional sign: [true] for [-]. *)
Definition take_sign (s : string) : bool * string :=
  match s with
  | String "-"%char s' => (true, s')
  | String "+"%char s' => (false, s')
  | _ => (false, s)
  end.

(** An optional exponent part [e±ddd]; consumed only when it has a digit. *)
Definition take_exponent (s : string) : Z * string :=
  match s with
  | String c s' =>
      if (Ascii.eqb c "e" || Ascii.eqb c "E")%bool then
        let (neg, s1) := take_sign s' in
        let '(e, n, s2) := take_digits s1 0 0 in
        if n =? 0 then (0, s)
        else ((if neg then - e else e), s2)
      else (0, s)
  | EmptyString => (0, s)
  end.

(** The decimal floating-point subject sequence of [strtod], as the exact
    rational it denotes.  Hexadecimal numbers, [inf] and [nan] have no
    rational value and are not matched. *)
Definition scan_double (s : string) : option (Q * string) :=
  let (neg, s1) := take_sign s in
  let '(ip, ni, s2) := take_digits s1 0 0 in
  let '(m, nf, s3) :=
    match s2 with
    | String "."%char s2' => take_digits s2' ip 0
    | _ => (ip, 0, s2)
    end in
  if ni + nf =? 0 then None
  else
    let (e, s4) := take_exponent s3 in
    Some ((inject_Z (if neg then - m else m) * Qpower (10 # 1) (e - nf))%Q, s4).

(** The directives occurring in the formats of [DiffLine]. *)
Inductive directive : Type :=
| Lit (c : ascii)          (* an ordinary character *)
| WS                       (* white space in the format *)
| Letters (width : nat)    (* [%9[A-Za-z]] *)
| Lf.                      (* [%lf] *)

(** What a [sscanf] call leaves behind: its return value, the string
    stored by [%[...]] and the doubles stored by the [%lf]s, in order. *)
Record scanned : Type := mkScanned {
  sc_count : Z;
  sc_body : string;
  sc_data : list Q
}.

Definition EOF : Z := -1.

(** Input ends before a directive can match: [EOF] when nothing has been
    converted yet. *)
Definition input_failure (count : Z) (body : string) (data : list Q) : scanned :=
  mkScanned (if count =? 0 then EOF else count) body data.

Fixpoint sscanf_from (fmt : list directive) (s : string)
         (count : Z) (body : string) (data : list Q) : scanned :=
  match fmt with
  | [] => mkScanned count body data
  | WS :: fmt' => sscanf_from fmt' (skip_space s) count body data
  | Lit c :: fmt' =>
      match s with
      | EmptyString => input_failure count body data
      | String c' s' =>
          if Ascii.eqb c c' then sscanf_from fmt' s' count body data
          else mkScanned count body data
      end
  | Letters w :: fmt' =>
      match s with
      | EmptyString => input_failure count body data
      | _ =>
          let (l, r) := take_letters w s in
          match l with
          | EmptyString => mkScanned count body data
          | _ => sscanf_from fmt' r (count + 1) l data
          end
      end
  | Lf :: fmt' =>
      match skip_space s with
      | EmptyString => input_failure count body data
      | s1 =>
          match scan_double s1 with
          | None => mkScanned count body data
          | Some (q, r) => sscanf_from fmt' r (count + 1) body (data ++ [q])
          end
      end
  end.

Definition sscanf (s : string) (fmt : list directive) : scanned :=
  sscanf_from fmt s 0 EmptyString [].

(** The buffers successive [fgets(line, size, file)] calls return until
    [NULL]: at most [size - 1] characters each, ending after a newline.
    [room] is what is left of the current buffer, [cur] its content so far,
    reversed. *)
Fixpoint fgets_from (size : nat) (room : nat) (cur : list ascii) (s : string)
  : list string :=
  match s with
  | EmptyString =>
      match cur with
      | [] => []
      | _ => [string_of_list_ascii (rev cur)]
      end
  | String c s' =>
      if (Ascii.eqb c "010" || Nat.eqb room 1)%bool then
        string_of_list_ascii (rev (c :: cur))
          :: fgets_from size (size - 1) [] s'
      else fgets_from size (room - 1) (c :: cur) s'
  end.

Definition fgets_all (size : nat) (file : string) : list string :=
  fgets_from size (size - 1) [] file.

End CLib.

(** ** [ctest.c]: comparing two output files *)

Module CTest.

Import CLib.
Local Open Scope Z_scope.

(** [memset(cdata, 0xdc, ...)] and [memset(jdata, 0xce, ...)]: the doubles
    whose eight bytes are all [0xdc], resp. [0xce]. *)
Definition filler_dc : Q := inject_Z (- (0x1cdcdcdcdcdcdc * 2 ^ 410)).
Definition filler_ce : Q := inject_Z (- (0x1ecececececece * 2 ^ 185)).

(** [double cdata[7]] after the [memset] and the [sscanf]: the scanned
    doubles in front, the filler behind. *)
Definition data_array (filler : Q) (data : list Q) : list Q :=
  firstn 7 data ++ repeat filler (7 - List.length data).

(** ["o %lf %lf %lf"]. *)
Definition format_o : list directive :=
  [Lit "o"; WS; Lf; WS; Lf; WS; Lf].

(** ["v %9[A-Za-z] %lf %lf %lf"]. *)
Definition format_v : list directive :=
  [Lit "v"; WS; Letters 9; WS; Lf; WS; Lf; WS; Lf].

(** ["s %9[A-Za-z] %lf %lf %lf %lf %lf %lf %lf"]. *)
Definition format_s : list directive :=
  [Lit "s"; WS; Letters 9; WS; Lf; WS; Lf; WS; Lf; WS; Lf; WS; Lf; WS; Lf;
   WS; Lf].

(** [line[0]]; the terminating NUL for the empty string. *)
Definition char0 (s : string) : ascii :=
  match s with
  | String c _ => c
  | EmptyString => zero
  end.

(** [a > b] on doubles. *)
Definition Qgtb (a b : Q) : bool := negb (Qle_bool a b).

(** The loop [for (i=0; i < nrequired; ++i)] of [DiffLine], from index [i]
    on, [n] rounds. *)
Fixpoint compare_data (n i : nat) (cdata jdata : list Q) (lnum : Z)
         (maxdiff : Q) (worst_lnum : Z) : Q * Z :=
  match n with
  | O => (maxdiff, worst_lnum)
  | S n' =>
      let diff := Qabs (nth i cdata filler_dc - nth i jdata filler_ce) in
      if Qgtb diff maxdiff
      then compare_data n' (S i) cdata jdata lnum diff lnum
      else compare_data n' (S i) cdata jdata lnum maxdiff worst_lnum
  end.

(** The [switch (cline[0])]: the format and [nrequired] of a record type. *)
Definition record_format (tag : ascii) : option (list directive * Z) :=
  if Ascii.eqb tag "o" then Some (format_o, 3)
  else if Ascii.eqb tag "v" then Some (format_v, 4)
  else if Ascii.eqb tag "s" then Some (format_s, 8)
  else None.

(** [DiffLine(lnum, cline, jline, &maxdiff, &worst_lnum)]: the returned
    error with the new [*maxdiff] and [*worst_lnum]. *)
Definition DiffLine (lnum : Z) (cline jline : string)
           (maxdiff : Q) (worst_lnum : Z) : Z * Q * Z :=
  if negb (Ascii.eqb (char0 cline) (char0 jline)) then (1, maxdiff, worst_lnum)
  else
    match record_format (char0 cline) with
    | None => (1, maxdiff, worst_lnum)
    | Some (fmt, nrequired) =>
        let c := sscanf cline fmt in
        let j := sscanf jline fmt in
        let nc := sc_count c in
        let nj := sc_count j in
        let cbody := sc_body c in
        let jbody := sc_body j in
        let cdata := data_array filler_dc (sc_data c) in
        let jdata := data_array filler_ce (sc_data j) in
        if negb (nc =? nj) then (1, maxdiff, worst_lnum)
        else if negb (nc =? nrequired) then (1, maxdiff, worst_lnum)
        else if negb (String.eqb cbody jbody) then (1, maxdiff, worst_lnum)
        else
          let nrequired :=
            match cbody with
            | EmptyString => nrequired
            | _ => nrequired - 1
            end in
          let (m, w) :=
            compare_data (Z.to_nat nrequired) 0 cdata jdata lnum
                         maxdiff worst_lnum in
          (0, m, w)
    end.

(** The [for(;;)] of [Diff] over the lines both files still have. *)
Fixpoint Diff_loop (clines jlines : list string) (lnum : Z)
         (maxdiff : Q) (worst_lnum : Z) : Z * Q * Z :=
  match clines, jlines with
  | [], [] => (0, maxdiff, worst_lnum)
  | [], _ :: _ => (1, maxdiff, worst_lnum)
  | _ :: _, [] => (1, maxdiff, worst_lnum)
  | cline :: cs, jline :: js =>
      let lnum := lnum + 1 in
      let '(error, m, w) := DiffLine lnum cline jline maxdiff worst_lnum in
      if error =? 0 then Diff_loop cs js lnum m w else (error, m, w)
  end.

(** The tolerance [1.8e-12]. *)
Definition tolerance : Q := 18 # 10000000000000.

(** [Diff(c_filename, js_filename)] on the contents of the two files;
    [None] is a file that cannot be opened.  The result is the returned
    [error]. *)
Definition Diff (c_file js_file : option string) : Z :=
  match c_file, js_file with
  | Some c, Some j =>
      let '(error, maxdiff, _) :=
        Diff_loop (fgets_all 200 c) (fgets_all 200 j) 0 0 0 in
      if error =? 0 then
        if Qgtb maxdiff tolerance then 1 else 0
      else error
  | _, _ => 1
  end.

(** Sample files, one line each, as [AstroCheck] formats them. *)
Definition newline : string := String "010" EmptyString.

Definition vector_file (z : string) : string :=
  ("v Sun -109572.4990000000000000 0.1000000000000000 0.2000000000000000 "
   ++ z ++ newline)%string.

Definition sky_file (alt : string) : string :=
  ("s GM -109572.4990000000000000 -109572.5000000000000000 "
   ++ "1.5000000000000000 2.5000000000000000 0.0025000000000000 "
   ++ "3.5000000000000000 " ++ alt ++ newline)%string.

Definition observer_file (h : string) : string :=
  ("o 29.000000 -81.000000 " ++ h ++ newline)%string.

(** The vector format with a fourth [%lf], to read what [format_v] leaves
    unread. *)
Definition format_v4 : list directive := format_v ++ [WS; Lf].

(** The number of [%lf] directives of a format. *)
Fixpoint count_Lf (fmt : list directive) : nat :=
  match fmt with
  | [] => O
  | Lf :: fmt' => S (count_Lf fmt')
  | _ :: fmt' => count_Lf fmt'
  end.

(** The number of [%[...]] directives of a format. *)
Fixpoint count_Letters (fmt : list directive) : nat :=
  match fmt with
  | [] => O
  | Letters _ :: fmt' => S (count_Letters fmt')
  | _ :: fmt' => count_Letters fmt'
  end.

(** A line that is a complete record: its first character selects a
    format, and the scan with that format converts everything. *)
Definition well_formed (line : string) : Prop :=
  exists (fmt : list directive) (nrequired : Z),
    record_format (char0 line) = Some (fmt, nrequired)
    /\ sc_count (sscanf line fmt) = nrequired.

(** Two lines [DiffLine] accepts: the same record type, one of [o], [v],
    [s]; both scanned in full; the same body name; and every compared
    pair of doubles within the new [*maxdiff].  The doubles compared are
    the [compared] first ones: 3 for [o], 3 for [v], 7 for [s]. *)
Definition compared (tag : ascii) : nat :=
  if Ascii.eqb tag "s" then 7%nat else 3%nat.

Definition lines_agree (bound : Q) (cline jline : string) : Prop :=
  char0 cline = char0 jline
  /\ exists (fmt : list directive) (nrequired : Z),
       record_format (char0 cline) = Some (fmt, nrequired)
       /\ sc_count (sscanf cline fmt) = nrequired
       /\ sc_count (sscanf jline fmt) = nrequired
       /\ sc_body (sscanf cline fmt) = sc_body (sscanf jline fmt)
       /\ forall k : nat,
            (k < compared (char0 cline))%nat ->
            (Qabs (nth k (data_array filler_dc (sc_data (sscanf cline fmt)))
                       filler_dc
                   - nth k (data_array filler_ce (sc_data (sscanf jline fmt)))
                         filler_ce)
             <= bound)%Q.

End CTest.

(** ** TimeModel: what [ctest.c] uses of [astronomy.h] *)

Module TimeModel.

(** Modelled from the spec: [astro_time_t], declared in the absent
    [astronomy.h]; [ut] and [tt] in days since noon on January 1, 2000,
    the two fields [ctest.c] reads. *)
Record astro_time_t : Type := mkTime { ut : R; tt : R }.

(** Modelled from the spec: the day count behind [Astronomy_MakeTime], the
    Julian Day Number of a proleptic Gregorian calendar date (the day that
    begins at noon of that date), with C's truncating division. *)
Definition julian_day_number (year month day : Z) : Z :=
  (day - 32075
   + (1461 * (year + 4800 + (month - 14) ÷ 12)) ÷ 4
   + (367 * (month - 2 - (month - 14) ÷ 12 * 12)) ÷ 12
   - (3 * ((year + 4900 + (month - 14) ÷ 12) ÷ 100)) ÷ 4)%Z.

(** The Julian Day Number of the J2000 epoch, 2000-01-01 12:00. *)
Definition J2000 : Z := 2451545.

Section DeltaT.

(** The Delta-T model in seconds, a table with an extrapolation in the
    library; its numbers are not among the sources and stay a parameter. *)
Variable DeltaT : R -> R.

(** Modelled from the spec: [tt = ut + ΔT(ut)/86400]. *)
Definition TerrestrialTime (u : R) : R := u + DeltaT u / 86400.

(** Modelled from the spec: [Astronomy_MakeTime], of the absent
    [astronomy.c]; [ut] is the exact number of days from the J2000 epoch
    the calendar fields imply, [tt] follows from the Delta-T model. *)
Definition Astronomy_MakeTime (year month day hour minute : Z) (second : R)
  : astro_time_t :=
  let u := IZR (julian_day_number year month day - J2000) - 1 / 2
           + IZR hour / 24 + IZR minute / (24 * 60) + second / (24 * 3600) in
  {| ut := u; tt := TerrestrialTime u |}.

(** Modelled from the spec: [Astronomy_AddDays], of the absent
    [astronomy.c]; a new time with [ut' = ut + days] and [tt'] recomputed
    from the Delta-T model at [ut']. *)
Definition Astronomy_AddDays (time : astro_time_t) (days : R) : astro_time_t :=
  {| ut := ut time + days; tt := TerrestrialTime (ut time + days) |}.

(** Modelled from the spec: the invariant of a time value, [tt] being the
    function of [ut] the Delta-T model gives. *)
Definition time_ok (time : astro_time_t) : Prop :=
  tt time = TerrestrialTime (ut time).

(** Modelled from the spec: the Delta-T model keeps the order of times,
    [tt] increases with [ut]. *)
Definition tt_monotonic : Prop :=
  forall u1 u2 : R, u1 < u2 -> TerrestrialTime u1 < TerrestrialTime u2.

End DeltaT.

End TimeModel.

(** ** [ctest.c]: [AstroCheck], the writer of the conformance file *)

Module AstroCheckRun.

Import TimeModel.

(** [#define PI 3.14159265358979323846]. *)
Definition PI : R := 3.14159265358979323846.

(** Modelled from the spec: the failure kinds a status can report; the
    status codes themselves are declared in the absent [astronomy.h]. *)
Inductive error_kind : Type :=
| InvalidDate
| InvalidBody
| OutOfRange
| ObserverOutOfRange
| SearchNonConvergence
| AbsentResult.

(** Modelled from the spec: [astro_status_t], declared in the absent
    [astronomy.h]; [ctest.c] only tells [ASTRO_SUCCESS] from the rest. *)
Inductive astro_status_t : Type :=
| ASTRO_SUCCESS
| ASTRO_FAILURE (k : error_kind).

Definition is_success (s : astro_status_t) : bool :=
  match s with
  | ASTRO_SUCCESS => true
  | ASTRO_FAILURE _ => false
  end.

(** Modelled from the spec: [astro_body_t], declared in the absent
    [astronomy.h], with the values [ctest.c] names. *)
Inductive astro_body_t : Type :=
| BODY_INVALID
| BODY_MERCURY
| BODY_VENUS
| BODY_EARTH
| BODY_MARS
| BODY_JUPITER
| BODY_SATURN
| BODY_URANUS
| BODY_NEPTUNE
| BODY_PLUTO
| BODY_SUN
| BODY_MOON.

Definition is_earth (body : astro_body_t) : bool :=
  match body with
  | BODY_EARTH => true
  | _ => false
  end.

(** Modelled from the spec: [astro_refraction_t], declared in the absent
    [astronomy.h]; [ctest.c] passes [REFRACTION_NONE]. *)
Inductive astro_refraction_t : Type :=
| REFRACTION_NONE
| REFRACTION_NORMAL
| REFRACTION_JPLHOR.

(** Modelled from the spec: [astro_vector_t], declared in the absent
    [astronomy.h], with the fields [ctest.c] reads. *)
Record astro_vector_t : Type := mkVector {
  vec_status : astro_status_t;
  vec_x : R;
  vec_y : R;
  vec_z : R;
  vec_t : astro_time_t
}.

(** Modelled from the spec: [astro_equatorial_t], likewise. *)
Record astro_equatorial_t : Type := mkEquatorial {
  equ_status : astro_status_t;
  equ_ra : R;
  equ_dec : R;
  equ_dist : R
}.

(** Modelled from the spec: [astro_horizon_t], likewise. *)
Record astro_horizon_t : Type := mkHorizon {
  azimuth : R;
  altitude : R;
  hor_ra : R;
  hor_dec : R
}.

(** Modelled from the spec: [astro_observer_t], likewise. *)
Record astro_observer_t : Type := mkObserver {
  latitude : R;
  longitude : R;
  height : R
}.

(** Modelled from the spec: [Astronomy_BodyName], of the absent
    [astronomy.c]; the names of the bodies as [ctest.c] reads and prints
    them, the empty string for an invalid body. *)
Definition Astronomy_BodyName (body : astro_body_t) : string :=
  match body with
  | BODY_INVALID => EmptyString
  | BODY_MERCURY => "Mercury"
  | BODY_VENUS => "Venus"
  | BODY_EARTH => "Earth"
  | BODY_MARS => "Mars"
  | BODY_JUPITER => "Jupiter"
  | BODY_SATURN => "Saturn"
  | BODY_URANUS => "Uranus"
  | BODY_NEPTUNE => "Neptune"
  | BODY_PLUTO => "Pluto"
  | BODY_SUN => "Sun"
  | BODY_MOON => "Moon"
  end.

(** A line of [temp/c_check.txt], with the values [fprintf] prints:
    ["o %lf %lf %lf"], ["v %s %0.16lf ..."] and ["s %s %0.16lf ..."]. *)
Inductive line : Type :=
| o_line (lat lon h : R)
| v_line (name : string) (tt_ x y z : R)
| s_line (name : string) (tt_ ut_ ra dec dist az alt : R).

(** [CheckVector] and [CheckEquator]: 1 for a status other than
    [ASTRO_SUCCESS]. *)
Definition CheckVector (v : astro_vector_t) : Z :=
  if is_success (vec_status v) then 0%Z else 1%Z.

Definition CheckEquator (equ : astro_equatorial_t) : Z :=
  if is_success (equ_status equ) then 0%Z else 1%Z.

(** Where control goes after a statement: on, or to the label [fail];
    either way with the current value of [error]. *)
Inductive flow : Type :=
| Next (error : Z)
| GotoFail (error : Z).

(** [bodylist]. *)
Definition bodylist : list astro_body_t :=
  [BODY_SUN; BODY_MERCURY; BODY_VENUS; BODY_EARTH; BODY_MARS;
   BODY_JUPITER; BODY_SATURN; BODY_URANUS; BODY_NEPTUNE; BODY_PLUTO].

Section Providers.

Variable DeltaT : R -> R.

(** The library functions [AstroCheck] calls; they are not among the
    sources. *)
Variable Astronomy_MakeObserver : R -> R -> R -> astro_observer_t.
Variable Astronomy_HelioVector : astro_body_t -> astro_time_t -> astro_vector_t.
Variable Astronomy_GeoVector :
  astro_body_t -> astro_time_t -> Z -> astro_vector_t.
Variable Astronomy_Equator :
  astro_body_t -> astro_time_t -> astro_observer_t -> Z -> Z ->
  astro_equatorial_t.
Variable Astronomy_Horizon :
  astro_time_t -> astro_observer_t -> R -> R -> astro_refraction_t ->
  astro_horizon_t.

(** The [s] line of a body: two [CHECK_EQU]s, then [Astronomy_Horizon]. *)
Definition sky_line (name : string) (body : astro_body_t)
           (time : astro_time_t) (observer : astro_observer_t)
  : list line * flow :=
  let j2000 := Astronomy_Equator body time observer 0 0 in
  let error := CheckEquator j2000 in
  if negb (error =? 0)%Z then ([], GotoFail error)
  else
    let ofdate := Astronomy_Equator body time observer 1 1 in
    let error := CheckEquator ofdate in
    if negb (error =? 0)%Z then ([], GotoFail error)
    else
      let hor := Astronomy_Horizon time observer (equ_ra ofdate)
                                   (equ_dec ofdate) REFRACTION_NONE in
      ([s_line name (tt time) (ut time) (equ_ra j2000) (equ_dec j2000)
               (equ_dist j2000) (azimuth hor) (altitude hor)],
       Next error).

(** The [for (b=0; b < nbodies; ++b)] loop, over the bodies still to do. *)
Fixpoint AstroCheck_bodies (bodies : list astro_body_t) (time : astro_time_t)
         (observer : astro_observer_t) (error : Z) : list line * flow :=
  match bodies with
  | [] => ([], Next error)
  | body :: rest =>
      let pos := Astronomy_HelioVector body time in
      let error := CheckVector pos in
      if negb (error =? 0)%Z then ([], GotoFail error)
      else
        let v := v_line (Astronomy_BodyName body) (tt (vec_t pos))
                        (vec_x pos) (vec_y pos) (vec_z pos) in
        if negb (is_earth body) then
          match sky_line (Astronomy_BodyName body) body time observer with
          | (ls, GotoFail e) => (v :: ls, GotoFail e)
          | (ls, Next e) =>
              let (more, fl) := AstroCheck_bodies rest time observer e in
              (v :: ls ++ more, fl)
          end
        else
          let (more, fl) := AstroCheck_bodies rest time observer error in
          (v :: more, fl)
  end.

(** One round of the [while] loop, up to the [Astronomy_AddDays]. *)
Definition AstroCheck_sample (time : astro_time_t)
           (observer : astro_observer_t) (error : Z) : list line * flow :=
  match AstroCheck_bodies bodylist time observer error with
  | (ls, GotoFail e) => (ls, GotoFail e)
  | (ls, Next _) =>
      let pos := Astronomy_GeoVector BODY_MOON time 0 in
      let error := CheckVector pos in
      if negb (error =? 0)%Z then (ls, GotoFail error)
      else
        let v := v_line "GM" (tt (vec_t pos))
                        (vec_x pos) (vec_y pos) (vec_z pos) in
        match sky_line "GM" BODY_MOON time observer with
        | (l, fl) => (ls ++ v :: l, fl)
        end
  end.

(** The [while (time.tt < stop.tt)] loop: the final [error] and, per round,
    the time of the round with the lines it wrote.  [None] when the fuel
    does not suffice. *)
Fixpoint AstroCheck_loop (fuel : nat) (time stop : astro_time_t)
         (observer : astro_observer_t) (error : Z)
  : option (Z * list (astro_time_t * list line)) :=
  match fuel with
  | O => None
  | S fuel' =>
      if Rlt_dec (tt time) (tt stop) then
        match AstroCheck_sample time observer error with
        | (ls, GotoFail e) => Some (e, [(time, ls)])
        | (ls, Next e) =>
            match AstroCheck_loop fuel'
                    (Astronomy_AddDays DeltaT time (10 + PI / 100))
                    stop observer e with
            | Some (e', blocks) => Some (e', (time, ls) :: blocks)
            | None => None
            end
        end
      else Some (error, [])
  end.

(** The rounds of [AstroCheck]. *)
Definition AstroCheck_rounds (fuel : nat)
  : option (Z * list (astro_time_t * list line)) :=
  let observer := Astronomy_MakeObserver 29 (-81) 10 in
  let time := Astronomy_MakeTime DeltaT 1700 1 1 0 0 0 in
  let stop := Astronomy_MakeTime DeltaT 2200 1 1 0 0 0 in
  AstroCheck_loop fuel time stop observer 1.

(** [AstroCheck()]: the returned [error] and the lines of the output file;
    [outfile_opens] is whether [fopen] succeeds. *)
Definition AstroCheck (outfile_opens : bool) (fuel : nat)
  : option (Z * list line) :=
  if outfile_opens then
    let observer := Astronomy_MakeObserver 29 (-81) 10 in
    match AstroCheck_rounds fuel with
    | Some (error, blocks) =>
        Some (error,
              o_line (latitude observer) (longitude observer) (height observer)
                :: flat_map snd blocks)
    | None => None
    end
  else Some (1%Z, []).

End Providers.

(** The time of round [k] of the [while] loop. *)
Fixpoint sample_time (DeltaT : R -> R) (k : nat) : astro_time_t :=
  match k with
  | O => Astronomy_MakeTime DeltaT 1700 1 1 0 0 0
  | S k' => Astronomy_AddDays DeltaT (sample_time DeltaT k') (10 + PI / 100)
  end.

(** The number of rounds from 1700-01-01 to 2200-01-01. *)
Definition round_count : nat := Z.to_nat 18205.

(** Modelled from the spec: the window of the position models, the years
    from 1700-01-01 to 2200-01-01, in [ut] and in [tt]. *)
Definition in_model_window (DeltaT : R -> R) (time : astro_time_t) : Prop :=
  ut (Astronomy_MakeTime DeltaT 1700 1 1 0 0 0) <= ut time
  /\ ut time < ut (Astronomy_MakeTime DeltaT 2200 1 1 0 0 0)
  /\ tt (Astronomy_MakeTime DeltaT 1700 1 1 0 0 0) <= tt time
  /\ tt time < tt (Astronomy_MakeTime DeltaT 2200 1 1 0 0 0).

(** The record type and the body name of a line. *)
Definition line_tag (l : line) : ascii :=
  match l with
  | o_line _ _ _ => "o"
  | v_line _ _ _ _ _ => "v"
  | s_line _ _ _ _ _ _ _ _ => "s"
  end%char.

Definition line_name (l : line) : string :=
  match l with
  | o_line _ _ _ => EmptyString
  | v_line name _ _ _ _ => name
  | s_line name _ _ _ _ _ _ _ => name
  end.

Definition line_kind (l : line) : ascii * string := (line_tag l, line_name l).

(** The record types and names one complete round writes. *)
Definition round_kinds : list (ascii * string) :=
  let v := "v"%char in
  let s := "s"%char in
  [(v, "Sun"); (s, "Sun"); (v, "Mercury"); (s, "Mercury");
   (v, "Venus"); (s, "Venus"); (v, "Earth");
   (v, "Mars"); (s, "Mars"); (v, "Jupiter"); (s, "Jupiter");
   (v, "Saturn"); (s, "Saturn"); (v, "Uranus"); (s, "Uranus");
   (v, "Neptune"); (s, "Neptune"); (v, "Pluto"); (s, "Pluto");
   (v, "GM"); (s, "GM")]%string.

(** The record types and names the [for] loop writes for a list of bodies. *)
Definition bodies_kinds (bodies : list astro_body_t) : list (ascii * string) :=
  flat_map (fun body =>
              if is_earth body then [("v"%char, Astronomy_BodyName body)]
              else [("v"%char, Astronomy_BodyName body);
                    ("s"%char, Astronomy_BodyName body)])
           bodies.

(** [l1] is an initial part of [l2]. *)
Definition prefix {A : Type} (l1 l2 : list A) : Prop :=
  exists l3 : list A, l2 = l1 ++ l3.

End AstroCheckRun.

(** ** Moon quarters *)

Module MoonQuarter.

Import TimeModel.

(** Modelled from the spec: [astro_moon_quarter_t], declared in the absent
    [astronomy.h]; the fields of a found quarter, [quarter] being 0 = new
    moon, 1 = first quarter, 2 = full moon, 3 = third quarter. *)
Record astro_moon_quarter_t : Type := mkMoonQuarter {
  quarter : Z;
  time : astro_time_t
}.

Section Searches.

Variable DeltaT : R -> R.

(** [SearchMoonPhase(targetLon, startTime, limitDays)]: the time the Moon
    reaches the phase [targetLon] within [limitDays] after [startTime], or
    no result.  It is not among the sources. *)
Variable SearchMoonPhase : R -> astro_time_t -> R -> option astro_time_t.

(** How far after the previous event the next search starts, and the
    length of its window, in days. *)
Variable skip_days : R.
Variable limit_days : R.

(** Modelled from the spec: [Astronomy_NextMoonQuarter], of the absent
    [astronomy.c]; it advances the target index mod 4 and searches again
    from just after the previous event.  [None] is the absent result. *)
Definition Astronomy_NextMoonQuarter (mq : astro_moon_quarter_t)
  : option astro_moon_quarter_t :=
  let target := ((quarter mq + 1) mod 4)%Z in
  let start := Astronomy_AddDays DeltaT (time mq) skip_days in
  match SearchMoonPhase (90 * IZR target) start limit_days with
  | Some t => Some {| quarter := target; time := t |}
  | None => None
  end.

(** [n] calls of [Astronomy_NextMoonQuarter] in a row, each on the result
    of the one before. *)
Fixpoint next_quarters (n : nat) (mq : astro_moon_quarter_t)
  : option astro_moon_quarter_t :=
  match n with
  | O => Some mq
  | S n' =>
      match Astronomy_NextMoonQuarter mq with
      | Some mq' => next_quarters n' mq'
      | None => None
      end
  end.

End Searches.

(** Modelled from the spec: a search never reports a time before the
    start of its window. *)
Definition searches_forward
           (SearchMoonPhase : R -> astro_time_t -> R -> option astro_time_t)
  : Prop :=
  forall (targetLon : R) (startTime : astro_time_t) (limitDays : R)
         (t : astro_time_t),
    SearchMoonPhase targetLon startTime limitDays = Some t ->
    ut startTime <= ut t.

End MoonQuarter.

(** ** FrameGraph: rotation matrices *)

Module FrameGraph.

Import TimeModel.

(** Modelled from the spec: [RotationMatrix], [rot[3][3]] of the absent
    library; [rIJ] is row [I], column [J] of the matrix that acts on
    column vectors. *)
Record RotationMatrix : Type := mkRotation {
  r00 : R; r01 : R; r02 : R;
  r10 : R; r11 : R; r12 : R;
  r20 : R; r21 : R; r22 : R
}.

Definition identity_matrix : RotationMatrix :=
  mkRotation 1 0 0
             0 1 0
             0 0 1.

Definition transpose (m : RotationMatrix) : RotationMatrix :=
  mkRotation (r00 m) (r10 m) (r20 m)
             (r01 m) (r11 m) (r21 m)
             (r02 m) (r12 m) (r22 m).

(** The matrix product [a·b]. *)
Definition product (a b : RotationMatrix) : RotationMatrix :=
  mkRotation
    (r00 a * r00 b + r01 a * r10 b + r02 a * r20 b)
    (r00 a * r01 b + r01 a * r11 b + r02 a * r21 b)
    (r00 a * r02 b + r01 a * r12 b + r02 a * r22 b)
    (r10 a * r00 b + r11 a * r10 b + r12 a * r20 b)
    (r10 a * r01 b + r11 a * r11 b + r12 a * r21 b)
    (r10 a * r02 b + r11 a * r12 b + r12 a * r22 b)
    (r20 a * r00 b + r21 a * r10 b + r22 a * r20 b)
    (r20 a * r01 b + r21 a * r11 b + r22 a * r21 b)
    (r20 a * r02 b + r21 a * r12 b + r22 a * r22 b).

Definition determinant (m : RotationMatrix) : R :=
  r00 m * (r11 m * r22 m - r12 m * r21 m)
  - r01 m * (r10 m * r22 m - r12 m * r20 m)
  + r02 m * (r10 m * r21 m - r11 m * r20 m).

(** Modelled from the spec: the invariant of a rotation matrix, rows and
    columns of unit length and mutually orthogonal, determinant [+1]. *)
Definition orthonormal (m : RotationMatrix) : Prop :=
  product m (transpose m) = identity_matrix
  /\ product (transpose m) m = identity_matrix
  /\ determinant m = 1.

(** Modelled from the spec: [InverseRotation], of the absent library; the
    inverse is the transpose, with no numeric inversion. *)
Definition InverseRotation (rotation : RotationMatrix) : RotationMatrix :=
  transpose rotation.

(** Modelled from the spec: [CombineRotation], of the absent library;
    applying [a] then [b] acts on a column vector as [b·(a·v)]. *)
Definition CombineRotation (a b : RotationMatrix) : RotationMatrix :=
  product b a.

(** Modelled from the spec: the four orientation systems. *)
Inductive frame : Type := EQJ | EQD | ECL | HOR.

Section Graph.

(** The observer of the horizontal system. *)
Variable Observer : Type.

(** The edges of the graph, from the fixed frame [EQJ] outwards: the tilt
    of the ecliptic, precession with nutation at a time, and the
    observer's horizon at a time.  Their numbers come from the Earth
    orientation model, which is not among the sources. *)
Variable rot_EQJ_ECL : RotationMatrix.
Variable rot_EQJ_EQD : astro_time_t -> RotationMatrix.
Variable rot_EQD_HOR : astro_time_t -> Observer -> RotationMatrix.

(** Modelled from the spec: the rotation from [EQJ] to a frame, along the
    edges of the graph. *)
Definition from_EQJ (b : frame) (time : astro_time_t) (observer : Observer)
  : RotationMatrix :=
  match b with
  | EQJ => identity_matrix
  | ECL => rot_EQJ_ECL
  | EQD => rot_EQJ_EQD time
  | HOR => CombineRotation (rot_EQJ_EQD time) (rot_EQD_HOR time observer)
  end.

(** Modelled from the spec: the family [Rotation_A_B], of the absent
    library, for every ordered pair of frames: back to [EQJ] by the
    inverse, then out to the target. *)
Definition Rotation (a b : frame) (time : astro_time_t) (observer : Observer)
  : RotationMatrix :=
  CombineRotation (InverseRotation (from_EQJ a time observer))
                  (from_EQJ b time observer).

End Graph.

End FrameGraph.

(** ** [sscanf] with the conversions of the other tests of [ctest.c] *)

Module CScan.

Import CLib.
Local Open Scope Z_scope.

(** Up to [width] leading characters of [s] that belong to a scan set, and
    what follows them. *)
Fixpoint take_set (allowed : ascii -> bool) (width : nat) (s : string)
  : string * string :=
  match width, s with
  | S w, String c s' =>
      if allowed c then
        let (l, r) := take_set allowed w s' in (String c l, r)
      else (EmptyString, s)
  | _, _ => (EmptyString, s)
  end.

(** The subject sequence of [%d]: an optional sign, then decimal digits.
    The value is the integer the digits denote; an [int] holds it when it
    is within its range. *)
Definition scan_int (s : string) : option (Z * string) :=
  let (neg, s1) := take_sign s in
  let '(v, n, s2) := take_digits s1 0 0 in
  if n =? 0 then None else Some ((if neg then - v else v), s2).

(** The directives of the formats. *)
Inductive conversion : Type :=
| CChar (c : ascii)                            (* an ordinary character *)
| CSpace                                       (* white space in the format *)
| CInt                                         (* [%d] *)
| CDouble                                      (* [%lf] *)
| CSet (width : nat) (allowed : ascii -> bool) (* [%w[...]] *).

(** What a conversion stores through its pointer argument. *)
Inductive value : Type :=
| VInt (z : Z)
| VDouble (q : Q)
| VString (s : string).

(** The values stored so far, in order, and whether the scan stopped
    because the input ended. *)
Fixpoint scan (fmt : list conversion) (s : string) (vals : list value)
  : bool * list value :=
  match fmt with
  | [] => (false, vals)
  | CSpace :: fmt' => scan fmt' (skip_space s) vals
  | CChar c :: fmt' =>
      match s with
      | EmptyString => (true, vals)
      | String c' s' =>
          if Ascii.eqb c c' then scan fmt' s' vals else (false, vals)
      end
  | CInt :: fmt' =>
      match skip_space s with
      | EmptyString => (true, vals)
      | s1 =>
          match scan_int s1 with
          | None => (false, vals)
          | Some (z, r) => scan fmt' r (vals ++ [VInt z])
          end
      end
  | CDouble :: fmt' =>
      match skip_space s with
      | EmptyString => (true, vals)
      | s1 =>
          match scan_double s1 with
          | None => (false, vals)
          | Some (q, r) => scan fmt' r (vals ++ [VDouble q])
          end
      end
  | CSet w allowed :: fmt' =>
      match s with
      | EmptyString => (true, vals)
      | _ =>
          let (l, r) := take_set allowed w s in
          match l with
          | EmptyString => (false, vals)
          | _ => scan fmt' r (vals ++ [VString l])
          end
      end
  end.

(** [sscanf(s, fmt, ...)]: the return value, the number of values stored
    or [EOF] when the input ends before the first of them, and the values. *)
Definition sscanf (s : string) (fmt : list conversion) : Z * list value :=
  let (input_end, vals) := scan fmt s [] in
  (match vals with
   | [] => if input_end then EOF else 0
   | _ => Z.of_nat (List.length vals)
   end, vals).

(** The variable the [k]-th conversion has stored into. *)
Definition int_arg (k : nat) (vals : list value) : Z :=
  match nth_error vals k with
  | Some (VInt z) => z
  | _ => 0
  end.

Definition double_arg (k : nat) (vals : list value) : Q :=
  match nth_error vals k with
  | Some (VDouble q) => q
  | _ => 0%Q
  end.

Definition string_arg (k : nat) (vals : list value) : string :=
  match nth_error vals k with
  | Some (VString s) => s
  | _ => EmptyString
  end.

(** Every character of a string is in a scan set. *)
Fixpoint all_in (allowed : ascii -> bool) (s : string) : bool :=
  match s with
  | EmptyString => true
  | String c s' => allowed c && all_in allowed s'
  end.

(** The values are what the leading conversions of a format store: an
    integer for [%d], a double for [%lf], and for [%w[...]] a string of one
    to [w] characters of the set. *)
Fixpoint conforms (fmt : list conversion) (vals : list value) : Prop :=
  match fmt with
  | [] => vals = []
  | CChar _ :: fmt' => conforms fmt' vals
  | CSpace :: fmt' => conforms fmt' vals
  | CInt :: fmt' =>
      match vals with
      | [] => True
      | VInt _ :: vals' => conforms fmt' vals'
      | _ => False
      end
  | CDouble :: fmt' =>
      match vals with
      | [] => True
      | VDouble _ :: vals' => conforms fmt' vals'
      | _ => False
      end
  | CSet w allowed :: fmt' =>
      match vals with
      | [] => True
      | VString l :: vals' =>
          (l <> EmptyString /\ (String.length l <= w)%nat
           /\ all_in allowed l = true)
          /\ conforms fmt' vals'
      | _ => False
      end
  end.

End CScan.

(** ** [ctest.c]: [RiseSet] *)

Module RiseSetTest.

Import CLib CScan.
Local Open Scope Z_scope.

(** The scan set [[rs]]. *)
Definition is_rs (c : ascii) : bool := Ascii.eqb c "r" || Ascii.eqb c "s".

(** ["%9[A-Za-z] %lf %lf %d-%d-%dT%d:%dZ %1[rs]"]. *)
Definition riseset_format : list conversion :=
  [CSet 9 isletter; CSpace; CDouble; CSpace; CDouble; CSpace;
   CInt; CChar "-"; CInt; CChar "-"; CInt; CChar "T"; CInt; CChar ":"; CInt;
   CChar "Z"; CSpace; CSet 1 is_rs].

(** The [while (fgets(line, sizeof(line), infile))] loop over the lines
    still to read: the value of [error] at the label [fail].  [direction]
    is set and not used. *)
Fixpoint RiseSet_loop (lines : list string) (lnum : Z) : Z :=
  match lines with
  | [] => 0
  | line :: rest =>
      let lnum := lnum + 1 in
      let (nscanned, vals) := sscanf line riseset_format in
      if negb (nscanned =? 9) then 1
      else
        let kind := string_arg 8 vals in
        if String.eqb kind "r" then
          let direction := 1 in RiseSet_loop rest lnum
        else if String.eqb kind "s" then
          let direction := -1 in RiseSet_loop rest lnum
        else 1
  end.

(** [RiseSet(filename)]; [infile] is the content of the file, [None] when
    [fopen] fails.  [line] has room for 99 characters. *)
Definition RiseSet (infile : option string) : Z :=
  match infile with
  | None => 1
  | Some file => RiseSet_loop (fgets_all 100 file) 0
  end.

End RiseSetTest.

(** ** [ctest.c]: the maximum elongation table and [SearchElongTest] *)

Module ElongTest.

Import CLib CScan TimeModel AstroCheckRun.

(** [astro_visibility_t], declared in [astronomy.h], which is not among
    the sources: the values [ctest.c] names. *)
Inductive astro_visibility_t : Type :=
| VISIBLE_MORNING
| VISIBLE_EVENING.

(** [astro_elongation_t], declared there too: the fields [ctest.c]
    reads. *)
Record astro_elongation_t : Type := mkElongation {
  elo_status : astro_status_t;
  elo_time : astro_time_t;
  elongation : R
}.

(** [elong_test_t]. *)
Record elong_test_t : Type := mkElongTest {
  body : astro_body_t;
  searchDate : string;
  eventDate : string;
  angle : R;
  visibility : astro_visibility_t
}.

(** [ElongTestData]. *)
Definition ElongTestData : list elong_test_t :=
  [
   mkElongTest BODY_MERCURY "2010-01-17T05:22Z" "2010-01-27T05:22Z" 24.80 VISIBLE_MORNING;
   mkElongTest BODY_MERCURY "2010-05-16T02:15Z" "2010-05-26T02:15Z" 25.10 VISIBLE_MORNING;
   mkElongTest BODY_MERCURY "2010-09-09T17:24Z" "2010-09-19T17:24Z" 17.90 VISIBLE_MORNING;
   mkElongTest BODY_MERCURY "2010-12-30T14:33Z" "2011-01-09T14:33Z" 23.30 VISIBLE_MORNING;
   mkElongTest BODY_MERCURY "2011-04-27T19:03Z" "2011-05-07T19:03Z" 26.60 VISIBLE_MORNING;
   mkElongTest BODY_MERCURY "2011-08-24T05:52Z" "2011-09-03T05:52Z" 18.10 VISIBLE_MORNING;
   mkElongTest BODY_MERCURY "2011-12-13T02:56Z" "2011-12-23T02:56Z" 21.80 VISIBLE_MORNING;
   mkElongTest BODY_MERCURY "2012-04-08T17:22Z" "2012-04-18T17:22Z" 27.50 VISIBLE_MORNING;
   mkElongTest BODY_MERCURY "2012-08-06T12:04Z" "2012-08-16T12:04Z" 18.70 VISIBLE_MORNING;
   mkElongTest BODY_MERCURY "2012-11-24T22:55Z" "2012-12-04T22:55Z" 20.60 VISIBLE_MORNING;
   mkElongTest BODY_MERCURY "2013-03-21T22:02Z" "2013-03-31T22:02Z" 27.80 VISIBLE_MORNING;
   mkElongTest BODY_MERCURY "2013-07-20T08:51Z" "2013-07-30T08:51Z" 19.60 VISIBLE_MORNING;
   mkElongTest BODY_MERCURY "2013-11-08T02:28Z" "2013-11-18T02:28Z" 19.50 VISIBLE_MORNING;
   mkElongTest BODY_MERCURY "2014-03-04T06:38Z" "2014-03-14T06:38Z" 27.60 VISIBLE_MORNING;
   mkElongTest BODY_MERCURY "2014-07-02T18:22Z" "2014-07-12T18:22Z" 20.90 VISIBLE_MORNING;
   mkElongTest BODY_MERCURY "2014-10-22T12:36Z" "2014-11-01T12:36Z" 18.70 VISIBLE_MORNING;
   mkElongTest BODY_MERCURY "2015-02-14T16:20Z" "2015-02-24T16:20Z" 26.70 VISIBLE_MORNING;
   mkElongTest BODY_MERCURY "2015-06-14T17:10Z" "2015-06-24T17:10Z" 22.50 VISIBLE_MORNING;
   mkElongTest BODY_MERCURY "2015-10-06T03:20Z" "2015-10-16T03:20Z" 18.10 VISIBLE_MORNING;
   mkElongTest BODY_MERCURY "2016-01-28T01:22Z" "2016-02-07T01:22Z" 25.60 VISIBLE_MORNING;
   mkElongTest BODY_MERCURY "2016-05-26T08:45Z" "2016-06-05T08:45Z" 24.20 VISIBLE_MORNING;
   mkElongTest BODY_MERCURY "2016-09-18T19:27Z" "2016-09-28T19:27Z" 17.90 VISIBLE_MORNING;
   mkElongTest BODY_MERCURY "2017-01-09T09:42Z" "2017-01-19T09:42Z" 24.10 VISIBLE_MORNING;
   mkElongTest BODY_MERCURY "2017-05-07T23:19Z" "2017-05-17T23:19Z" 25.80 VISIBLE_MORNING;
   mkElongTest BODY_MERCURY "2017-09-02T10:14Z" "2017-09-12T10:14Z" 17.90 VISIBLE_MORNING;
   mkElongTest BODY_MERCURY "2017-12-22T19:48Z" "2018-01-01T19:48Z" 22.70 VISIBLE_MORNING;
   mkElongTest BODY_MERCURY "2018-04-19T18:17Z" "2018-04-29T18:17Z" 27.00 VISIBLE_MORNING;
   mkElongTest BODY_MERCURY "2018-08-16T20:35Z" "2018-08-26T20:35Z" 18.30 VISIBLE_MORNING;
   mkElongTest BODY_MERCURY "2018-12-05T11:34Z" "2018-12-15T11:34Z" 21.30 VISIBLE_MORNING;
   mkElongTest BODY_MERCURY "2019-04-01T19:40Z" "2019-04-11T19:40Z" 27.70 VISIBLE_MORNING;
   mkElongTest BODY_MERCURY "2019-07-30T23:08Z" "2019-08-09T23:08Z" 19.00 VISIBLE_MORNING;
   mkElongTest BODY_MERCURY "2019-11-18T10:31Z" "2019-11-28T10:31Z" 20.10 VISIBLE_MORNING;
   mkElongTest BODY_MERCURY "2010-03-29T23:32Z" "2010-04-08T23:32Z" 19.40 VISIBLE_EVENING;
   mkElongTest BODY_MERCURY "2010-07-28T01:03Z" "2010-08-07T01:03Z" 27.40 VISIBLE_EVENING;
   mkElongTest BODY_MERCURY "2010-11-21T15:42Z" "2010-12-01T15:42Z" 21.50 VISIBLE_EVENING;
   mkElongTest BODY_MERCURY "2011-03-13T01:07Z" "2011-03-23T01:07Z" 18.60 VISIBLE_EVENING;
   mkElongTest BODY_MERCURY "2011-07-10T04:56Z" "2011-07-20T04:56Z" 26.80 VISIBLE_EVENING;
   mkElongTest BODY_MERCURY "2011-11-04T08:40Z" "2011-11-14T08:40Z" 22.70 VISIBLE_EVENING;
   mkElongTest BODY_MERCURY "2012-02-24T09:39Z" "2012-03-05T09:39Z" 18.20 VISIBLE_EVENING;
   mkElongTest BODY_MERCURY "2012-06-21T02:00Z" "2012-07-01T02:00Z" 25.70 VISIBLE_EVENING;
   mkElongTest BODY_MERCURY "2012-10-16T21:59Z" "2012-10-26T21:59Z" 24.10 VISIBLE_EVENING;
   mkElongTest BODY_MERCURY "2013-02-06T21:24Z" "2013-02-16T21:24Z" 18.10 VISIBLE_EVENING;
   mkElongTest BODY_MERCURY "2013-06-02T16:45Z" "2013-06-12T16:45Z" 24.30 VISIBLE_EVENING;
   mkElongTest BODY_MERCURY "2013-09-29T09:59Z" "2013-10-09T09:59Z" 25.30 VISIBLE_EVENING;
   mkElongTest BODY_MERCURY "2014-01-21T10:00Z" "2014-01-31T10:00Z" 18.40 VISIBLE_EVENING;
   mkElongTest BODY_MERCURY "2014-05-15T07:06Z" "2014-05-25T07:06Z" 22.70 VISIBLE_EVENING;
   mkElongTest BODY_MERCURY "2014-09-11T22:20Z" "2014-09-21T22:20Z" 26.40 VISIBLE_EVENING;
   mkElongTest BODY_MERCURY "2015-01-04T20:26Z" "2015-01-14T20:26Z" 18.90 VISIBLE_EVENING;
   mkElongTest BODY_MERCURY "2015-04-27T04:46Z" "2015-05-07T04:46Z" 21.20 VISIBLE_EVENING;
   mkElongTest BODY_MERCURY "2015-08-25T10:20Z" "2015-09-04T10:20Z" 27.10 VISIBLE_EVENING;
   mkElongTest BODY_MERCURY "2015-12-19T03:11Z" "2015-12-29T03:11Z" 19.70 VISIBLE_EVENING;
   mkElongTest BODY_MERCURY "2016-04-08T14:00Z" "2016-04-18T14:00Z" 19.90 VISIBLE_EVENING;
   mkElongTest BODY_MERCURY "2016-08-06T21:24Z" "2016-08-16T21:24Z" 27.40 VISIBLE_EVENING;
   mkElongTest BODY_MERCURY "2016-12-01T04:36Z" "2016-12-11T04:36Z" 20.80 VISIBLE_EVENING;
   mkElongTest BODY_MERCURY "2017-03-22T10:24Z" "2017-04-01T10:24Z" 19.00 VISIBLE_EVENING;
   mkElongTest BODY_MERCURY "2017-07-20T04:34Z" "2017-07-30T04:34Z" 27.20 VISIBLE_EVENING;
   mkElongTest BODY_MERCURY "2017-11-14T00:32Z" "2017-11-24T00:32Z" 22.00 VISIBLE_EVENING;
   mkElongTest BODY_MERCURY "2018-03-05T15:07Z" "2018-03-15T15:07Z" 18.40 VISIBLE_EVENING;
   mkElongTest BODY_MERCURY "2018-07-02T05:24Z" "2018-07-12T05:24Z" 26.40 VISIBLE_EVENING;
   mkElongTest BODY_MERCURY "2018-10-27T15:25Z" "2018-11-06T15:25Z" 23.30 VISIBLE_EVENING;
   mkElongTest BODY_MERCURY "2019-02-17T01:23Z" "2019-02-27T01:23Z" 18.10 VISIBLE_EVENING;
   mkElongTest BODY_MERCURY "2019-06-13T23:14Z" "2019-06-23T23:14Z" 25.20 VISIBLE_EVENING;
   mkElongTest BODY_MERCURY "2019-10-10T04:00Z" "2019-10-20T04:00Z" 24.60 VISIBLE_EVENING;
   mkElongTest BODY_VENUS "2010-12-29T15:57Z" "2011-01-08T15:57Z" 47.00 VISIBLE_MORNING;
   mkElongTest BODY_VENUS "2012-08-05T08:59Z" "2012-08-15T08:59Z" 45.80 VISIBLE_MORNING;
   mkElongTest BODY_VENUS "2014-03-12T19:25Z" "2014-03-22T19:25Z" 46.60 VISIBLE_MORNING;
   mkElongTest BODY_VENUS "2015-10-16T06:57Z" "2015-10-26T06:57Z" 46.40 VISIBLE_MORNING;
   mkElongTest BODY_VENUS "2017-05-24T13:09Z" "2017-06-03T13:09Z" 45.90 VISIBLE_MORNING;
   mkElongTest BODY_VENUS "2018-12-27T04:24Z" "2019-01-06T04:24Z" 47.00 VISIBLE_MORNING;
   mkElongTest BODY_VENUS "2010-08-10T03:19Z" "2010-08-20T03:19Z" 46.00 VISIBLE_EVENING;
   mkElongTest BODY_VENUS "2012-03-17T08:03Z" "2012-03-27T08:03Z" 46.00 VISIBLE_EVENING;
   mkElongTest BODY_VENUS "2013-10-22T08:00Z" "2013-11-01T08:00Z" 47.10 VISIBLE_EVENING;
   mkElongTest BODY_VENUS "2015-05-27T18:46Z" "2015-06-06T18:46Z" 45.40 VISIBLE_EVENING;
   mkElongTest BODY_VENUS "2017-01-02T13:19Z" "2017-01-12T13:19Z" 47.10 VISIBLE_EVENING;
   mkElongTest BODY_VENUS "2018-08-07T17:02Z" "2018-08-17T17:02Z" 45.90 VISIBLE_EVENING
  ]%string.

(** ["%d-%d-%dT%d:%dZ"]. *)
Definition date_format : list conversion :=
  [CInt; CChar "-"; CInt; CChar "-"; CInt; CChar "T"; CInt; CChar ":"; CInt;
   CChar "Z"].

Section Library.

(** The library functions the test calls; they are not among the
    sources. *)
Variable Astronomy_MakeTime : Z -> Z -> Z -> Z -> Z -> R -> astro_time_t.
Variable Astronomy_SearchMaxElongation :
  astro_body_t -> astro_time_t -> astro_elongation_t.

(** [ParseDate(text, &time)]: [Some time] for the return value 0; [None]
    for the return value 1, when [*time] is left holding NaN. *)
Definition ParseDate (text : string) : option astro_time_t :=
  let (nscanned, vals) := sscanf text date_format in
  if negb (nscanned =? 5)%Z then None
  else Some (Astronomy_MakeTime (int_arg 0 vals) (int_arg 1 vals)
                                (int_arg 2 vals) (int_arg 3 vals)
                                (int_arg 4 vals) 0).

(** [TestMaxElong(test)].  The two [switch]es choose the words printed
    and reject any other body; [error] is set by each [CHECK], so that it
    is 0 when the end is reached. *)
Definition TestMaxElong (test : elong_test_t) : Z :=
  match body test with
  | BODY_MERCURY | BODY_VENUS =>
      match ParseDate (searchDate test) with
      | None => 1%Z
      | Some searchTime =>
          match ParseDate (eventDate test) with
          | None => 1%Z
          | Some eventTime =>
              let evt := Astronomy_SearchMaxElongation (body test) searchTime in
              if negb (is_success (elo_status evt)) then 1%Z
              else
                let hour_diff := 24 * Rabs (tt (elo_time evt) - tt eventTime) in
                let arcmin_diff := 60 * Rabs (elongation evt - angle test) in
                if Rlt_dec 0.6 hour_diff then 1%Z
                else if Rlt_dec 3.1 arcmin_diff then 1%Z
                else 0%Z
          end
      end
  | _ => 1%Z
  end.

(** The [for] loop of [SearchElongTest] over the rows still to do. *)
Fixpoint SearchElongTest_loop (tests : list elong_test_t) : Z :=
  match tests with
  | [] => 0
  | test :: rest =>
      let error := TestMaxElong test in
      if negb (error =? 0) then error else SearchElongTest_loop rest
  end%Z.

(** [SearchElongTest()]. *)
Definition SearchElongTest : Z := SearchElongTest_loop ElongTestData.

End Library.

(** The part of a row the test reads before it calls the library: a body
    it has a name for, and two dates of five numbers. *)
Definition row_readable (test : elong_test_t) : bool :=
  match body test with
  | BODY_MERCURY | BODY_VENUS => true
  | _ => false
  end
  && (fst (sscanf (searchDate test) date_format) =? 5)%Z
  && (fst (sscanf (eventDate test) date_format) =? 5)%Z.

End ElongTest.

(** ** [ctest.c]: [SeasonsTest] *)

Module SeasonsRun.

Import CLib CScan TimeModel AstroCheckRun.

(** [astro_seasons_t], declared in [astronomy.h], which is not among the
    sources: the fields [ctest.c] reads. *)
Record astro_seasons_t : Type := mkSeasons {
  sea_status : astro_status_t;
  mar_equinox : astro_time_t;
  jun_solstice : astro_time_t;
  sep_equinox : astro_time_t;
  dec_solstice : astro_time_t
}.

(** ["%d-%d-%dT%d:%dZ %10[A-Za-z]"]. *)
Definition seasons_format : list conversion :=
  [CInt; CChar "-"; CInt; CChar "-"; CInt; CChar "T"; CInt; CChar ":"; CInt;
   CChar "Z"; CSpace; CSet 10 isletter].

Section Library.

(** The library functions the test calls; they are not among the
    sources. *)
Variable Astronomy_MakeTime : Z -> Z -> Z -> Z -> Z -> R -> astro_time_t.
Variable Astronomy_Seasons : Z -> astro_seasons_t.

(** The end of an iteration that has chosen [calc_time]: the comparison
    with [correct_time], then [rest], the remaining iterations.
    [max_minutes] and the four counters are only printed. *)
Definition verify_time (calc_time correct_time : astro_time_t) (rest : Z) : Z :=
  let diff_minutes := (24 * 60) * Rabs (tt calc_time - tt correct_time) in
  if Rlt_dec 1.7 diff_minutes then 1%Z else rest.

(** The [while (fgets(line, sizeof(line), infile))] loop over the lines
    still to read, with the [current_year] and the [seasons] kept from one
    line to the next: the value of [error] at the label [fail]. *)
Fixpoint SeasonsTest_loop (lines : list string) (current_year : Z)
         (seasons : astro_seasons_t) : Z :=
  match lines with
  | [] => 0%Z
  | line :: rest =>
      let (nscanned, vals) := sscanf line seasons_format in
      if negb (nscanned =? 6)%Z then 1%Z
      else
        let year := int_arg 0 vals in
        let month := int_arg 1 vals in
        let day := int_arg 2 vals in
        let hour := int_arg 3 vals in
        let minute := int_arg 4 vals in
        let name := string_arg 5 vals in
        let changed := negb (year =? current_year)%Z in
        let current_year := if changed then year else current_year in
        let seasons := if changed then Astronomy_Seasons year else seasons in
        if changed && negb (is_success (sea_status seasons)) then 1%Z
        else
          let correct_time :=
            Astronomy_MakeTime year month day hour minute 0 in
          let next := SeasonsTest_loop rest current_year seasons in
          if String.eqb name "Equinox" then
            if (month =? 3)%Z then
              verify_time (mar_equinox seasons) correct_time next
            else if (month =? 9)%Z then
              verify_time (sep_equinox seasons) correct_time next
            else 1%Z
          else if String.eqb name "Solstice" then
            if (month =? 6)%Z then
              verify_time (jun_solstice seasons) correct_time next
            else if (month =? 12)%Z then
              verify_time (dec_solstice seasons) correct_time next
            else 1%Z
          else if String.eqb name "Aphelion" then next
          else if String.eqb name "Perihelion" then next
          else 1%Z
  end.

(** [SeasonsTest(filename)]; [infile] is the content of the file, [None]
    when [fopen] fails, and [zeroed] the [seasons] that
    [memset(&seasons, 0, sizeof(seasons))] leaves. *)
Definition SeasonsTest (zeroed : astro_seasons_t) (infile : option string)
  : Z :=
  match infile with
  | None => 1%Z
  | Some file => SeasonsTest_loop (fgets_all 200 file) 0%Z zeroed
  end.

(** A line the library confirms, taken by itself: six fields, the seasons
    of its year computed, and for an equinox or a solstice the event of
    the month of the line within 1.7 minutes of the time of the line. *)
Definition line_confirmed (line : string) : Prop :=
  let vals := snd (sscanf line seasons_format) in
  let year := int_arg 0 vals in
  let month := int_arg 1 vals in
  let name := string_arg 5 vals in
  let seasons := Astronomy_Seasons year in
  let correct_time :=
    Astronomy_MakeTime year month (int_arg 2 vals) (int_arg 3 vals)
                       (int_arg 4 vals) 0 in
  let within (calc_time : astro_time_t) : Prop :=
    (24 * 60) * Rabs (tt calc_time - tt correct_time) <= 1.7 in
  fst (sscanf line seasons_format) = 6%Z
  /\ sea_status seasons = ASTRO_SUCCESS
  /\ ((name = "Equinox"%string /\ month = 3%Z /\ within (mar_equinox seasons))
      \/ (name = "Equinox"%string /\ month = 9%Z
          /\ within (sep_equinox seasons))
      \/ (name = "Solstice"%string /\ month = 6%Z
          /\ within (jun_solstice seasons))
      \/ (name = "Solstice"%string /\ month = 12%Z
          /\ within (dec_solstice seasons))
      \/ name = "Aphelion"%string
      \/ name = "Perihelion"%string).

End Library.

End SeasonsRun.

(** ** [ctest.c]: [MoonPhase] *)

Module MoonPhaseRun.

Import CLib CScan TimeModel AstroCheckRun.

(** [astro_angle_result_t] and [astro_moon_quarter_t], declared in
    [astronomy.h], which is not among the sources: the fields [ctest.c]
    reads. *)
Record astro_angle_result_t : Type := mkAngleResult {
  ang_status : astro_status_t;
  angle : R
}.

Record astro_moon_quarter_t : Type := mkMoonQuarter {
  mq_status : astro_status_t;
  mq_quarter : Z;
  mq_time : astro_time_t
}.

(** ["%d %d-%d-%dT%d:%d:%lfZ"]. *)
Definition moonphase_format : list conversion :=
  [CInt; CSpace; CInt; CChar "-"; CInt; CChar "-"; CInt; CChar "T"; CInt;
   CChar ":"; CInt; CChar ":"; CDouble; CChar "Z"].

(** [degree_error], as [MoonPhase] computes it from the angle the library
    returns and [expected_elong]. *)
Definition degree_error (angle expected_elong : R) : R :=
  let degree_error := Rabs (angle - expected_elong) in
  if Rlt_dec 180 degree_error then 360 - degree_error else degree_error.

Section Library.

(** The library functions the test calls; they are not among the
    sources. *)
Variable Astronomy_MakeTime : Z -> Z -> Z -> Z -> Z -> R -> astro_time_t.
Variable Astronomy_MoonPhase : astro_time_t -> astro_angle_result_t.
Variable Astronomy_SearchMoonQuarter : astro_time_t -> astro_moon_quarter_t.
Variable Astronomy_NextMoonQuarter :
  astro_moon_quarter_t -> astro_moon_quarter_t.

(** The [while (fgets(line, sizeof(line), infile))] loop over the lines
    still to read, with the [prev_year] and the [mq] kept from one line to
    the next: the value of [error] at the label [fail].  [%] is the
    remainder of C, which truncates.  [max_arcmin], [maxdiff] and
    [quarter_count] are only printed. *)
Fixpoint MoonPhase_loop (lines : list string) (prev_year : Z)
         (mq : astro_moon_quarter_t) : Z :=
  match lines with
  | [] => 0%Z
  | line :: rest =>
      let (nscanned, vals) := sscanf line moonphase_format in
      if negb (nscanned =? 7)%Z then 1%Z
      else
        let quarter := int_arg 0 vals in
        let year := int_arg 1 vals in
        let month := int_arg 2 vals in
        let day := int_arg 3 vals in
        let hour := int_arg 4 vals in
        let minute := int_arg 5 vals in
        let second := Q2R (double_arg 6 vals) in
        if ((quarter <? 0) || (3 <? quarter))%Z then 1%Z
        else
          let expected_elong := 90 * IZR quarter in
          let expected_time :=
            Astronomy_MakeTime year month day hour minute second in
          let result := Astronomy_MoonPhase expected_time in
          let arcmin := 60 * degree_error (angle result) expected_elong in
          if Rlt_dec 1 arcmin then 1%Z
          else
            let changed := negb (year =? prev_year)%Z in
            let prev_year := if changed then year else prev_year in
            let expected_quarter :=
              if changed then (-1)%Z else Z.rem (1 + mq_quarter mq) 4 in
            let mq :=
              if changed then
                Astronomy_SearchMoonQuarter
                  (Astronomy_MakeTime year 1 1 0 0 0)
              else Astronomy_NextMoonQuarter mq in
            if negb (is_success (mq_status mq)) then 1%Z
            else if negb (expected_quarter =? -1)%Z
                    && negb (expected_quarter =? mq_quarter mq)%Z then 1%Z
            else
              let diff_seconds :=
                Rabs (tt (mq_time mq) - tt expected_time) * (24 * 3600) in
              if Rlt_dec 120 diff_seconds then 1%Z
              else MoonPhase_loop rest prev_year mq
  end.

(** [MoonPhase(filename)]; [infile] is the content of the file, [None]
    when [fopen] fails, and [filled] the [mq] that
    [memset(&mq, 0xcd, sizeof(mq))] leaves. *)
Definition MoonPhase (filled : astro_moon_quarter_t) (infile : option string)
  : Z :=
  match infile with
  | None => 1%Z
  | Some file => MoonPhase_loop (fgets_all 200 file) 0%Z filled
  end.

(** The year of a line and its [expected_time]. *)
Definition line_year (line : string) : Z :=
  int_arg 1 (snd (sscanf line moonphase_format)).

Definition line_time (line : string) : astro_time_t :=
  let vals := snd (sscanf line moonphase_format) in
  Astronomy_MakeTime (int_arg 1 vals) (int_arg 2 vals) (int_arg 3 vals)
                     (int_arg 4 vals) (int_arg 5 vals)
                     (Q2R (double_arg 6 vals)).

(** The quarter [n] calls of [Astronomy_NextMoonQuarter] after [mq]. *)
Fixpoint later_quarter (n : nat) (mq : astro_moon_quarter_t)
  : astro_moon_quarter_t :=
  match n with
  | O => mq
  | S n' => Astronomy_NextMoonQuarter (later_quarter n' mq)
  end.

End Library.

(** A library to run the test on: every time is the epoch, the phase angle
    is always 0, and each quarter found is the one after the last. *)
Definition sample_MakeTime (year month day hour minute : Z) (second : R)
  : astro_time_t := mkTime 0 0.

Definition sample_MoonPhase (time : astro_time_t) : astro_angle_result_t :=
  mkAngleResult ASTRO_SUCCESS 0.

Definition sample_SearchMoonQuarter (time : astro_time_t)
  : astro_moon_quarter_t := mkMoonQuarter ASTRO_SUCCESS 0 (mkTime 0 0).

Definition sample_NextMoonQuarter (mq : astro_moon_quarter_t)
  : astro_moon_quarter_t :=
  mkMoonQuarter ASTRO_SUCCESS (Z.rem (1 + mq_quarter mq) 4) (mkTime 0 0).

Definition sample_line1 : string :=
  String.append "0 1800-01-25T03:21:00.000Z" (String "010" EmptyString).

Definition sample_line2 : string :=
  String.append "0 1800-02-01T20:40:00.000Z" (String "010" EmptyString).

Definition sample_file : string := String.append sample_line1 sample_line2.

End MoonPhaseRun.

(** ** [ctest.c]: [TestPlanetLongitudes] *)

Module PlanetLongitudes.

Import TimeModel AstroCheckRun.

(** [astro_search_result_t], declared in [astronomy.h], which is not among
    the sources: the fields [TestPlanetLongitudes] reads. *)
Record astro_search_result_t : Type := mkSearchResult {
  sr_status : astro_status_t;
  sr_time : astro_time_t
}.

(** A line of the output file, with the values
    [fprintf(outfile, "e %s %s %0.16lf %0.16lf\n", ...)] prints. *)
Record e_line : Type := mkEvent {
  e_name : string;
  e_event : string;
  e_tt : R;
  e_dist : R
}.

(** [count], [min_diff], [max_diff] and [sum_diff]. *)
Record tally : Type := mkTally {
  count : Z;
  min_diff : R;
  max_diff : R;
  sum_diff : R
}.

(** The [switch (body)] that chooses [thresh]. *)
Definition thresh (body : astro_body_t) : R :=
  match body with
  | BODY_MERCURY => 1.65
  | BODY_MARS => 1.30
  | _ => 1.07
  end.

(** [ratio = max_diff / min_diff; if (ratio > thresh)].  A division by
    zero gives a double that is no real number: infinity, which is above
    [thresh], when [max_diff] is positive, and otherwise NaN, which
    compares false. *)
Definition ratio_exceeds (max_diff min_diff thresh : R) : bool :=
  if Req_dec_T min_diff 0 then
    if Rlt_dec 0 max_diff then true else false
  else if Rlt_dec thresh (max_diff / min_diff) then true else false.

Section Library.

(** The library functions the test calls; they are not among the
    sources. *)
Variable Astronomy_MakeTime : Z -> Z -> Z -> Z -> Z -> R -> astro_time_t.
Variable Astronomy_SearchRelativeLongitude :
  astro_body_t -> R -> astro_time_t -> astro_search_result_t.
Variable Astronomy_GeoVector :
  astro_body_t -> astro_time_t -> Z -> astro_vector_t.
Variable Astronomy_VectorLength : astro_vector_t -> R.

(** The [if (count >= 2)] block, [count] being already incremented. *)
Definition record_interval (t : tally) (count : Z) (day_diff : R) : tally :=
  if (2 <=? count)%Z then
    let sum_diff := sum_diff t + day_diff in
    if (count =? 2)%Z then mkTally count day_diff day_diff sum_diff
    else
      mkTally count
              (if Rlt_dec day_diff (min_diff t) then day_diff else min_diff t)
              (if Rlt_dec (max_diff t) day_diff then day_diff else max_diff t)
              sum_diff
  else mkTally count (min_diff t) (max_diff t) (sum_diff t).

(** The [while (time.tt < stopTime.tt)] loop: whether it was left by
    [goto fail], the tally, and the lines written.  [None] when the fuel
    does not suffice. *)
Fixpoint TestPlanetLongitudes_loop
         (fuel : nat) (body : astro_body_t) (name zeroLonEventName : string)
         (stopTime time : astro_time_t) (rlon : R) (t : tally)
  : option (bool * tally * list e_line) :=
  match fuel with
  | O => None
  | S fuel' =>
      if Rlt_dec (tt time) (tt stopTime) then
        let count := (count t + 1)%Z in
        let event :=
          if Req_dec_T rlon 0 then zeroLonEventName else "sup"%string in
        let search_result :=
          Astronomy_SearchRelativeLongitude body rlon time in
        if negb (is_success (sr_status search_result)) then
          Some (true, mkTally count (min_diff t) (max_diff t) (sum_diff t), [])
        else
          let t :=
            record_interval t count (tt (sr_time search_result) - tt time) in
          let geo := Astronomy_GeoVector body (sr_time search_result) 0 in
          if negb (is_success (vec_status geo)) then Some (true, t, [])
          else
            let dist := Astronomy_VectorLength geo in
            let line :=
              mkEvent name event (tt (sr_time search_result)) dist in
            match TestPlanetLongitudes_loop
                    fuel' body name zeroLonEventName stopTime
                    (sr_time search_result) (180 - rlon) t with
            | Some (failed, t', lines) => Some (failed, t', line :: lines)
            | None => None
            end
      else Some (false, t, [])
  end.

(** [TestPlanetLongitudes(body, outFileName, zeroLonEventName)]: the
    returned [error] and the lines of the output file; [outfile_opens] is
    whether [fopen] succeeds. *)
Definition TestPlanetLongitudes (body : astro_body_t) (outfile_opens : bool)
           (zeroLonEventName : string) (fuel : nat)
  : option (Z * list e_line) :=
  let name := Astronomy_BodyName body in
  match name with
  | EmptyString => Some (1%Z, [])
  | _ =>
      if negb outfile_opens then Some (1%Z, [])
      else
        let time := Astronomy_MakeTime 1700 1 1 0 0 0 in
        let stopTime := Astronomy_MakeTime 2200 1 1 0 0 0 in
        match TestPlanetLongitudes_loop fuel body name zeroLonEventName
                                        stopTime time 0
                                        (mkTally 0 1e99 1e99 0) with
        | None => None
        | Some (true, _, lines) => Some (1%Z, lines)
        | Some (false, t, lines) =>
            if ratio_exceeds (max_diff t) (min_diff t) (thresh body) then
              Some (1%Z, lines)
            else Some (0%Z, lines)
        end
  end.

End Library.

(** The differences between consecutive times, [prev] being the time
    before the first. *)
Fixpoint gaps_from (prev : R) (times : list R) : list R :=
  match times with
  | [] => []
  | x :: rest => (x - prev) :: gaps_from x rest
  end.

Definition gaps (times : list R) : list R :=
  match times with
  | [] => []
  | x :: rest => gaps_from x rest
  end.

(** A library to run the test on: a time is its year, and every search
    finds an event 300 days after its start. *)
Definition sample_MakeTime (year month day hour minute : Z) (second : R)
  : astro_time_t := mkTime (IZR year) (IZR year).

Definition sample_Search (body : astro_body_t) (rlon : R)
           (time : astro_time_t) : astro_search_result_t :=
  mkSearchResult ASTRO_SUCCESS (mkTime (ut time + 300) (tt time + 300)).

Definition sample_GeoVector (body : astro_body_t) (time : astro_time_t)
           (aberration : Z) : astro_vector_t :=
  mkVector ASTRO_SUCCESS 1 0 0 time.

Definition sample_VectorLength (v : astro_vector_t) : R := 1.

End PlanetLongitudes.

(** ** Basic facts about the notebook functions *)

Lemma Rleb_true (a b : R) : Rleb a b = true <-> a <= b.
Proof.
  unfold Rleb. destruct (Rle_dec a b); split; intros; try easy.
Qed.

Lemma Rleb_false (a b : R) : Rleb a b = false <-> b < a.
Proof.
  unfold Rleb. destruct (Rle_dec a b); split; intros; try easy; lra.
Qed.

Lemma in_range_true (x : R) : in_range x = true <-> -1 <= x <= 1.
Proof.
  unfold in_range. rewrite andb_true_iff, !Rleb_true. tauto.
Qed.

Lemma in_range_false (x : R) : in_range x = false <-> x < -1 \/ 1 < x.
Proof.
  unfold in_range. rewrite andb_false_iff, !Rleb_false. tauto.
Qed.

Lemma py_div_nonzero (a b : R) : b <> 0 -> py_div a b = Return (a / b).
Proof.
  intros Hb. unfold py_div. destruct (Req_dec_T b 0); [contradiction | reflexivity].
Qed.

Lemma py_sqrt_nonneg (u : R) : 0 <= u -> py_sqrt u = Return (sqrt u).
Proof.
  intros Hu. unfold py_sqrt. destruct (Rlt_dec u 0); [lra | reflexivity].
Qed.

(** [Solve] as plain case analysis, once the checked operations are known
    to succeed. *)
Lemma Solve_line (p : Parabola) :
  p_Q p = 0 ->
  Solve p =
    Return (if Req_dec_T (p_R p) 0 then None
            else if in_range (- p_S p / p_R p) then Some (- p_S p / p_R p)
            else None).
Proof.
  intros HQ. unfold Solve.
  destruct (Req_dec_T (p_Q p) 0) as [_ | n]; [| contradiction].
  destruct (Req_dec_T (p_R p) 0) as [HR | HR]; [reflexivity |].
  rewrite py_div_nonzero by assumption. simpl.
  destruct (in_range _); reflexivity.
Qed.

Lemma Solve_quadratic (p : Parabola) :
  p_Q p <> 0 ->
  Solve p =
    Return (if Rle_dec (discriminant p) 0 then None
            else if in_range (root1 p) then
                   if in_range (root2 p) then None else Some (root1 p)
                 else if in_range (root2 p) then Some (root2 p)
                 else None).
Proof.
  intros HQ. unfold Solve.
  destruct (Req_dec_T (p_Q p) 0) as [e | _]; [contradiction |].
  fold (discriminant p).
  destruct (Rle_dec (discriminant p) 0) as [Hu | Hu]; [reflexivity |].
  rewrite py_sqrt_nonneg by lra. simpl.
  rewrite !py_div_nonzero by lra. simpl.
  fold (root1 p) (root2 p).
  destruct (in_range (root1 p)), (in_range (root2 p)); reflexivity.
Qed.

(** ** The fitted parabola and the time map *)

Lemma Parabola_init_fit (f : R -> R) (ta tb : R) :
  Parabola_init f ta tb = fit (f ta) (f ((tb + ta) / 2)) (f tb).
Proof. reflexivity. Qed.

Lemma Parabola_eq (p q : Parabola) :
  p_Q p = p_Q q -> p_R p = p_R q -> p_S p = p_S q -> p = q.
Proof.
  destruct p, q; simpl; intros -> -> ->; reflexivity.
Qed.

Lemma fit_unique (fa fm fb : R) (q : Parabola) :
  Eval q (-1) = fa -> Eval q 0 = fm -> Eval q 1 = fb -> q = fit fa fm fb.
Proof.
  unfold Eval. intros Ha Hm Hb.
  apply Parabola_eq; unfold fit; simpl; lra.
Qed.

(** C2: the coefficients [Q = (fb+fa)/2 - fm], [R = (fb-fa)/2], [S = fm]
    give the one parabola through [(-1,fa)], [(0,fm)], [(1,fb)], for all
    real samples; and on a window [ta < tb] with midpoint [tm] the map
    [t0 = tm + x*(tb - tm)] and the reparametrization
    [x = (t - tm)/(tb - tm)] are inverse to each other, the window's ends
    and midpoint being [x = -1], [0], [+1]. *)
Theorem parabola_fit_interpolates (fa fm fb ta tb : R) (Hwin : ta < tb) :
  let p := fit fa fm fb in
  let tm := (tb + ta) / 2 in
  (p_Q p = (fb + fa) / 2 - fm /\ p_R p = (fb - fa) / 2 /\ p_S p = fm) /\
  (Eval p (-1) = fa /\ Eval p 0 = fm /\ Eval p 1 = fb) /\
  (forall q : Parabola,
      Eval q (-1) = fa -> Eval q 0 = fm -> Eval q 1 = fb -> q = p) /\
  (forall f : R -> R,
      f ta = fa -> f tm = fm -> f tb = fb -> Parabola_init f ta tb = p) /\
  (forall t : R, t_of_x tm tb (x_of_t tm tb t) = t) /\
  (forall x : R, x_of_t tm tb (t_of_x tm tb x) = x) /\
  (x_of_t tm tb ta = -1 /\ x_of_t tm tb tm = 0 /\ x_of_t tm tb tb = 1).
Proof.
  intros p tm.
  assert (Hd : tb - tm <> 0) by (unfold tm; lra).
  repeat split.
  - unfold p, fit, Eval; simpl; lra.
  - unfold p, fit, Eval; simpl; lra.
  - unfold p, fit, Eval; simpl; lra.
  - intros q Ha Hm Hb. apply fit_unique; assumption.
  - intros f Ha Hm Hb. rewrite Parabola_init_fit. fold tm.
    rewrite Ha, Hm, Hb. reflexivity.
  - intros t. unfold t_of_x, x_of_t. field. exact Hd.
  - intros x. unfold t_of_x, x_of_t. field. exact Hd.
  - unfold x_of_t, tm. field. lra.
  - unfold x_of_t, tm. field. lra.
  - unfold x_of_t, tm. field. lra.
Qed.

(** The notebook's own window [0.6 .. 0.8], with samples 1, 0 and 3. *)
Lemma parabola_fit_interpolates_witness :
  Eval (fit 1 0 3) (-1) = 1 /\
  t_of_x ((8 / 10 + 6 / 10) / 2) (8 / 10)
         (x_of_t ((8 / 10 + 6 / 10) / 2) (8 / 10) (65 / 100)) = 65 / 100.
Proof.
  assert (Hwin : 6 / 10 < 8 / 10) by lra.
  pose proof (parabola_fit_interpolates 1 0 3 (6 / 10) (8 / 10) Hwin) as H.
  cbv zeta in H.
  destruct H as (_ & (Ha & _) & _ & _ & Ht & _).
  split; [exact Ha | exact (Ht (65 / 100))].
Defined.

(** ** [Solve] never fails *)

(** C5: [Solve] returns for every parabola, and none of its divisions or
    its square root raises.  On a line ([Q = 0]) the estimate [-S/R] is
    formed only for [R <> 0] and kept only inside [[-1,1]]; the division by
    [2Q] happens only for [Q <> 0]. *)
Theorem Solve_total_no_zero_division (p : Parabola) :
  (forall e : exn, Solve p <> Raise e) /\
  (exists r : option R, Solve p = Return r) /\
  (p_Q p = 0 -> p_R p = 0 -> Solve p = Return None) /\
  (p_Q p = 0 -> p_R p <> 0 ->
     py_div (- p_S p) (p_R p) = Return (- p_S p / p_R p) /\
     (in_range (- p_S p / p_R p) = true ->
        Solve p = Return (Some (- p_S p / p_R p))) /\
     (in_range (- p_S p / p_R p) = false -> Solve p = Return None)) /\
  (p_Q p <> 0 -> 0 < discriminant p ->
     py_sqrt (discriminant p) = Return (sqrt (discriminant p)) /\
     py_div (- p_R p + sqrt (discriminant p)) (2 * p_Q p) = Return (root1 p) /\
     py_div (- p_R p - sqrt (discriminant p)) (2 * p_Q p) = Return (root2 p)) /\
  (p_Q p <> 0 -> discriminant p <= 0 -> Solve p = Return None).
Proof.
  assert (Hret : exists r : option R, Solve p = Return r).
  { destruct (Req_dec_T (p_Q p) 0) as [HQ | HQ].
    - rewrite (Solve_line p HQ). eexists; reflexivity.
    - rewrite (Solve_quadratic p HQ). eexists; reflexivity. }
  split; [| split; [exact Hret |]].
  { intros e He. destruct Hret as [r Hr]. congruence. }
  repeat split.
  - intros HQ HR. rewrite (Solve_line p HQ).
    destruct (Req_dec_T (p_R p) 0); [reflexivity | contradiction].
  - apply py_div_nonzero. assumption.
  - intros Hin. rewrite (Solve_line p H).
    destruct (Req_dec_T (p_R p) 0); [contradiction |]. rewrite Hin. reflexivity.
  - intros Hin. rewrite (Solve_line p H).
    destruct (Req_dec_T (p_R p) 0); [contradiction |]. rewrite Hin. reflexivity.
  - apply py_sqrt_nonneg. lra.
  - apply py_div_nonzero. lra.
  - apply py_div_nonzero. lra.
  - intros HQ Hu. rewrite (Solve_quadratic p HQ).
    destruct (Rle_dec (discriminant p) 0); [reflexivity | contradiction].
Qed.

(** The line [2x + 1] and the parabola [x^2 - 2x - 3 = (x+1)(x-3)]. *)
Lemma Solve_total_no_zero_division_witness :
  Solve (mkParabola 0 2 1) = Return (Some (- 1 / 2))
  /\ Solve (mkParabola 0 0 1) = Return None
  /\ exists r : option R, Solve (mkParabola 1 (-2) (-3)) = Return r.
Proof.
  split; [| split].
  - destruct (Solve_total_no_zero_division (mkParabola 0 2 1))
      as (_ & _ & _ & Hline & _).
    simpl in Hline.
    assert (H2 : 2 <> 0) by lra.
    destruct (Hline eq_refl H2) as (_ & Hin & _).
    apply Hin. apply in_range_true. lra.
  - destruct (Solve_total_no_zero_division (mkParabola 0 0 1))
      as (_ & _ & Hflat & _).
    apply Hflat; reflexivity.
  - destruct (Solve_total_no_zero_division (mkParabola 1 (-2) (-3)))
      as (_ & Hret & _).
    exact Hret.
Defined.

(** ** The quadratic formula in [Solve] *)

Section Roots.

Variable p : Parabola.
Hypothesis HQ : p_Q p <> 0.
Hypothesis Hu : 0 < discriminant p.

Lemma sqrt_discriminant_sq :
  sqrt (discriminant p) * sqrt (discriminant p) = discriminant p.
Proof. apply sqrt_sqrt. lra. Qed.

Lemma sqrt_discriminant_pos : 0 < sqrt (discriminant p).
Proof. apply sqrt_lt_R0. exact Hu. Qed.

Lemma root1_scaled : 2 * p_Q p * root1 p = - p_R p + sqrt (discriminant p).
Proof. unfold root1. field. exact HQ. Qed.

Lemma root2_scaled : 2 * p_Q p * root2 p = - p_R p - sqrt (discriminant p).
Proof. unfold root2. field. exact HQ. Qed.

Lemma Eval_root1 : Eval p (root1 p) = 0.
Proof.
  pose proof root1_scaled as H1. pose proof sqrt_discriminant_sq as Hs.
  unfold discriminant in Hs at 3.
  assert (H4 : 4 * p_Q p * Eval p (root1 p) = 0).
  { unfold Eval.
    replace (4 * p_Q p * (p_Q p * root1 p * root1 p + p_R p * root1 p + p_S p))
      with ((2 * p_Q p * root1 p) * (2 * p_Q p * root1 p)
            + 2 * p_R p * (2 * p_Q p * root1 p) + 4 * p_Q p * p_S p) by ring.
    rewrite H1. nra. }
  apply Rmult_integral in H4. destruct H4 as [H4 | H4]; [lra | exact H4].
Qed.

Lemma Eval_root2 : Eval p (root2 p) = 0.
Proof.
  pose proof root2_scaled as H2. pose proof sqrt_discriminant_sq as Hs.
  unfold discriminant in Hs at 3.
  assert (H4 : 4 * p_Q p * Eval p (root2 p) = 0).
  { unfold Eval.
    replace (4 * p_Q p * (p_Q p * root2 p * root2 p + p_R p * root2 p + p_S p))
      with ((2 * p_Q p * root2 p) * (2 * p_Q p * root2 p)
            + 2 * p_R p * (2 * p_Q p * root2 p) + 4 * p_Q p * p_S p) by ring.
    rewrite H2. nra. }
  apply Rmult_integral in H4. destruct H4 as [H4 | H4]; [lra | exact H4].
Qed.

Lemma roots_distinct : root1 p <> root2 p.
Proof.
  intros E. pose proof root1_scaled as H1. pose proof root2_scaled as H2.
  pose proof sqrt_discriminant_pos as Hs. rewrite E in H1. lra.
Qed.


End Roots.

(** What [Solve] returns is a root of the parabola inside [[-1,1]]. *)
Lemma Solve_sound (p : Parabola) (x : R) :
  Solve p = Return (Some x) -> in_range x = true /\ Eval p x = 0.
Proof.
  destruct (Req_dec_T (p_Q p) 0) as [HQ | HQ].
  - rewrite (Solve_line p HQ).
    destruct (Req_dec_T (p_R p) 0) as [HR | HR]; [discriminate |].
    destruct (in_range (- p_S p / p_R p)) eqn:Hin; [| discriminate].
    intros E. injection E as <-. split; [exact Hin |].
    unfold Eval. rewrite HQ. field. exact HR.
  - rewrite (Solve_quadratic p HQ).
    destruct (Rle_dec (discriminant p) 0) as [Hu | Hu]; [discriminate |].
    assert (Hu' : 0 < discriminant p) by lra.
    destruct (in_range (root1 p)) eqn:H1, (in_range (root2 p)) eqn:H2;
      try discriminate; intros E; injection E as <-.
    + split; [exact H1 | apply Eval_root1; assumption].
    + split; [exact H2 | apply Eval_root2; assumption].
Qed.


(** With a discriminant [u <= 0] the parabola never changes sign, so no
    two of the three samples have strictly opposite signs. *)
Lemma nonpositive_discriminant_one_sign (p : Parabola) (x y : R) :
  p_Q p <> 0 -> discriminant p <= 0 -> 0 <= Eval p x * Eval p y.
Proof.
  intros HQ Hu. unfold discriminant in Hu.
  assert (Hx : 0 <= 4 * p_Q p * Eval p x).
  { unfold Eval.
    replace (4 * p_Q p * (p_Q p * x * x + p_R p * x + p_S p))
      with ((2 * p_Q p * x + p_R p) * (2 * p_Q p * x + p_R p)
            - (p_R p * p_R p - 4 * p_Q p * p_S p)) by ring.
    pose proof (Rle_0_sqr (2 * p_Q p * x + p_R p)) as Hsq.
    unfold Rsqr in Hsq. lra. }
  assert (Hy : 0 <= 4 * p_Q p * Eval p y).
  { unfold Eval.
    replace (4 * p_Q p * (p_Q p * y * y + p_R p * y + p_S p))
      with ((2 * p_Q p * y + p_R p) * (2 * p_Q p * y + p_R p)
            - (p_R p * p_R p - 4 * p_Q p * p_S p)) by ring.
    pose proof (Rle_0_sqr (2 * p_Q p * y + p_R p)) as Hsq.
    unfold Rsqr in Hsq. lra. }
  assert (HQ2 : 0 < p_Q p * p_Q p) by nra.
  assert (H : 0 <= (p_Q p * p_Q p) * (Eval p x * Eval p y)).
  { replace ((p_Q p * p_Q p) * (Eval p x * Eval p y))
      with ((4 * p_Q p * Eval p x) * (4 * p_Q p * Eval p y) / 16) by field.
    apply Rmult_le_pos; [apply Rmult_le_pos; assumption | lra]. }
  destruct (Rle_dec 0 (Eval p x * Eval p y)) as [Hok | Hneg]; [exact Hok |].
  exfalso. assert (Eval p x * Eval p y < 0) by lra. nra.
Qed.

(** ** No solution ends the search *)

Import RootSearch.

Lemma Eval_Parabola_init (f : R -> R) (ta tb : R) :
  Eval (Parabola_init f ta tb) (-1) = f ta /\
  Eval (Parabola_init f ta tb) 0 = f ((tb + ta) / 2) /\
  Eval (Parabola_init f ta tb) 1 = f tb.
Proof.
  unfold Parabola_init, Eval; simpl. repeat split; lra.
Qed.

(** An iteration in which [Solve] has no solution returns [NotFound]: no
    half of the window is searched instead, since for [u <= 0] no two
    samples have opposite signs. *)
Lemma SearchLoop_no_solution (shrink : R -> R -> R -> R * R) (f : R -> R)
      (tol ta tb : R) (n : nat) :
  Solve (Parabola_init f ta tb) = Return None ->
  SearchLoop shrink f tol (S n) ta tb = NotFound.
Proof.
  intros Hnone. cbn [SearchLoop]. unfold Solve_value. rewrite Hnone.
  destruct (Req_dec_T (p_Q (Parabola_init f ta tb)) 0) as [HQ | HQ];
    [reflexivity |].
  destruct (Rle_dec (discriminant (Parabola_init f ta tb)) 0) as [Hu | Hu];
    [| reflexivity].
  destruct (Eval_Parabola_init f ta tb) as (Ea & Em & Eb).
  pose proof (nonpositive_discriminant_one_sign _ (-1) 0 HQ Hu) as H1.
  pose proof (nonpositive_discriminant_one_sign _ 0 1 HQ Hu) as H2.
  rewrite Ea, Em in H1. rewrite Em, Eb in H2.
  destruct (Rlt_dec (f ta * f ((tb + ta) / 2)) 0) as [C1 | _]; [lra |].
  destruct (Rlt_dec (f ((tb + ta) / 2) * f tb) 0) as [C2 | _]; [lra |].
  reflexivity.
Qed.




Lemma Solve_quadratic_some (p : Parabola) (x : R) :
  p_Q p <> 0 ->
  (Solve p = Return (Some x) <->
   0 < discriminant p /\
   ((in_range (root1 p) = true /\ in_range (root2 p) = false /\ x = root1 p) \/
    (in_range (root1 p) = false /\ in_range (root2 p) = true /\ x = root2 p))).
Proof.
  intros HQ. rewrite (Solve_quadratic p HQ).
  destruct (Rle_dec (discriminant p) 0) as [Hu | Hu].
  - split; [discriminate | intros [Hpos _]; lra].
  - assert (Hu' : 0 < discriminant p) by lra.
    destruct (in_range (root1 p)), (in_range (root2 p)); split;
      try discriminate;
      try (intros E; injection E as <-; split; [exact Hu' | tauto]);
      intros (_ & [(A & B & C) | (A & B & C)]);
      try discriminate; subst; reflexivity.
Qed.



(** The synthetic case of the design notes, [sin(4π(t−ta)/(tb−ta))]: all
    three samples vanish, the fit is the zero polynomial, and the search
    returns [NotFound]. *)
Lemma sin_4PI : sin (4 * PI) = 0.
Proof.
  replace (4 * PI) with (2 * PI + 2 * PI) by ring.
  rewrite sin_plus, sin_2PI. ring.
Qed.

Example Search_sine_two_periods (shrink : R -> R -> R -> R * R)
        (tol ta tb : R) :
  ta < tb ->
  Search shrink (fun t => sin (4 * PI * (t - ta) / (tb - ta))) tol ta tb
  = NotFound.
Proof.
  intros Hwin. unfold Search, iteration_cap.
  apply SearchLoop_no_solution.
  set (f := fun t => sin (4 * PI * (t - ta) / (tb - ta))).
  assert (Fa : f ta = 0).
  { unfold f. replace (4 * PI * (ta - ta) / (tb - ta)) with 0
      by (field; lra). apply sin_0. }
  assert (Fm : f ((tb + ta) / 2) = 0).
  { unfold f. replace (4 * PI * ((tb + ta) / 2 - ta) / (tb - ta))
      with (2 * PI) by (field; lra). apply sin_2PI. }
  assert (Fb : f tb = 0).
  { unfold f. replace (4 * PI * (tb - ta) / (tb - ta)) with (4 * PI)
      by (field; lra). apply sin_4PI. }
  rewrite Solve_line.
  - rewrite Parabola_init_fit, Fa, Fm, Fb. simpl.
    destruct (Req_dec_T ((0 - 0) / 2) 0) as [_ | n]; [reflexivity | lra].
  - rewrite Parabola_init_fit, Fa, Fm, Fb. simpl. lra.
Qed.

(** ** The search stays inside its window *)

Section SearchWindow.

Variable shrink : R -> R -> R -> R * R.
Variable f : R -> R.
Variable tol : R.

(** The new bracket lies inside the previous one. *)
Hypothesis shrink_inside :
  forall ta tb t0 : R,
    ta <= t0 <= tb ->
    ta <= fst (shrink ta tb t0)
    /\ fst (shrink ta tb t0) <= snd (shrink ta tb t0)
    /\ snd (shrink ta tb t0) <= tb.

Lemma estimate_inside (ta tb x : R) :
  ta <= tb -> -1 <= x <= 1 ->
  ta <= t_of_x ((tb + ta) / 2) tb x <= tb.
Proof.
  intros Hwin Hx. unfold t_of_x.
  replace (tb - (tb + ta) / 2) with ((tb - ta) / 2) by field.
  assert (Hh : 0 <= (tb - ta) / 2) by lra.
  split; nra.
Qed.

(** A time the search finds lies in the window it was given. *)
Lemma SearchLoop_within_window (fuel : nat) :
  forall ta tb t : R,
    ta <= tb ->
    SearchLoop shrink f tol fuel ta tb = Found t ->
    ta <= t <= tb.
Proof.
  induction fuel as [| fuel IH]; intros ta tb t Hwin Hfound.
  - discriminate.
  - cbn [SearchLoop] in Hfound. unfold Solve_value in Hfound.
    destruct (Solve (Parabola_init f ta tb)) as [[x |] | e] eqn:Hsolve.
    + destruct (Rlt_dec 0 (Slope (Parabola_init f ta tb) x)); [| discriminate].
      destruct (Solve_sound _ _ Hsolve) as (Hin & _).
      apply in_range_true in Hin.
      pose proof (estimate_inside ta tb x Hwin Hin) as Ht0.
      pose proof (shrink_inside ta tb _ Ht0) as (Ha & Hab & Hb).
      destruct (shrink ta tb (t_of_x ((tb + ta) / 2) tb x)) as [ta' tb'].
      simpl in Ha, Hab, Hb.
      destruct (Rle_dec (Rabs (tb' - ta') * 86400) tol).
      * injection Hfound as <-. exact Ht0.
      * apply IH in Hfound; [lra | exact Hab].
    + destruct (Req_dec_T (p_Q (Parabola_init f ta tb)) 0); [discriminate |].
      destruct (Rle_dec (discriminant (Parabola_init f ta tb)) 0);
        [| discriminate].
      destruct (Rlt_dec (f ta * f ((tb + ta) / 2)) 0).
      * apply IH in Hfound; lra.
      * destruct (Rlt_dec (f ((tb + ta) / 2) * f tb) 0); [| discriminate].
        apply IH in Hfound; lra.
    + destruct (Req_dec_T (p_Q (Parabola_init f ta tb)) 0); [discriminate |].
      destruct (Rle_dec (discriminant (Parabola_init f ta tb)) 0);
        [| discriminate].
      destruct (Rlt_dec (f ta * f ((tb + ta) / 2)) 0).
      * apply IH in Hfound; lra.
      * destruct (Rlt_dec (f ((tb + ta) / 2) * f tb) 0); [| discriminate].
        apply IH in Hfound; lra.
Qed.

Lemma Search_within_window (t1 t2 t : R) :
  t1 <= t2 -> Search shrink f tol t1 t2 = Found t -> t1 <= t <= t2.
Proof. apply SearchLoop_within_window. Qed.

End SearchWindow.

(** ** [Diff] and [DiffLine] *)

Section DiffFacts.

Import CLib CTest.
Local Open Scope Z_scope.

(** A scan stores at most as many doubles as its format has [%lf]s. *)
Lemma sscanf_from_data_length (fmt : list directive) :
  forall (s : string) (count : Z) (body : string) (data : list Q),
    (List.length (sc_data (sscanf_from fmt s count body data))
     <= List.length data + count_Lf fmt)%nat.
Proof.
  induction fmt as [| d fmt IH]; intros s count body data; simpl.
  - lia.
  - destruct d; simpl.
    + destruct s as [| c' s']; simpl; [lia |].
      destruct (Ascii.eqb c c'); simpl; [apply IH | lia].
    + apply IH.
    + destruct s as [| c' s']; simpl; [lia |].
      destruct (take_letters width (String c' s')) as [l r].
      destruct l; simpl; [lia | apply IH].
    + destruct (skip_space s) as [| c' s'] eqn:Hs; simpl; [lia |].
      destruct (scan_double (String c' s')) as [[q r] |]; simpl; [| lia].
      specialize (IH r (count + 1) body (data ++ [q])).
      rewrite length_app in IH. simpl in IH. lia.
Qed.

(** Whatever the line, the vector format reads three doubles at most: the
    fourth number of a [v] record never reaches [cdata]. *)
Lemma vector_scan_three_doubles (s : string) :
  (List.length (sc_data (sscanf s format_v)) <= 3)%nat.
Proof.
  unfold sscanf.
  pose proof (sscanf_from_data_length format_v s 0 EmptyString []) as H.
  simpl in H. exact H.
Qed.

(** After the comparison loop [*maxdiff] has not decreased and bounds
    every difference the loop looked at. *)
Lemma compare_data_bound (n : nat) :
  forall (i : nat) (cdata jdata : list Q) (lnum : Z) (maxdiff : Q)
         (worst_lnum : Z),
    (maxdiff <= fst (compare_data n i cdata jdata lnum maxdiff worst_lnum))%Q
    /\ forall k : nat,
         (i <= k < i + n)%nat ->
         (Qabs (nth k cdata filler_dc - nth k jdata filler_ce)
          <= fst (compare_data n i cdata jdata lnum maxdiff worst_lnum))%Q.
Proof.
  induction n as [| n IH]; intros i cdata jdata lnum maxdiff worst_lnum.
  - cbn [compare_data fst]. split; [apply Qle_refl | intros k Hk; lia].
  - cbn [compare_data]. unfold Qgtb.
    destruct (Qle_bool (Qabs (nth i cdata filler_dc - nth i jdata filler_ce))
                       maxdiff) eqn:Hle; cbn [negb].
    + apply Qle_bool_iff in Hle.
      destruct (IH (S i) cdata jdata lnum maxdiff worst_lnum) as (Hm & Hk).
      split; [exact Hm |].
      intros k Hrange. destruct (Nat.eq_dec k i) as [-> | Hne].
      * eapply Qle_trans; [exact Hle | exact Hm].
      * apply Hk. lia.
    + assert (Hgt : (maxdiff
                     < Qabs (nth i cdata filler_dc - nth i jdata filler_ce))%Q).
      { apply Qnot_le_lt. intros C. apply Qle_bool_iff in C. congruence. }
      destruct (IH (S i) cdata jdata lnum
                   (Qabs (nth i cdata filler_dc - nth i jdata filler_ce)) lnum)
        as (Hm & Hk).
      split.
      * eapply Qle_trans; [apply Qlt_le_weak; exact Hgt | exact Hm].
      * intros k Hrange. destruct (Nat.eq_dec k i) as [-> | Hne].
        -- exact Hm.
        -- apply Hk. lia.
Qed.

Lemma lines_agree_weaken (b1 b2 : Q) (cline jline : string) :
  (b1 <= b2)%Q -> lines_agree b1 cline jline -> lines_agree b2 cline jline.
Proof.
  intros Hb (Htag & fmt & n & Hfmt & Hc & Hj & Hbody & Hdata).
  split; [exact Htag |]. exists fmt, n. repeat split; try assumption.
  intros k Hk. eapply Qle_trans; [apply Hdata; exact Hk | exact Hb].
Qed.

(** A scan of the [v] or [s] format that converts everything has stored
    a body name. *)
Lemma sscanf_from_body_kept (fmt : list directive) :
  forall (s : string) (count : Z) (body : string) (data : list Q),
    body <> EmptyString ->
    sc_body (sscanf_from fmt s count body data) <> EmptyString.
Proof.
  induction fmt as [| d fmt IH]; intros s count body data Hb; simpl.
  - exact Hb.
  - destruct d; simpl.
    + destruct s as [| c' s']; simpl; [exact Hb |].
      destruct (Ascii.eqb c c'); simpl; [apply IH; exact Hb | exact Hb].
    + apply IH. exact Hb.
    + destruct s as [| c' s']; simpl; [exact Hb |].
      destruct (take_letters width (String c' s')) as [l r].
      destruct l; simpl; [exact Hb | apply IH; discriminate].
    + destruct (skip_space s) as [| c' s']; simpl; [exact Hb |].
      destruct (scan_double (String c' s')) as [[q r] |]; simpl;
        [apply IH; exact Hb | exact Hb].
Qed.

Lemma sscanf_from_count_ge (fmt : list directive) :
  forall (s : string) (count : Z) (body : string) (data : list Q),
    0 <= count ->
    sc_count (sscanf_from fmt s count body data) = EOF
    \/ count <= sc_count (sscanf_from fmt s count body data).
Proof.
  induction fmt as [| d fmt IH]; intros s count body data Hc; simpl.
  - right. lia.
  - assert (Hfail : sc_count (input_failure count body data) = EOF
                    \/ count <= sc_count (input_failure count body data)).
    { unfold input_failure. simpl. destruct (count =? 0); [left | right];
        [reflexivity | lia]. }
    destruct d; simpl.
    + destruct s as [| c' s']; [exact Hfail |].
      destruct (Ascii.eqb c c'); simpl; [apply IH; exact Hc | right; lia].
    + apply IH. exact Hc.
    + destruct s as [| c' s']; [exact Hfail |].
      destruct (take_letters width (String c' s')) as [l r].
      destruct l; simpl; [right; lia |].
      destruct (IH r (count + 1) (String a l) data ltac:(lia)) as [H | H];
        [left; exact H | right; lia].
    + destruct (skip_space s) as [| c' s']; [exact Hfail |].
      destruct (scan_double (String c' s')) as [[q r] |]; simpl;
        [| right; lia].
      destruct (IH r (count + 1) body (data ++ [q])%list ltac:(lia))
        as [H | H]; [left; exact H | right; lia].
Qed.

(** A format without [%[...]] stores no string. *)
Lemma sscanf_from_body_untouched (fmt : list directive) :
  Forall (fun d => forall w : nat, d <> Letters w) fmt ->
  forall (s : string) (count : Z) (body : string) (data : list Q),
    sc_body (sscanf_from fmt s count body data) = body.
Proof.
  induction fmt as [| d fmt IH]; intros Hfmt s count body data.
  - reflexivity.
  - inversion Hfmt as [| d' fmt' Hd Hrest]; subst.
    specialize (IH Hrest).
    destruct d; cbn [sscanf_from].
    + destruct s as [| c' s']; [reflexivity |].
      destruct (Ascii.eqb c c'); [apply IH | reflexivity].
    + apply IH.
    + exfalso. apply (Hd width). reflexivity.
    + destruct (skip_space s) as [| c' s']; [reflexivity |].
      destruct (scan_double (String c' s')) as [[q r] |];
        [apply IH | reflexivity].
Qed.

(** With the [v] or [s] format, a scan that converts at least the body
    name has a non-empty body. *)
Lemma scan_body_nonempty (tag : ascii) (rest : list directive) (s : string) :
  2 <= sc_count (sscanf s (Lit tag :: WS :: Letters 9 :: rest)) ->
  sc_body (sscanf s (Lit tag :: WS :: Letters 9 :: rest)) <> EmptyString.
Proof.
  unfold sscanf. cbn [sscanf_from].
  destruct s as [| c' s']; [cbn; unfold EOF; lia |].
  destruct (Ascii.eqb tag c'); [| cbn; lia].
  destruct (skip_space s') as [| c2 s2] eqn:Hs; [cbn; unfold EOF; lia |].
  destruct (take_letters 9 (String c2 s2)) as [l r].
  destruct l as [| a l]; [cbn; lia |].
  intros _. apply sscanf_from_body_kept. discriminate.
Qed.

Lemma DiffLine_accepts (lnum : Z) (cline jline : string) (maxdiff : Q)
      (worst_lnum : Z) (m : Q) (w : Z) :
  DiffLine lnum cline jline maxdiff worst_lnum = (0, m, w) ->
  (maxdiff <= m)%Q /\ lines_agree m cline jline.
Proof.
  unfold DiffLine.
  destruct (Ascii.eqb (char0 cline) (char0 jline)) eqn:Htag; simpl;
    [| discriminate].
  apply Ascii.eqb_eq in Htag.
  destruct (record_format (char0 cline)) as [[fmt nrequired] |] eqn:Hfmt;
    [| discriminate].
  destruct (sc_count (sscanf cline fmt) =? sc_count (sscanf jline fmt))
    eqn:Hcj; simpl; [| discriminate].
  destruct (sc_count (sscanf cline fmt) =? nrequired) eqn:Hcn; simpl;
    [| discriminate].
  destruct (String.eqb (sc_body (sscanf cline fmt))
                       (sc_body (sscanf jline fmt))) eqn:Hbody; simpl;
    [| discriminate].
  apply Z.eqb_eq in Hcj, Hcn. apply String.eqb_eq in Hbody.
  set (cdata := data_array filler_dc (sc_data (sscanf cline fmt))).
  set (jdata := data_array filler_ce (sc_data (sscanf jline fmt))).
  set (n := Z.to_nat match sc_body (sscanf cline fmt) with
                     | EmptyString => nrequired
                     | String _ _ => nrequired - 1
                     end).
  pose proof (compare_data_bound n 0 cdata jdata lnum maxdiff worst_lnum)
    as (Hm & Hk).
  destruct (compare_data n 0 cdata jdata lnum maxdiff worst_lnum)
    as [m' w'] eqn:Hcmp.
  intros E. injection E as <- <-. simpl in Hm, Hk.
  split; [exact Hm |].
  split; [exact Htag |]. exists fmt, nrequired.
  repeat split; try congruence.
  intros k Hlt. apply Hk.
  assert (Hn : compared (char0 cline) = n).
  { unfold record_format in Hfmt. unfold compared, n.
    destruct (Ascii.eqb (char0 cline) "o") eqn:Ho.
    - injection Hfmt as <- <-.
      apply Ascii.eqb_eq in Ho. rewrite Ho. simpl.
      assert (Hb : sc_body (sscanf cline format_o) = EmptyString).
      { apply sscanf_from_body_untouched.
        unfold format_o. repeat constructor; discriminate. }
      rewrite Hb. reflexivity.
    - destruct (Ascii.eqb (char0 cline) "v") eqn:Hv.
      + injection Hfmt as <- <-.
        assert (Hne : sc_body (sscanf cline format_v) <> EmptyString).
        { apply scan_body_nonempty. unfold format_v in Hcn. lia. }
        destruct (sc_body (sscanf cline format_v)); [contradiction |].
        apply Ascii.eqb_eq in Hv. rewrite Hv. reflexivity.
      + destruct (Ascii.eqb (char0 cline) "s") eqn:Hs; [| discriminate].
        injection Hfmt as <- <-.
        assert (Hne : sc_body (sscanf cline format_s) <> EmptyString).
        { apply scan_body_nonempty. unfold format_s in Hcn. lia. }
        destruct (sc_body (sscanf cline format_s)); [contradiction |].
        reflexivity. }
  lia.
Qed.

Lemma Diff_loop_accepts (clines : list string) :
  forall (jlines : list string) (lnum : Z) (maxdiff : Q) (worst_lnum : Z)
         (m : Q) (w : Z),
    Diff_loop clines jlines lnum maxdiff worst_lnum = (0, m, w) ->
    (maxdiff <= m)%Q /\ Forall2 (lines_agree m) clines jlines.
Proof.
  induction clines as [| cline cs IH];
    intros [| jline js] lnum maxdiff worst_lnum m w Hloop;
    cbn [Diff_loop] in Hloop; try discriminate.
  - injection Hloop as <- <-. split; [apply Qle_refl | constructor].
  - destruct (DiffLine (lnum + 1) cline jline maxdiff worst_lnum)
      as [[e m1] w1] eqn:Hline.
    destruct (e =? 0) eqn:He; [| injection Hloop as -> _ _; discriminate].
    apply Z.eqb_eq in He. subst e.
    destruct (DiffLine_accepts _ _ _ _ _ _ _ Hline) as (H1 & Hagree).
    destruct (IH _ _ _ _ _ _ Hloop) as (H2 & Hrest).
    split; [eapply Qle_trans; eassumption |].
    constructor; [| exact Hrest].
    apply (lines_agree_weaken m1); assumption.
Qed.

(** What [Diff] does check: when it returns 0 the two files have the same
    number of lines, and line by line the same record type and body name
    and, among the doubles it compares, no difference above 1.8e-12. *)
Lemma Diff_accepts (c j : string) :
  Diff (Some c) (Some j) = 0 ->
  List.length (fgets_all 200 c) = List.length (fgets_all 200 j)
  /\ Forall2 (lines_agree tolerance) (fgets_all 200 c) (fgets_all 200 j).
Proof.
  unfold Diff.
  destruct (Diff_loop (fgets_all 200 c) (fgets_all 200 j) 0 0 0)
    as [[e m] w] eqn:Hloop.
  destruct (e =? 0) eqn:He.
  - apply Z.eqb_eq in He. subst e.
    unfold Qgtb. destruct (Qle_bool m tolerance) eqn:Hm; [| discriminate].
    intros _. apply Qle_bool_iff in Hm.
    destruct (Diff_loop_accepts _ _ _ _ _ _ _ Hloop) as (_ & Hall).
    split; [eapply Forall2_length; exact Hall |].
    eapply Forall2_impl; [| exact Hall].
    intros a b Hab. apply (lines_agree_weaken m); assumption.
  - intros ->. discriminate.
Qed.

Example Diff_line_count :
  Diff (Some (vector_file "0.3" ++ vector_file "0.3")%string)
       (Some (vector_file "0.3")) = 1.
Proof. vm_compute. reflexivity. Qed.

Example Diff_record_type :
  Diff (Some (vector_file "0.3")) (Some (sky_file "0.3")) = 1.
Proof. vm_compute. reflexivity. Qed.

Example Diff_body_name :
  Diff (Some "v Sun 1.0 2.0 3.0 4.0"%string)
       (Some "v Moon 1.0 2.0 3.0 4.0"%string) = 1.
Proof. vm_compute. reflexivity. Qed.

Example Diff_vector_y :
  Diff (Some "v Sun 1.0 2.0 3.0 4.0"%string)
       (Some "v Sun 1.0 2.0 3.1 4.0"%string) = 1.
Proof. vm_compute. reflexivity. Qed.

Example Diff_sky_altitude :
  Diff (Some (sky_file "4.5000000000000000"))
       (Some (sky_file "4.5000000000100000")) = 1.
Proof. vm_compute. reflexivity. Qed.

Example Diff_observer_height :
  Diff (Some (observer_file "10.000000"))
       (Some (observer_file "10.000001")) = 1.
Proof. vm_compute. reflexivity. Qed.

Example Diff_within_tolerance :
  Diff (Some (sky_file "4.5000000000000000"))
       (Some (sky_file "4.5000000000000018")) = 0.
Proof. vm_compute. reflexivity. Qed.

(** C3, on a [v] record: of its four numbers [tt x y z], [Diff] compares
    the first three only.  Two files whose one [v] line differs in [z] by
    0.1, far above the tolerance of 1.8e-12, pass with result 0; the two
    lines scan to the same three doubles. *)
Theorem Diff_passes_differing_z :
  let c := vector_file "0.3000000000000000" in
  let j := vector_file "0.4000000000000000" in
  Diff (Some c) (Some j) = 0
  /\ nth 3 (sc_data (sscanf c format_v4)) 0%Q = 0.3000000000000000%Q
  /\ nth 3 (sc_data (sscanf j format_v4)) 0%Q = 0.4000000000000000%Q
  /\ Qgtb (Qabs (0.3000000000000000 - 0.4000000000000000)) tolerance = true
  /\ sc_data (sscanf c format_v) = sc_data (sscanf j format_v).
Proof.
  vm_compute. repeat split; reflexivity.
Qed.

End DiffFacts.

(** ** Times *)

Section TimeFacts.

Import TimeModel.

Variable DeltaT : R -> R.

Lemma MakeTime_ok (year month day hour minute : Z) (second : R) :
  time_ok DeltaT (Astronomy_MakeTime DeltaT year month day hour minute second).
Proof. reflexivity. Qed.

Lemma AddDays_ok (time : astro_time_t) (days : R) :
  time_ok DeltaT (Astronomy_AddDays DeltaT time days).
Proof. reflexivity. Qed.

Lemma AddDays_ut (time : astro_time_t) (days : R) :
  ut (Astronomy_AddDays DeltaT time days) = ut time + days.
Proof. reflexivity. Qed.

Lemma tt_monotonic_le :
  tt_monotonic DeltaT ->
  forall u1 u2 : R,
    u1 <= u2 -> TerrestrialTime DeltaT u1 <= TerrestrialTime DeltaT u2.
Proof.
  intros Hmono u1 u2 [Hlt | ->]; [left; apply Hmono; exact Hlt | right; reflexivity].
Qed.

(** [ut] of 2018-12-02 18:30:12.543 is 6910 days and 23412.543 seconds
    past the epoch, within 1e-12 of the value [Test_AstroTime] expects. *)
Lemma MakeTime_ut_20181202 :
  ut (Astronomy_MakeTime DeltaT 2018 12 2 18 30 12.543)
  = 6910 + 23412.543 / 86400
  /\ Rabs (ut (Astronomy_MakeTime DeltaT 2018 12 2 18 30 12.543)
           - 6910.270978506945) <= 1 / 1000000000000.
Proof.
  assert (E : ut (Astronomy_MakeTime DeltaT 2018 12 2 18 30 12.543)
              = 6910 + 23412.543 / 86400).
  { unfold Astronomy_MakeTime. simpl ut.
    replace (julian_day_number 2018 12 2 - J2000)%Z with 6910%Z
      by (vm_compute; reflexivity).
    lra. }
  split; [exact E |].
  rewrite E. apply Rabs_le. lra.
Qed.

(** C8: for a time [t] (its [tt] being what the Delta-T model gives at its
    [ut]), [AddDays(t, 0)] is [t]; and for every number of days the result
    has [ut' = ut + days] and [tt' = ut' + ΔT(ut')/86400], which is
    [tt + days] plus the change of Delta-T over the interval, so it is
    [tt + days] only when Delta-T is the same at both ends. *)
Theorem AddDays_zero_and_recomputed_tt (t : astro_time_t) (days : R)
        (Hok : time_ok DeltaT t) :
  Astronomy_AddDays DeltaT t 0 = t
  /\ ut (Astronomy_AddDays DeltaT t days) = ut t + days
  /\ tt (Astronomy_AddDays DeltaT t days)
     = (ut t + days) + DeltaT (ut t + days) / 86400
  /\ tt (Astronomy_AddDays DeltaT t days)
     = tt t + days + (DeltaT (ut t + days) - DeltaT (ut t)) / 86400
  /\ (tt (Astronomy_AddDays DeltaT t days) = tt t + days
      <-> DeltaT (ut t + days) = DeltaT (ut t))
  /\ time_ok DeltaT (Astronomy_AddDays DeltaT t days).
Proof.
  unfold time_ok in Hok.
  split; [| split; [| split; [| split; [| split]]]].
  - destruct t as [u tt0]; simpl in *. unfold Astronomy_AddDays; simpl.
    rewrite Rplus_0_r. rewrite <- Hok. reflexivity.
  - reflexivity.
  - reflexivity.
  - simpl. rewrite Hok. unfold TerrestrialTime. lra.
  - simpl. rewrite Hok. unfold TerrestrialTime. split; intros H; lra.
  - apply AddDays_ok.
Qed.

End TimeFacts.

(** A Delta-T growing by one second a day, and the epoch itself. *)
Lemma AddDays_zero_and_recomputed_tt_witness :
  let DeltaT := fun u : R => 64 + u in
  let t := TimeModel.Astronomy_MakeTime DeltaT 2000 1 1 12 0 0 in
  TimeModel.Astronomy_AddDays DeltaT t 0 = t
  /\ TimeModel.tt (TimeModel.Astronomy_AddDays DeltaT t 10)
     <> TimeModel.tt t + 10.
Proof.
  intros DeltaT t.
  pose proof (AddDays_zero_and_recomputed_tt DeltaT t 10
                (MakeTime_ok DeltaT 2000 1 1 12 0 0)) as H.
  destruct H as (H0 & _ & _ & _ & Hiff & _).
  pose proof (AddDays_zero_and_recomputed_tt DeltaT t 0
                (MakeTime_ok DeltaT 2000 1 1 12 0 0)) as H'.
  destruct H' as (Hz & _).
  split; [exact Hz |].
  intros E. apply Hiff in E. unfold DeltaT in E. lra.
Defined.

(** ** Moon quarters *)

Section MoonQuarterFacts.

Import TimeModel MoonQuarter.

Variable DeltaT : R -> R.
Variable SearchMoonPhase : R -> astro_time_t -> R -> option astro_time_t.
Variable skip_days : R.
Variable limit_days : R.

Hypothesis Hskip : 0 < skip_days.
Hypothesis Hforward : searches_forward SearchMoonPhase.

Let next := Astronomy_NextMoonQuarter DeltaT SearchMoonPhase skip_days limit_days.
Let iter := next_quarters DeltaT SearchMoonPhase skip_days limit_days.

Lemma NextMoonQuarter_some (mq mq' : astro_moon_quarter_t) :
  next mq = Some mq' ->
  quarter mq' = ((quarter mq + 1) mod 4)%Z
  /\ ut (time mq) < ut (time mq').
Proof.
  unfold next, Astronomy_NextMoonQuarter.
  destruct (SearchMoonPhase _ _ _) as [t |] eqn:Hs; [| discriminate].
  intros E. injection E as <-. simpl. split; [reflexivity |].
  apply Hforward in Hs. rewrite AddDays_ut in Hs. lra.
Qed.

Lemma next_quarters_spec (n : nat) :
  forall mq mq_n : astro_moon_quarter_t,
    iter n mq = Some mq_n ->
    quarter mq_n = match n with
                   | O => quarter mq
                   | S _ => ((quarter mq + Z.of_nat n) mod 4)%Z
                   end
    /\ (n = O -> mq_n = mq)
    /\ ((0 < n)%nat -> ut (time mq) < ut (time mq_n)).
Proof.
  induction n as [| n IH]; intros mq mq_n H.
  - simpl in H. injection H as <-.
    split; [reflexivity | split; [reflexivity | intros C; inversion C]].
  - unfold iter in H. simpl in H. fold next in H.
    destruct (next mq) as [mq1 |] eqn:H1; [| discriminate].
    fold iter in H. destruct (NextMoonQuarter_some _ _ H1) as (Q1 & T1).
    destruct (IH _ _ H) as (Qn & En & Tn).
    split; [| split; [discriminate |]].
    + rewrite Qn. destruct n as [| n'].
      * rewrite Q1. reflexivity.
      * rewrite Q1. rewrite Zplus_mod_idemp_l. f_equal. lia.
    + intros _. destruct n as [| n'].
      * rewrite (En eq_refl). exact T1.
      * assert (ut (time mq1) < ut (time mq_n)) by (apply Tn; lia). lra.
Qed.

(** C6: a result of [NextMoonQuarter(mq)] has the quarter
    [(mq.quarter + 1) mod 4] and a time strictly after [mq.time]; it is
    absent only when the search for that quarter finds nothing.  Repeated
    calls give the quarters [(mq.quarter + n) mod 4], from quarter 0 the
    cycle 1, 2, 3, 0, 1, ..., with strictly increasing times. *)
Theorem NextMoonQuarter_cycles (mq : astro_moon_quarter_t) :
  (forall mq' : astro_moon_quarter_t,
      next mq = Some mq' ->
      quarter mq' = ((quarter mq + 1) mod 4)%Z
      /\ ut (time mq) < ut (time mq'))
  /\ (forall t : astro_time_t,
        SearchMoonPhase (90 * IZR ((quarter mq + 1) mod 4))
                        (Astronomy_AddDays DeltaT (time mq) skip_days)
                        limit_days = Some t ->
        next mq = Some {| quarter := ((quarter mq + 1) mod 4)%Z; time := t |})
  /\ (forall (n : nat) (mq_n : astro_moon_quarter_t),
        iter (S n) mq = Some mq_n ->
        quarter mq_n = ((quarter mq + Z.of_nat (S n)) mod 4)%Z
        /\ ut (time mq) < ut (time mq_n)
        /\ forall mq_next : astro_moon_quarter_t,
             iter (S (S n)) mq = Some mq_next ->
             quarter mq_next = ((quarter mq_n + 1) mod 4)%Z
             /\ ut (time mq_n) < ut (time mq_next)).
Proof.
  split; [| split].
  - intros mq'. apply NextMoonQuarter_some.
  - intros t Hs. unfold next, Astronomy_NextMoonQuarter. rewrite Hs. reflexivity.
  - intros n mq_n Hn.
    destruct (next_quarters_spec (S n) mq mq_n Hn) as (Qn & _ & Tn).
    split; [exact Qn | split; [apply Tn; lia |]].
    intros mq_next Hnext.
    assert (Hstep : next mq_n = Some mq_next).
    { clear Qn Tn. revert mq Hn Hnext.
      induction n as [| n IH]; intros mq Hn Hnext.
      - unfold iter in Hn, Hnext. simpl in Hn, Hnext. fold next in Hn, Hnext.
        destruct (next mq) as [mq1 |]; [| discriminate].
        injection Hn as ->. destruct (next mq_n); [exact Hnext | discriminate].
      - unfold iter in Hn, Hnext.
        simpl in Hn, Hnext. fold next in Hn, Hnext.
        destruct (next mq) as [mq1 |]; [| discriminate].
        apply (IH mq1); assumption. }
    apply NextMoonQuarter_some. exact Hstep.
Qed.

End MoonQuarterFacts.

(** A search that reports the day after its start, from the third quarter
    at the epoch. *)
Lemma NextMoonQuarter_cycles_witness :
  let DeltaT := fun _ : R => 69 in
  let search := fun (_ : R) (start : TimeModel.astro_time_t) (_ : R) =>
                  Some (TimeModel.Astronomy_AddDays DeltaT start 1) in
  let mq := MoonQuarter.mkMoonQuarter
              3 (TimeModel.Astronomy_MakeTime DeltaT 2000 1 1 12 0 0) in
  exists mq' : MoonQuarter.astro_moon_quarter_t,
    MoonQuarter.Astronomy_NextMoonQuarter DeltaT search 6 10 mq = Some mq'
    /\ MoonQuarter.quarter mq' = 0%Z
    /\ TimeModel.ut (MoonQuarter.time mq)
       < TimeModel.ut (MoonQuarter.time mq').
Proof.
  intros DeltaT search mq.
  assert (Hskip : 0 < 6) by lra.
  assert (Hfwd : MoonQuarter.searches_forward search).
  { intros tgt start lim t E. unfold search in E. injection E as <-.
    simpl. lra. }
  destruct (NextMoonQuarter_cycles DeltaT search 6 10 Hskip Hfwd mq)
    as (Hnext & _ & _).
  eexists. split; [reflexivity |].
  specialize (Hnext _ eq_refl). destruct Hnext as (Hq & Ht).
  split; [exact Hq | exact Ht].
Defined.

(** ** [AstroCheck] *)

Section AstroCheckFacts.

Import TimeModel AstroCheckRun.

Variable DeltaT : R -> R.
Variable Astronomy_MakeObserver : R -> R -> R -> astro_observer_t.
Variable Astronomy_HelioVector : astro_body_t -> astro_time_t -> astro_vector_t.
Variable Astronomy_GeoVector :
  astro_body_t -> astro_time_t -> Z -> astro_vector_t.
Variable Astronomy_Equator :
  astro_body_t -> astro_time_t -> astro_observer_t -> Z -> Z ->
  astro_equatorial_t.
Variable Astronomy_Horizon :
  astro_time_t -> astro_observer_t -> R -> R -> astro_refraction_t ->
  astro_horizon_t.

Let start := Astronomy_MakeTime DeltaT 1700 1 1 0 0 0.
Let stop := Astronomy_MakeTime DeltaT 2200 1 1 0 0 0.
Let step := 10 + AstroCheckRun.PI / 100.
Let sky := sky_line Astronomy_Equator Astronomy_Horizon.
Let bodies := AstroCheck_bodies Astronomy_HelioVector Astronomy_Equator
                                Astronomy_Horizon.
Let sample := AstroCheck_sample Astronomy_HelioVector Astronomy_GeoVector
                                Astronomy_Equator Astronomy_Horizon.
Let loop := AstroCheck_loop DeltaT Astronomy_HelioVector Astronomy_GeoVector
                            Astronomy_Equator Astronomy_Horizon.

Lemma step_bounds : 10 < step < 11.
Proof. unfold step, AstroCheckRun.PI. lra. Qed.

Lemma ut_start : ut start = -109572.5.
Proof.
  unfold start, Astronomy_MakeTime. simpl ut.
  replace (julian_day_number 1700 1 1 - J2000)%Z with (-109572)%Z
    by (vm_compute; reflexivity).
  lra.
Qed.

Lemma ut_stop : ut stop = 73048.5.
Proof.
  unfold stop, Astronomy_MakeTime. simpl ut.
  replace (julian_day_number 2200 1 1 - J2000)%Z with 73049%Z
    by (vm_compute; reflexivity).
  lra.
Qed.

Lemma sample_time_ut (k : nat) :
  ut (sample_time DeltaT k) = ut start + INR k * step.
Proof.
  induction k as [| k IH].
  - simpl. fold start. lra.
  - rewrite S_INR. simpl sample_time. rewrite AddDays_ut, IH.
    unfold step. lra.
Qed.

Lemma sample_time_ok (k : nat) : time_ok DeltaT (sample_time DeltaT k).
Proof. destruct k; reflexivity. Qed.

Lemma INR_round_count : INR round_count = 18205.
Proof.
  unfold round_count. rewrite INR_IZR_INZ, Z2Nat.id by lia. reflexivity.
Qed.

(** After [round_count] steps the time has reached 2200-01-01. *)
Lemma round_count_reaches_stop : ut stop <= ut start + INR round_count * step.
Proof.
  rewrite ut_start, ut_stop, INR_round_count.
  unfold step, AstroCheckRun.PI. lra.
Qed.

Section Rounds.

Hypothesis Hmono : tt_monotonic DeltaT.

Variable observer : astro_observer_t.

Lemma loop_S (fuel : nat) (time : astro_time_t) (error : Z) :
  loop (S fuel) time stop observer error =
  if Rlt_dec (tt time) (tt stop) then
    match sample time observer error with
    | (ls, GotoFail e) => Some (e, [(time, ls)])
    | (ls, Next e) =>
        match loop fuel (Astronomy_AddDays DeltaT time step) stop observer e with
        | Some (e', blocks) => Some (e', (time, ls) :: blocks)
        | None => None
        end
    end
  else Some (error, []).
Proof. reflexivity. Qed.

Lemma tt_stop : tt stop = TerrestrialTime DeltaT (ut stop).
Proof. reflexivity. Qed.

Lemma tt_start : tt start = TerrestrialTime DeltaT (ut start).
Proof. reflexivity. Qed.

(** Past the stop time in [ut] is past it in [tt]. *)
Lemma not_before_stop (k : nat) :
  ut stop <= ut (sample_time DeltaT k) ->
  ~ tt (sample_time DeltaT k) < tt stop.
Proof.
  intros Hle Hlt. rewrite (sample_time_ok k), tt_stop in Hlt.
  pose proof (tt_monotonic_le DeltaT Hmono _ _ Hle). lra.
Qed.

(** The loop ends within [n] rounds once [n] steps reach the stop time,
    and every round it makes is at a time before the stop time. *)
Lemma AstroCheck_loop_rounds (n : nat) :
  forall (fuel k : nat) (error : Z),
    ut stop <= ut (sample_time DeltaT k) + INR n * step ->
    (n < fuel)%nat ->
    exists (e : Z) (blocks : list (astro_time_t * list line)),
      loop fuel (sample_time DeltaT k) stop observer error = Some (e, blocks)
      /\ (List.length blocks <= n)%nat
      /\ map fst blocks = map (sample_time DeltaT) (seq k (List.length blocks))
      /\ Forall (fun b => tt (fst b) < tt stop) blocks.
Proof.
  induction n as [| n IH]; intros fuel k error Hreach Hfuel.
  - destruct fuel as [| fuel]; [lia |].
    exists error, []. rewrite loop_S.
    destruct (Rlt_dec (tt (sample_time DeltaT k)) (tt stop)) as [Hlt | _].
    + exfalso. apply (not_before_stop k); [| exact Hlt].
      change (INR 0) with 0 in Hreach. lra.
    + repeat split; [simpl; lia | constructor].
  - destruct fuel as [| fuel]; [lia |].
    rewrite loop_S.
    destruct (Rlt_dec (tt (sample_time DeltaT k)) (tt stop)) as [Hlt | _].
    + destruct (sample (sample_time DeltaT k) observer error) as [ls [e | e]].
      * assert (Hreach' :
                  ut stop <= ut (sample_time DeltaT (S k)) + INR n * step).
        { rewrite S_INR in Hreach. rewrite !sample_time_ut in *.
          rewrite S_INR. lra. }
        assert (Hfuel' : (n < fuel)%nat) by lia.
        destruct (IH fuel (S k) e Hreach' Hfuel')
          as (e' & blocks & Hloop & Hlen & Htimes & Hbefore).
        change (Astronomy_AddDays DeltaT (sample_time DeltaT k) step)
          with (sample_time DeltaT (S k)).
        rewrite Hloop.
        exists e', ((sample_time DeltaT k, ls) :: blocks).
        repeat split.
        -- simpl. lia.
        -- simpl. rewrite Htimes. reflexivity.
        -- constructor; [exact Hlt | exact Hbefore].
      * exists e, [(sample_time DeltaT k, ls)].
        repeat split.
        -- simpl. lia.
        -- constructor; [exact Hlt | constructor].
    + exists error, []. repeat split; [simpl; lia | constructor].
Qed.

(** A round at a time before the stop time lies in the window. *)
Lemma sample_time_in_window (k : nat) :
  tt (sample_time DeltaT k) < tt stop ->
  in_model_window DeltaT (sample_time DeltaT k).
Proof.
  intros Hlt. unfold in_model_window. fold start stop.
  pose proof step_bounds as Hs. pose proof (pos_INR k) as Hk.
  assert (Hlow : ut start <= ut (sample_time DeltaT k)).
  { rewrite sample_time_ut. nra. }
  assert (Hup : ut (sample_time DeltaT k) < ut stop).
  { destruct (Rlt_dec (ut (sample_time DeltaT k)) (ut stop)) as [H | H];
      [exact H |].
    exfalso. apply (not_before_stop k); [lra | exact Hlt]. }
  repeat split; try assumption.
  rewrite (sample_time_ok k), tt_start.
  apply tt_monotonic_le; assumption.
Qed.

End Rounds.

(** *** The lines of a round *)

Lemma prefix_nil {A : Type} (l : list A) : prefix [] l.
Proof. exists l. reflexivity. Qed.

Lemma prefix_refl {A : Type} (l : list A) : prefix l l.
Proof. exists []. rewrite app_nil_r. reflexivity. Qed.

Lemma prefix_app {A : Type} (l l1 l2 : list A) :
  prefix l1 l2 -> prefix (l ++ l1) (l ++ l2).
Proof. intros [l3 ->]. exists l3. rewrite app_assoc. reflexivity. Qed.

Lemma prefix_app_r {A : Type} (l1 l2 l3 : list A) :
  prefix l1 l2 -> prefix l1 (l2 ++ l3).
Proof. intros [l4 ->]. exists (l4 ++ l3). rewrite app_assoc. reflexivity. Qed.


Lemma sky_kinds (name : string) (body : astro_body_t) (time : astro_time_t)
      (observer : astro_observer_t) :
  match sky name body time observer with
  | (ls, Next e) => map line_kind ls = [("s"%char, name)] /\ e = 0%Z
  | (ls, GotoFail e) => ls = [] /\ e = 1%Z
  end.
Proof.
  unfold sky, sky_line, CheckEquator.
  destruct (is_success (equ_status (Astronomy_Equator body time observer 0 0)));
    simpl; [| split; reflexivity].
  destruct (is_success (equ_status (Astronomy_Equator body time observer 1 1)));
    simpl; split; reflexivity.
Qed.

Lemma bodies_kinds_cons (body : astro_body_t) (rest : list astro_body_t) :
  bodies_kinds (body :: rest)
  = (if is_earth body then [("v"%char, Astronomy_BodyName body)]
     else [("v"%char, Astronomy_BodyName body);
           ("s"%char, Astronomy_BodyName body)])
    ++ bodies_kinds rest.
Proof. reflexivity. Qed.

Lemma bodies_cons (body : astro_body_t) (rest : list astro_body_t)
      (time : astro_time_t) (observer : astro_observer_t) (error : Z) :
  bodies (body :: rest) time observer error =
  let pos := Astronomy_HelioVector body time in
  if negb (CheckVector pos =? 0)%Z then ([], GotoFail (CheckVector pos))
  else
    let v := v_line (Astronomy_BodyName body) (tt (vec_t pos))
                    (vec_x pos) (vec_y pos) (vec_z pos) in
    if negb (is_earth body) then
      match sky (Astronomy_BodyName body) body time observer with
      | (ls, GotoFail e) => (v :: ls, GotoFail e)
      | (ls, Next e) =>
          let (more, fl) := bodies rest time observer e in
          (v :: ls ++ more, fl)
      end
    else
      let (more, fl) := bodies rest time observer (CheckVector pos) in
      (v :: more, fl).
Proof. reflexivity. Qed.

(** The [for] loop writes, body by body, a [v] line and, except for the
    Earth, an [s] line; a failed check cuts the lines short. *)
Lemma bodies_kinds_spec (time : astro_time_t) (observer : astro_observer_t)
      (bs : list astro_body_t) :
  forall error : Z,
    match bodies bs time observer error with
    | (ls, Next e) =>
        map line_kind ls = bodies_kinds bs
        /\ (e = 0%Z \/ (bs = [] /\ e = error))
    | (ls, GotoFail e) =>
        prefix (map line_kind ls) (bodies_kinds bs) /\ e = 1%Z
    end.
Proof.
  induction bs as [| body rest IH]; intros error.
  - simpl. split; [reflexivity | right; split; reflexivity].
  - rewrite bodies_cons, bodies_kinds_cons. cbv zeta.
    unfold CheckVector.
    destruct (is_success (vec_status (Astronomy_HelioVector body time)));
      simpl negb; cbv iota.
    2: { split; [apply prefix_nil | reflexivity]. }
    destruct (is_earth body); simpl negb; cbv iota.
    + specialize (IH 0%Z).
      destruct (bodies rest time observer 0) as [more [e | e]].
      * destruct IH as (Hk & He). simpl. rewrite Hk.
        split; [reflexivity | left].
        destruct He as [He | [_ He]]; exact He.
      * destruct IH as (Hp & He). simpl. split; [| exact He].
        apply (prefix_app [_]). exact Hp.
    + pose proof (sky_kinds (Astronomy_BodyName body) body time observer) as Hs.
      destruct (sky (Astronomy_BodyName body) body time observer)
        as [ls [e | e]].
      * destruct Hs as (Hs & ->). specialize (IH 0%Z).
        destruct (bodies rest time observer 0) as [more [e | e]].
        -- destruct IH as (Hk & He). simpl. rewrite map_app, Hs, Hk.
           split; [reflexivity | left].
           destruct He as [He | [_ He]]; exact He.
        -- destruct IH as (Hp & He). simpl. split; [| exact He].
           rewrite map_app, Hs.
           apply (prefix_app [_; _]). exact Hp.
      * destruct Hs as (-> & ->). simpl. split; [| reflexivity].
        apply (prefix_app [_]). apply prefix_nil.
Qed.

Lemma round_kinds_bodylist :
  round_kinds
  = bodies_kinds bodylist ++ [("v"%char, "GM"%string); ("s"%char, "GM"%string)].
Proof. reflexivity. Qed.

(** A complete round writes the 21 lines of [round_kinds]; a round cut
    short by a failed check writes an initial part of them. *)
Lemma sample_kinds (time : astro_time_t) (observer : astro_observer_t)
      (error : Z) :
  match sample time observer error with
  | (ls, Next e) => map line_kind ls = round_kinds /\ e = 0%Z
  | (ls, GotoFail e) => prefix (map line_kind ls) round_kinds /\ e = 1%Z
  end.
Proof.
  unfold sample, AstroCheck_sample. fold bodies. fold sky.
  pose proof (bodies_kinds_spec time observer bodylist error) as Hb.
  destruct (bodies bodylist time observer error) as [ls [e | e]].
  - destruct Hb as (Hk & _). unfold CheckVector.
    destruct (is_success (vec_status (Astronomy_GeoVector BODY_MOON time 0)));
      simpl negb; cbv iota.
    + pose proof (sky_kinds "GM" BODY_MOON time observer) as Hs.
      destruct (sky "GM" BODY_MOON time observer) as [l [e' | e']].
      * destruct Hs as (Hs & ->). split; [| reflexivity].
        rewrite map_app. simpl. rewrite Hs, Hk. reflexivity.
      * destruct Hs as (-> & ->). split; [| reflexivity].
        rewrite map_app, Hk, round_kinds_bodylist.
        apply prefix_app. exists [("s"%char, "GM"%string)]. reflexivity.
    + split; [| reflexivity].
      rewrite Hk, round_kinds_bodylist. apply prefix_app_r, prefix_refl.
  - destruct Hb as (Hp & He). split; [| exact He].
    rewrite round_kinds_bodylist. apply prefix_app_r. exact Hp.
Qed.

(** Every round the loop makes is complete, except a last one cut short
    by a failed check, after which [error] is 1. *)
Lemma loop_kinds (observer : astro_observer_t) (fuel : nat) :
  forall (time : astro_time_t) (error e : Z)
         (blocks : list (astro_time_t * list line)),
    loop fuel time stop observer error = Some (e, blocks) ->
    Forall (fun b => prefix (map line_kind (snd b)) round_kinds) blocks
    /\ Forall (fun b => map line_kind (snd b) = round_kinds) (removelast blocks)
    /\ (e = 0%Z ->
        Forall (fun b => map line_kind (snd b) = round_kinds) blocks)
    /\ (blocks <> [] -> e = 0%Z \/ e = 1%Z)
    /\ (blocks = [] -> e = error).
Proof.
  induction fuel as [| fuel IH]; intros time error e blocks Hloop.
  - discriminate.
  - rewrite loop_S in Hloop.
    destruct (Rlt_dec (tt time) (tt stop)) as [Hlt | _].
    + pose proof (sample_kinds time observer error) as Hs.
      destruct (sample time observer error) as [ls [e1 | e1]].
      * destruct Hs as (Hk & ->).
        destruct (loop fuel (Astronomy_AddDays DeltaT time step) stop
                       observer 0) as [[e' blocks'] |] eqn:Hrec;
          [| discriminate].
        injection Hloop as <- <-.
        destruct (IH _ _ _ _ Hrec) as (Hp & Hc & H0 & Hne & Hnil).
        split; [| split; [| split; [| split]]].
        -- constructor; [simpl; rewrite Hk; apply prefix_refl | exact Hp].
        -- destruct blocks' as [| b' bs']; [constructor |].
           change (removelast ((time, ls) :: b' :: bs'))
             with ((time, ls) :: removelast (b' :: bs')).
           constructor; [exact Hk | exact Hc].
        -- intros He. constructor; [exact Hk | apply H0; exact He].
        -- intros _. destruct blocks' as [| b' bs'].
           ++ left. apply Hnil. reflexivity.
           ++ apply Hne. discriminate.
        -- discriminate.
      * destruct Hs as (Hp & ->). injection Hloop as <- <-.
        split; [| split; [| split; [| split]]].
        -- constructor; [exact Hp | constructor].
        -- constructor.
        -- discriminate.
        -- intros _. right. reflexivity.
        -- discriminate.
    + injection Hloop as <- <-.
      split; [| split; [| split; [| split]]].
      * constructor.
      * constructor.
      * intros _. constructor.
      * intros C. contradiction C. reflexivity.
      * intros _. reflexivity.
Qed.


(** The rounds, for enough fuel: they end, and they are the rounds at the
    times [sample_time 0], [sample_time 1], ..., all before the stop time. *)
Lemma AstroCheck_rounds_end (Hmono : tt_monotonic DeltaT) (fuel : nat) :
  (round_count < fuel)%nat ->
  exists (error : Z) (blocks : list (astro_time_t * list line)),
    AstroCheck_rounds DeltaT Astronomy_MakeObserver Astronomy_HelioVector
                      Astronomy_GeoVector Astronomy_Equator Astronomy_Horizon
                      fuel = Some (error, blocks)
    /\ (List.length blocks <= round_count)%nat
    /\ map fst blocks = map (sample_time DeltaT) (seq 0 (List.length blocks))
    /\ Forall (fun b => tt (fst b) < tt stop) blocks.
Proof.
  intros Hfuel. unfold AstroCheck_rounds. fold loop.
  apply (AstroCheck_loop_rounds Hmono (Astronomy_MakeObserver 29 (-81) 10)
                                round_count fuel 0%nat 1%Z);
    [| exact Hfuel].
  change (sample_time DeltaT 0) with start.
  exact round_count_reaches_stop.
Qed.

Lemma block_time_is_sample (blocks : list (astro_time_t * list line))
      (time : astro_time_t) (ls : list line) :
  map fst blocks = map (sample_time DeltaT) (seq 0 (List.length blocks)) ->
  In (time, ls) blocks ->
  exists k : nat, (k < List.length blocks)%nat /\ time = sample_time DeltaT k.
Proof.
  intros Htimes Hin.
  assert (Hfst : In time (map fst blocks)).
  { change time with (fst (time, ls)). apply in_map. exact Hin. }
  rewrite Htimes in Hfst. apply in_map_iff in Hfst.
  destruct Hfst as (k & Hk & Hseq). apply in_seq in Hseq.
  exists k. split; [lia | symmetry; exact Hk].
Qed.

(** C9: the loop of [AstroCheck] starts at 1700-01-01 00:00 and adds
    [10 + PI/100] days, [PI] being the constant of [ctest.c], per round;
    it makes a round only while [tt] is strictly before that of 2200-01-01
    00:00 and ends after at most 18205 rounds.  With [tt] increasing in
    [ut], every round's time lies in the window from 1700-01-01 to
    2200-01-01, so position functions that report [OutOfRange] only
    outside the window never do so in the run. *)
Theorem AstroCheck_rounds_inside_window (Hmono : tt_monotonic DeltaT)
        (fuel : nat) (Hfuel : (round_count < fuel)%nat) :
  exists (error : Z) (blocks : list (astro_time_t * list line)),
    AstroCheck_rounds DeltaT Astronomy_MakeObserver Astronomy_HelioVector
                      Astronomy_GeoVector Astronomy_Equator Astronomy_Horizon
                      fuel = Some (error, blocks)
    /\ (List.length blocks <= round_count)%nat
    /\ map fst blocks = map (sample_time DeltaT) (seq 0 (List.length blocks))
    /\ sample_time DeltaT 0 = Astronomy_MakeTime DeltaT 1700 1 1 0 0 0
    /\ ut (sample_time DeltaT 0) = -109572.5
    /\ (forall k : nat,
          sample_time DeltaT (S k)
          = Astronomy_AddDays DeltaT (sample_time DeltaT k)
                              (10 + AstroCheckRun.PI / 100)
          /\ ut (sample_time DeltaT (S k))
             = ut (sample_time DeltaT k) + (10 + AstroCheckRun.PI / 100))
    /\ (forall (time : astro_time_t) (ls : list line),
          In (time, ls) blocks ->
          tt time < tt (Astronomy_MakeTime DeltaT 2200 1 1 0 0 0)
          /\ in_model_window DeltaT time)
    /\ ((forall (body : astro_body_t) (time : astro_time_t),
            in_model_window DeltaT time ->
            vec_status (Astronomy_HelioVector body time)
              <> ASTRO_FAILURE OutOfRange
            /\ vec_status (Astronomy_GeoVector body time 0)
                 <> ASTRO_FAILURE OutOfRange
            /\ forall (observer : astro_observer_t) (equdate aberration : Z),
                 equ_status (Astronomy_Equator body time observer
                                               equdate aberration)
                   <> ASTRO_FAILURE OutOfRange) ->
        forall (time : astro_time_t) (ls : list line) (body : astro_body_t),
          In (time, ls) blocks ->
          vec_status (Astronomy_HelioVector body time)
            <> ASTRO_FAILURE OutOfRange
          /\ vec_status (Astronomy_GeoVector body time 0)
               <> ASTRO_FAILURE OutOfRange
          /\ forall (observer : astro_observer_t) (equdate aberration : Z),
               equ_status (Astronomy_Equator body time observer
                                             equdate aberration)
                 <> ASTRO_FAILURE OutOfRange).
Proof.
  destruct (AstroCheck_rounds_end Hmono fuel Hfuel)
    as (error & blocks & Hrun & Hlen & Htimes & Hbefore).
  assert (Hwin : forall (time : astro_time_t) (ls : list line),
             In (time, ls) blocks ->
             tt time < tt stop /\ in_model_window DeltaT time).
  { intros time ls Hin.
    assert (Hlt : tt time < tt stop).
    { rewrite Forall_forall in Hbefore. apply (Hbefore (time, ls) Hin). }
    split; [exact Hlt |].
    destruct (block_time_is_sample blocks time ls Htimes Hin) as (k & _ & ->).
    apply sample_time_in_window; assumption. }
  exists error, blocks.
  split; [exact Hrun |]. split; [exact Hlen |]. split; [exact Htimes |].
  split; [reflexivity |]. split; [exact ut_start |].
  split; [| split].
  - intros k. split; reflexivity.
  - exact Hwin.
  - intros Hcontract time ls body Hin.
    apply Hcontract. apply (Hwin time ls Hin).
Qed.


End AstroCheckFacts.

(** A constant Delta-T and position functions that always succeed. *)
Lemma AstroCheck_rounds_inside_window_witness :
  let DeltaT := fun _ : R => 69 in
  let helio := fun (_ : AstroCheckRun.astro_body_t)
                   (t : TimeModel.astro_time_t) =>
                 AstroCheckRun.mkVector AstroCheckRun.ASTRO_SUCCESS 1 0 0 t in
  let geo := fun (_ : AstroCheckRun.astro_body_t)
                 (t : TimeModel.astro_time_t) (_ : Z) =>
               AstroCheckRun.mkVector AstroCheckRun.ASTRO_SUCCESS 1 0 0 t in
  let equator := fun (_ : AstroCheckRun.astro_body_t)
                     (_ : TimeModel.astro_time_t)
                     (_ : AstroCheckRun.astro_observer_t) (_ _ : Z) =>
                   AstroCheckRun.mkEquatorial AstroCheckRun.ASTRO_SUCCESS
                                              0 0 1 in
  let horizon := fun (_ : TimeModel.astro_time_t)
                     (_ : AstroCheckRun.astro_observer_t) (_ _ : R)
                     (_ : AstroCheckRun.astro_refraction_t) =>
                   AstroCheckRun.mkHorizon 0 0 0 0 in
  exists (error : Z)
         (blocks : list (TimeModel.astro_time_t * list AstroCheckRun.line)),
    AstroCheckRun.AstroCheck_rounds
      DeltaT AstroCheckRun.mkObserver helio geo equator horizon
      (S AstroCheckRun.round_count) = Some (error, blocks)
    /\ forall (time : TimeModel.astro_time_t) (ls : list AstroCheckRun.line),
         In (time, ls) blocks -> AstroCheckRun.in_model_window DeltaT time.
Proof.
  intros DeltaT helio geo equator horizon.
  assert (Hmono : TimeModel.tt_monotonic DeltaT).
  { intros u1 u2 H. unfold TimeModel.TerrestrialTime, DeltaT. lra. }
  destruct (AstroCheck_rounds_inside_window
              DeltaT AstroCheckRun.mkObserver helio geo equator horizon
              Hmono (S AstroCheckRun.round_count)
              (Nat.lt_succ_diag_r AstroCheckRun.round_count))
    as (error & blocks & Hrun & _ & _ & _ & _ & _ & Hwin & _).
  exists error, blocks. split; [exact Hrun |].
  intros time ls Hin. apply (Hwin time ls Hin).
Defined.


(** ** Rotation matrices *)

Section FrameGraphFacts.

Import TimeModel FrameGraph.

Lemma product_assoc (a b c : RotationMatrix) :
  product a (product b c) = product (product a b) c.
Proof.
  destruct a, b, c. unfold product; simpl. f_equal; ring.
Qed.

Lemma product_identity_l (a : RotationMatrix) : product identity_matrix a = a.
Proof.
  destruct a. unfold product, identity_matrix; simpl. f_equal; ring.
Qed.

Lemma product_identity_r (a : RotationMatrix) : product a identity_matrix = a.
Proof.
  destruct a. unfold product, identity_matrix; simpl. f_equal; ring.
Qed.

Lemma transpose_product (a b : RotationMatrix) :
  transpose (product a b) = product (transpose b) (transpose a).
Proof.
  destruct a, b. unfold product, transpose; simpl. f_equal; ring.
Qed.

Lemma transpose_involutive (a : RotationMatrix) : transpose (transpose a) = a.
Proof. destruct a. reflexivity. Qed.

Lemma transpose_identity : transpose identity_matrix = identity_matrix.
Proof. reflexivity. Qed.

Lemma determinant_product (a b : RotationMatrix) :
  determinant (product a b) = determinant a * determinant b.
Proof.
  destruct a, b. unfold determinant, product; simpl. ring.
Qed.

Lemma determinant_transpose (a : RotationMatrix) :
  determinant (transpose a) = determinant a.
Proof.
  destruct a. unfold determinant, transpose; simpl. ring.
Qed.

Lemma orthonormal_identity : orthonormal identity_matrix.
Proof.
  unfold orthonormal. rewrite transpose_identity, product_identity_l.
  repeat split. unfold determinant, identity_matrix; simpl. ring.
Qed.

Lemma orthonormal_transpose (a : RotationMatrix) :
  orthonormal a -> orthonormal (transpose a).
Proof.
  intros (H1 & H2 & H3). unfold orthonormal.
  rewrite transpose_involutive, determinant_transpose. auto.
Qed.

Lemma orthonormal_product (a b : RotationMatrix) :
  orthonormal a -> orthonormal b -> orthonormal (product a b).
Proof.
  intros (A1 & A2 & A3) (B1 & B2 & B3). unfold orthonormal.
  rewrite transpose_product, determinant_product, A3, B3.
  split; [| split; [| ring]].
  - rewrite product_assoc, <- (product_assoc a b (transpose b)), B1,
      product_identity_r. exact A1.
  - rewrite product_assoc, <- (product_assoc (transpose b) (transpose a) a),
      A2, product_identity_r. exact B2.
Qed.

Lemma orthonormal_Inverse (r : RotationMatrix) :
  orthonormal r -> orthonormal (InverseRotation r).
Proof. apply orthonormal_transpose. Qed.

Lemma orthonormal_Combine (a b : RotationMatrix) :
  orthonormal a -> orthonormal b -> orthonormal (CombineRotation a b).
Proof. intros Ha Hb. apply orthonormal_product; assumption. Qed.

(** For an orthonormal matrix the transpose undoes the rotation, applied
    before or after it. *)
Lemma Combine_Inverse (r : RotationMatrix) :
  orthonormal r ->
  CombineRotation r (InverseRotation r) = identity_matrix
  /\ CombineRotation (InverseRotation r) r = identity_matrix.
Proof.
  intros (H1 & H2 & _). unfold CombineRotation, InverseRotation. auto.
Qed.

Lemma Inverse_Combine (a b : RotationMatrix) :
  InverseRotation (CombineRotation a b)
  = CombineRotation (InverseRotation b) (InverseRotation a).
Proof.
  unfold InverseRotation, CombineRotation. apply transpose_product.
Qed.

Lemma Inverse_Inverse (r : RotationMatrix) :
  InverseRotation (InverseRotation r) = r.
Proof. apply transpose_involutive. Qed.

Section Graph.

Variable Observer : Type.
Variable rot_EQJ_ECL : RotationMatrix.
Variable rot_EQJ_EQD : astro_time_t -> RotationMatrix.
Variable rot_EQD_HOR : astro_time_t -> Observer -> RotationMatrix.

Hypothesis ecl_orthonormal : orthonormal rot_EQJ_ECL.
Hypothesis eqd_orthonormal : forall time, orthonormal (rot_EQJ_EQD time).
Hypothesis hor_orthonormal :
  forall time observer, orthonormal (rot_EQD_HOR time observer).

Let out := from_EQJ Observer rot_EQJ_ECL rot_EQJ_EQD rot_EQD_HOR.
Let rotation := Rotation Observer rot_EQJ_ECL rot_EQJ_EQD rot_EQD_HOR.

Lemma from_EQJ_orthonormal (b : frame) (time : astro_time_t)
      (observer : Observer) :
  orthonormal (out b time observer).
Proof.
  destruct b; simpl.
  - apply orthonormal_identity.
  - apply eqd_orthonormal.
  - apply ecl_orthonormal.
  - apply orthonormal_Combine; [apply eqd_orthonormal | apply hor_orthonormal].
Qed.

Lemma Rotation_orthonormal (a b : frame) (time : astro_time_t)
      (observer : Observer) :
  orthonormal (rotation a b time observer).
Proof.
  unfold rotation, Rotation. apply orthonormal_Combine.
  - apply orthonormal_Inverse. apply from_EQJ_orthonormal.
  - apply from_EQJ_orthonormal.
Qed.

Lemma Rotation_reverse (a b : frame) (time : astro_time_t)
      (observer : Observer) :
  rotation b a time observer = InverseRotation (rotation a b time observer).
Proof.
  unfold rotation, Rotation.
  rewrite Inverse_Combine, Inverse_Inverse. reflexivity.
Qed.

(** C7: for every ordered pair of frames, every time and observer, the
    rotation there combined with the rotation back is the identity matrix
    (exactly, over the reals), in a graph whose edge matrices are
    orthonormal; every matrix of the graph is orthonormal, and its
    [InverseRotation] is its transpose and undoes it. *)
Theorem Rotation_round_trip_identity (a b : frame) (time : astro_time_t)
        (observer : Observer) :
  CombineRotation (rotation a b time observer) (rotation b a time observer)
  = identity_matrix
  /\ orthonormal (rotation a b time observer)
  /\ InverseRotation (rotation a b time observer)
     = transpose (rotation a b time observer)
  /\ rotation b a time observer
     = InverseRotation (rotation a b time observer)
  /\ CombineRotation (rotation a b time observer)
                     (InverseRotation (rotation a b time observer))
     = identity_matrix
  /\ CombineRotation (InverseRotation (rotation a b time observer))
                     (rotation a b time observer)
     = identity_matrix.
Proof.
  pose proof (Rotation_orthonormal a b time observer) as Ho.
  destruct (Combine_Inverse _ Ho) as (H1 & H2).
  pose proof (Rotation_reverse a b time observer) as Hrev.
  split; [rewrite Hrev; exact H1 |].
  split; [exact Ho |].
  split; [reflexivity |].
  split; [exact Hrev |].
  split; [exact H1 | exact H2].
Qed.

End Graph.

End FrameGraphFacts.

(** A graph with a quarter turn about the x axis for the ecliptic, no
    precession, and a quarter turn about the z axis for the horizon. *)
Lemma Rotation_round_trip_identity_witness :
  let ecl := FrameGraph.mkRotation 1 0 0
                                   0 0 1
                                   0 (-1) 0 in
  let eqd := fun _ : TimeModel.astro_time_t => FrameGraph.identity_matrix in
  let hor := fun (_ : TimeModel.astro_time_t) (_ : unit) =>
               FrameGraph.mkRotation 0 1 0
                                     (-1) 0 0
                                     0 0 1 in
  let t := TimeModel.mkTime 0 0 in
  FrameGraph.CombineRotation
    (FrameGraph.Rotation unit ecl eqd hor FrameGraph.ECL FrameGraph.HOR t tt)
    (FrameGraph.Rotation unit ecl eqd hor FrameGraph.HOR FrameGraph.ECL t tt)
  = FrameGraph.identity_matrix.
Proof.
  intros ecl eqd hor t.
  assert (Hecl : FrameGraph.orthonormal ecl).
  { unfold FrameGraph.orthonormal, FrameGraph.product, FrameGraph.transpose,
      FrameGraph.determinant, FrameGraph.identity_matrix, ecl; simpl.
    repeat split; [f_equal; ring | f_equal; ring | ring]. }
  assert (Heqd : forall time, FrameGraph.orthonormal (eqd time)).
  { intros time. apply orthonormal_identity. }
  assert (Hhor : forall time observer,
             FrameGraph.orthonormal (hor time observer)).
  { intros time observer.
    unfold FrameGraph.orthonormal, FrameGraph.product, FrameGraph.transpose,
      FrameGraph.determinant, FrameGraph.identity_matrix, hor; simpl.
    repeat split; [f_equal; ring | f_equal; ring | ring]. }
  exact (proj1 (Rotation_round_trip_identity
                  unit ecl eqd hor Hecl Heqd Hhor
                  FrameGraph.ECL FrameGraph.HOR t tt)).
Defined.

(** ** More on the notebook: what [Solve] finds *)

Section SolveFacts.

(** [Slope] is the derivative of [Eval]. *)
Theorem Slope_is_derivative_of_Eval (p : Parabola) (x : R) :
  derivable_pt_lim (Eval p) x (Slope p x).
Proof.
  assert (H : derivable_pt_lim
                (plus_fct
                   (plus_fct (mult_fct (mult_fct (fct_cte (p_Q p)) id) id)
                             (mult_fct (fct_cte (p_R p)) id))
                   (fct_cte (p_S p)))
                x
                ((((0 * id x + fct_cte (p_Q p) x * 1) * id x
                   + mult_fct (fct_cte (p_Q p)) id x * 1)
                  + (0 * id x + fct_cte (p_R p) x * 1))
                 + 0)).
  { apply derivable_pt_lim_plus; [| apply derivable_pt_lim_const].
    apply derivable_pt_lim_plus.
    - apply derivable_pt_lim_mult; [| apply derivable_pt_lim_id].
      apply derivable_pt_lim_mult;
        [apply derivable_pt_lim_const | apply derivable_pt_lim_id].
    - apply derivable_pt_lim_mult;
        [apply derivable_pt_lim_const | apply derivable_pt_lim_id]. }
  replace (Slope p x)
    with ((((0 * id x + fct_cte (p_Q p) x * 1) * id x
            + mult_fct (fct_cte (p_Q p)) id x * 1)
           + (0 * id x + fct_cte (p_R p) x * 1))
          + 0)
    by (unfold Slope, mult_fct, fct_cte, id; ring).
  exact H.
Qed.

Lemma Slope_root1 (p : Parabola) :
  p_Q p <> 0 -> Slope p (root1 p) = sqrt (discriminant p).
Proof.
  intros HQ. unfold Slope. rewrite (root1_scaled p HQ). ring.
Qed.

Lemma Slope_root2 (p : Parabola) :
  p_Q p <> 0 -> Slope p (root2 p) = - sqrt (discriminant p).
Proof.
  intros HQ. unfold Slope. rewrite (root2_scaled p HQ). ring.
Qed.



(** For a parabola with [Q <> 0], a solution of [Solve] is the first value
    of the quadratic formula exactly when the parabola ascends through
    it, and the second exactly when it descends. *)
Theorem Solve_root1_ascends (p : Parabola) (x : R) (HQ : p_Q p <> 0)
        (Hsolve : Solve p = Return (Some x)) :
  (x = root1 p <-> 0 < Slope p x)
  /\ (x = root2 p <-> Slope p x < 0)
  /\ Slope p x <> 0.
Proof.
  apply (Solve_quadratic_some p x HQ) in Hsolve.
  destruct Hsolve as (Hu & Hcase).
  pose proof (sqrt_discriminant_pos p Hu) as Hs.
  pose proof (Slope_root1 p HQ) as S1. pose proof (Slope_root2 p HQ) as S2.
  pose proof (roots_distinct p HQ Hu) as Hne.
  destruct Hcase as [(_ & _ & ->) | (_ & _ & ->)].
  - rewrite S1. repeat split; intros; try lra; try reflexivity;
      exfalso; apply Hne; congruence.
  - rewrite S2. repeat split; intros; try lra; try reflexivity;
      exfalso; apply Hne; congruence.
Qed.



(** For a function that is itself a quadratic polynomial in the time, the
    fitted parabola is the function: on a window [ta <> tb] it takes the
    function's value at every time, not only at the three samples. *)
Theorem Parabola_exact_on_quadratics (a b c ta tb t : R) (Hwin : ta <> tb) :
  let f := fun u : R => a * u * u + b * u + c in
  Eval (Parabola_init f ta tb) (x_of_t ((tb + ta) / 2) tb t) = f t.
Proof.
  intros f. unfold Eval, Parabola_init, x_of_t, f; simpl.
  field. lra.
Qed.


End SolveFacts.

(** The parabola [x^2 + 2x + 3/4], with roots [-1/2] and [-3/2]. *)
Lemma Solve_root1_ascends_witness :
  Solve (mkParabola 1 2 (3 / 4)) = Return (Some (- 1 / 2))
  /\ 0 < Slope (mkParabola 1 2 (3 / 4)) (- 1 / 2).
Proof.
  set (p := mkParabola 1 2 (3 / 4)).
  assert (HQ : p_Q p <> 0) by (simpl; lra).
  assert (Hd : discriminant p = 1) by (unfold discriminant; simpl; lra).
  assert (H1 : root1 p = - 1 / 2)
    by (unfold root1; rewrite Hd, sqrt_1; simpl; lra).
  assert (H2 : root2 p = - 3 / 2)
    by (unfold root2; rewrite Hd, sqrt_1; simpl; lra).
  assert (Hsolve : Solve p = Return (Some (- 1 / 2))).
  { apply (Solve_quadratic_some p (- 1 / 2) HQ). split; [lra |].
    left. rewrite H1, H2.
    split; [apply in_range_true; lra |].
    split; [apply in_range_false; lra | reflexivity]. }
  split; [exact Hsolve |].
  apply (proj1 (Solve_root1_ascends p (- 1 / 2) HQ Hsolve)).
  symmetry. exact H1.
Defined.


(** The polynomial [u^2 - 2] on the window [1 .. 2], at [u = 3/2]. *)
Lemma Parabola_exact_on_quadratics_witness :
  Eval (Parabola_init (fun u : R => 1 * u * u + 0 * u + - 2) 1 2)
       (x_of_t ((2 + 1) / 2) 2 (3 / 2))
  = 1 * (3 / 2) * (3 / 2) + 0 * (3 / 2) + - 2.
Proof.
  assert (Hwin : 1 <> 2) by lra.
  exact (Parabola_exact_on_quadratics 1 0 (- 2) 1 2 (3 / 2) Hwin).
Defined.


(** ** More on [Diff]: exactly what it accepts *)

Section DiffMore.

Import CLib CTest.
Local Open Scope Z_scope.

(** A scan that converts every directive has stored one double per
    [%lf]. *)
Lemma sscanf_from_full (fmt : list directive) :
  forall (s : string) (count : Z) (body : string) (data : list Q),
    0 <= count ->
    sc_count (sscanf_from fmt s count body data)
    = count + Z.of_nat (count_Letters fmt + count_Lf fmt) ->
    List.length (sc_data (sscanf_from fmt s count body data))
    = (List.length data + count_Lf fmt)%nat.
Proof.
  induction fmt as [| d fmt IH]; intros s count body data Hc Hfull.
  - simpl. lia.
  - assert (Hfail : forall r : scanned,
               (r = mkScanned count body data
                \/ r = input_failure count body data) ->
               sc_count r
               = count + Z.of_nat (count_Letters (d :: fmt) + count_Lf (d :: fmt)) ->
               (count_Letters (d :: fmt) + count_Lf (d :: fmt) = 0)%nat
               /\ sc_data r = data).
    { intros r [-> | ->]; unfold input_failure; cbn [sc_count sc_data];
        intros E.
      - split; [lia | reflexivity].
      - destruct (count =? 0) eqn:E0; [unfold EOF in E; lia |].
        split; [lia | reflexivity]. }
    destruct d; cbn [sscanf_from] in *.
    + destruct s as [| c' s'].
      * destruct (Hfail _ (or_intror eq_refl) Hfull) as (Hz & ->).
        cbn [count_Letters count_Lf] in *. lia.
      * destruct (Ascii.eqb c c').
        -- cbn [count_Letters count_Lf] in *. apply IH; assumption.
        -- destruct (Hfail _ (or_introl eq_refl) Hfull) as (Hz & ->).
           cbn [count_Letters count_Lf] in *. lia.
    + cbn [count_Letters count_Lf] in *. apply IH; assumption.
    + destruct s as [| c' s'].
      * destruct (Hfail _ (or_intror eq_refl) Hfull) as (Hz & _).
        cbn [count_Letters count_Lf] in Hz. lia.
      * destruct (take_letters width (String c' s')) as [l r].
        destruct l as [| a l].
        -- destruct (Hfail _ (or_introl eq_refl) Hfull) as (Hz & _).
           cbn [count_Letters count_Lf] in Hz. lia.
        -- cbn [count_Letters count_Lf] in *.
           apply IH; [lia |]. rewrite Hfull. lia.
    + destruct (skip_space s) as [| c' s'].
      * destruct (Hfail _ (or_intror eq_refl) Hfull) as (Hz & _).
        cbn [count_Letters count_Lf] in Hz. lia.
      * destruct (scan_double (String c' s')) as [[q r] |].
        -- cbn [count_Letters count_Lf] in *.
           rewrite (IH r (count + 1) body (data ++ [q])%list);
             [rewrite length_app; simpl; lia | lia |].
           rewrite Hfull. lia.
        -- destruct (Hfail _ (or_introl eq_refl) Hfull) as (Hz & _).
           cbn [count_Letters count_Lf] in Hz. lia.
Qed.

(** The three formats: what [nrequired] counts and how many doubles are
    compared. *)
Lemma record_format_counts (tag : ascii) (fmt : list directive)
      (nrequired : Z) :
  record_format tag = Some (fmt, nrequired) ->
  nrequired = Z.of_nat (count_Letters fmt + count_Lf fmt)
  /\ count_Lf fmt = compared tag
  /\ (compared tag <= 7)%nat
  /\ ((tag = "o"%char /\ fmt = format_o)
      \/ (tag = "v"%char /\ fmt = format_v)
      \/ (tag = "s"%char /\ fmt = format_s)).
Proof.
  unfold record_format, compared.
  destruct (Ascii.eqb tag "o") eqn:Ho.
  - intros E. injection E as <- <-. apply Ascii.eqb_eq in Ho. subst tag.
    split; [reflexivity |]. split; [reflexivity |].
    split; [simpl; lia | left; split; reflexivity].
  - destruct (Ascii.eqb tag "v") eqn:Hv.
    + intros E. injection E as <- <-. apply Ascii.eqb_eq in Hv. subst tag.
      split; [reflexivity |]. split; [reflexivity |].
      split; [simpl; lia | right; left; split; reflexivity].
    + destruct (Ascii.eqb tag "s") eqn:Hs; [| discriminate].
      intros E. injection E as <- <-. apply Ascii.eqb_eq in Hs. subst tag.
      split; [reflexivity |]. split; [reflexivity |].
      split; [simpl; lia | right; right; split; reflexivity].
Qed.

(** Of a complete record, as many doubles are stored as are compared. *)
Lemma well_scanned_length (line : string) (fmt : list directive)
      (nrequired : Z) :
  record_format (char0 line) = Some (fmt, nrequired) ->
  sc_count (sscanf line fmt) = nrequired ->
  List.length (sc_data (sscanf line fmt)) = compared (char0 line).
Proof.
  intros Hfmt Hcount.
  destruct (record_format_counts _ _ _ Hfmt) as (Hn & Hlf & _).
  unfold sscanf in *.
  rewrite (sscanf_from_full fmt line 0 EmptyString []); [simpl; exact Hlf | lia |].
  rewrite Hcount, Hn. lia.
Qed.

(** The loop of [DiffLine] runs [compared] times on a complete record. *)
Lemma loop_count_compared (line : string) (fmt : list directive)
      (nrequired : Z) :
  record_format (char0 line) = Some (fmt, nrequired) ->
  sc_count (sscanf line fmt) = nrequired ->
  Z.to_nat match sc_body (sscanf line fmt) with
           | EmptyString => nrequired
           | String _ _ => nrequired - 1
           end
  = compared (char0 line).
Proof.
  intros Hfmt Hcount.
  destruct (record_format_counts _ _ _ Hfmt)
    as (_ & _ & _ & [(Ht & ->) | [(Ht & ->) | (Ht & ->)]]);
    rewrite Ht in *; unfold record_format in Hfmt; simpl in Hfmt;
    injection Hfmt as <-.
  - unfold sscanf. rewrite (sscanf_from_body_untouched format_o);
      [reflexivity | unfold format_o; repeat constructor; discriminate].
  - assert (Hne : sc_body (sscanf line format_v) <> EmptyString).
    { apply scan_body_nonempty. unfold format_v in Hcount. lia. }
    destruct (sc_body (sscanf line format_v)); [contradiction | reflexivity].
  - assert (Hne : sc_body (sscanf line format_s) <> EmptyString).
    { apply scan_body_nonempty. unfold format_s in Hcount. lia. }
    destruct (sc_body (sscanf line format_s)); [contradiction | reflexivity].
Qed.

(** Below the number of stored doubles the array holds the stored
    doubles, whatever the filler. *)
Lemma nth_data_array (filler d1 d2 : Q) (data : list Q) (k : nat) :
  (k < List.length data)%nat -> (List.length data <= 7)%nat ->
  nth k (data_array filler data) d1 = nth k data d2.
Proof.
  intros Hk Hlen. unfold data_array.
  rewrite firstn_all2 by lia. rewrite app_nth1 by lia. apply nth_indep. lia.
Qed.

(** After the comparison loop [*maxdiff] is within any bound that held
    before and holds for every difference looked at. *)
Lemma compare_data_le (bound : Q) (n : nat) :
  forall (i : nat) (cdata jdata : list Q) (lnum : Z) (maxdiff : Q)
         (worst_lnum : Z),
    (maxdiff <= bound)%Q ->
    (forall k : nat,
        (i <= k < i + n)%nat ->
        (Qabs (nth k cdata filler_dc - nth k jdata filler_ce) <= bound)%Q) ->
    (fst (compare_data n i cdata jdata lnum maxdiff worst_lnum) <= bound)%Q.
Proof.
  induction n as [| n IH]; intros i cdata jdata lnum maxdiff worst_lnum Hm Hk.
  - exact Hm.
  - cbn [compare_data].
    destruct (Qgtb (Qabs (nth i cdata filler_dc - nth i jdata filler_ce))
                   maxdiff).
    + apply IH; [apply Hk; lia | intros k Hr; apply Hk; lia].
    + apply IH; [exact Hm | intros k Hr; apply Hk; lia].
Qed.

(** Two lines that agree within a bound are accepted, and leave
    [*maxdiff] within the bound when it was so before. *)
Lemma DiffLine_agreeing (bound : Q) (lnum : Z) (cline jline : string)
      (maxdiff : Q) (worst_lnum : Z) :
  lines_agree bound cline jline -> (maxdiff <= bound)%Q ->
  exists (m : Q) (w : Z),
    DiffLine lnum cline jline maxdiff worst_lnum = (0, m, w)
    /\ (m <= bound)%Q.
Proof.
  intros (Htag & fmt & n & Hfmt & Hc & Hj & Hbody & Hdata) Hm.
  unfold DiffLine. rewrite <- Htag, Ascii.eqb_refl. cbn [negb].
  rewrite Hfmt. cbv zeta.
  replace (sc_count (sscanf cline fmt) =? sc_count (sscanf jline fmt))
    with true by (symmetry; apply Z.eqb_eq; congruence).
  replace (sc_count (sscanf cline fmt) =? n)
    with true by (symmetry; apply Z.eqb_eq; congruence).
  replace (String.eqb (sc_body (sscanf cline fmt))
                      (sc_body (sscanf jline fmt)))
    with true by (symmetry; apply String.eqb_eq; exact Hbody).
  cbn [negb].
  rewrite (loop_count_compared cline fmt n Hfmt Hc).
  pose proof (compare_data_le bound (compared (char0 cline)) 0
                (data_array filler_dc (sc_data (sscanf cline fmt)))
                (data_array filler_ce (sc_data (sscanf jline fmt)))
                lnum maxdiff worst_lnum Hm) as Hle.
  destruct (compare_data (compared (char0 cline)) 0
              (data_array filler_dc (sc_data (sscanf cline fmt)))
              (data_array filler_ce (sc_data (sscanf jline fmt)))
              lnum maxdiff worst_lnum) as [m w].
  exists m, w. split; [reflexivity |].
  apply Hle. intros k Hk. apply Hdata. lia.
Qed.

Lemma Diff_loop_agreeing (bound : Q) (clines jlines : list string) :
  Forall2 (lines_agree bound) clines jlines ->
  forall (lnum : Z) (maxdiff : Q) (worst_lnum : Z),
    (maxdiff <= bound)%Q ->
    exists (m : Q) (w : Z),
      Diff_loop clines jlines lnum maxdiff worst_lnum = (0, m, w)
      /\ (m <= bound)%Q.
Proof.
  induction 1 as [| cline jline cs js Hline Hrest IH];
    intros lnum maxdiff worst_lnum Hm.
  - exists maxdiff, worst_lnum. split; [reflexivity | exact Hm].
  - cbn [Diff_loop].
    destruct (DiffLine_agreeing bound (lnum + 1) cline jline maxdiff
                                worst_lnum Hline Hm) as (m1 & w1 & E & Hm1).
    rewrite E. cbn [Z.eqb]. apply IH. exact Hm1.
Qed.


Lemma DiffLine_error (lnum : Z) (cline jline : string) (maxdiff : Q)
      (worst_lnum : Z) :
  fst (fst (DiffLine lnum cline jline maxdiff worst_lnum)) = 0
  \/ fst (fst (DiffLine lnum cline jline maxdiff worst_lnum)) = 1.
Proof.
  unfold DiffLine.
  destruct (negb (Ascii.eqb (char0 cline) (char0 jline))); [right; reflexivity |].
  destruct (record_format (char0 cline)) as [[fmt n] |]; [| right; reflexivity].
  destruct (negb (sc_count (sscanf cline fmt) =? sc_count (sscanf jline fmt)));
    [right; reflexivity |].
  destruct (negb (sc_count (sscanf cline fmt) =? n)); [right; reflexivity |].
  destruct (negb (String.eqb (sc_body (sscanf cline fmt))
                             (sc_body (sscanf jline fmt))));
    [right; reflexivity |].
  destruct (compare_data _ _ _ _ _ _ _). left. reflexivity.
Qed.

Lemma Diff_loop_error (clines : list string) :
  forall (jlines : list string) (lnum : Z) (maxdiff : Q) (worst_lnum : Z),
    fst (fst (Diff_loop clines jlines lnum maxdiff worst_lnum)) = 0
    \/ fst (fst (Diff_loop clines jlines lnum maxdiff worst_lnum)) = 1.
Proof.
  induction clines as [| cline cs IH];
    intros [| jline js] lnum maxdiff worst_lnum; cbn [Diff_loop];
    try (left; reflexivity); try (right; reflexivity).
  pose proof (DiffLine_error (lnum + 1) cline jline maxdiff worst_lnum) as He.
  destruct (DiffLine (lnum + 1) cline jline maxdiff worst_lnum)
    as [[e m] w]. simpl in He.
  destruct He as [-> | ->]; cbn [Z.eqb]; [apply IH | right; reflexivity].
Qed.

Lemma Diff_error (c j : option string) : Diff c j = 0 \/ Diff c j = 1.
Proof.
  destruct c as [c |], j as [j |]; try (right; reflexivity).
  unfold Diff.
  pose proof (Diff_loop_error (fgets_all 200 c) (fgets_all 200 j) 0 0%Q 0)
    as He.
  destruct (Diff_loop (fgets_all 200 c) (fgets_all 200 j) 0 0 0)
    as [[e m] w]. simpl in He.
  destruct He as [-> | ->]; cbn [Z.eqb]; [| right; reflexivity].
  destruct (Qgtb m tolerance); [right | left]; reflexivity.
Qed.

(** Agreement of two lines does not depend on which file each is from. *)
Lemma lines_agree_sym (bound : Q) (cline jline : string) :
  lines_agree bound cline jline -> lines_agree bound jline cline.
Proof.
  intros (Htag & fmt & n & Hfmt & Hc & Hj & Hbody & Hdata).
  split; [symmetry; exact Htag |].
  exists fmt, n. rewrite <- Htag.
  split; [exact Hfmt |]. split; [exact Hj |]. split; [exact Hc |].
  split; [symmetry; exact Hbody |].
  intros k Hk. specialize (Hdata k Hk).
  pose proof (well_scanned_length cline fmt n Hfmt Hc) as Lc.
  assert (Hfmt' : record_format (char0 jline) = Some (fmt, n))
    by (rewrite <- Htag; exact Hfmt).
  pose proof (well_scanned_length jline fmt n Hfmt' Hj) as Lj.
  rewrite <- Htag in Lj.
  destruct (record_format_counts _ _ _ Hfmt) as (_ & _ & H7 & _).
  rewrite (nth_data_array filler_dc filler_dc 0%Q) in Hdata by lia.
  rewrite (nth_data_array filler_ce filler_ce 0%Q) in Hdata by lia.
  rewrite (nth_data_array filler_dc filler_dc 0%Q) by lia.
  rewrite (nth_data_array filler_ce filler_ce 0%Q) by lia.
  rewrite Qabs_Qminus. exact Hdata.
Qed.

(** The result of [Diff] does not depend on the order of the two files. *)
Theorem Diff_symmetric (c j : option string) : Diff c j = Diff j c.
Proof.
  destruct c as [c |], j as [j |]; try reflexivity.
  assert (Hiff : Diff (Some c) (Some j) = 0 <-> Diff (Some j) (Some c) = 0).
  { assert (Hdir : forall a b : string,
               Diff (Some a) (Some b) = 0 -> Diff (Some b) (Some a) = 0).
    { intros a b H. destruct (Diff_accepts a b H) as (_ & Hall).
      destruct (Diff_loop_agreeing tolerance (fgets_all 200 b)
                  (fgets_all 200 a)) with (lnum := 0) (maxdiff := 0%Q)
                                          (worst_lnum := 0)
        as (m & w & E & Hm).
      - apply Forall2_flip. eapply Forall2_impl; [| exact Hall].
        intros x y. apply lines_agree_sym.
      - unfold tolerance, Qle; simpl; lia.
      - unfold Diff. rewrite E. cbn [Z.eqb].
        unfold Qgtb. apply Qle_bool_iff in Hm. rewrite Hm. reflexivity. }
    split; apply Hdir. }
  destruct (Diff_error (Some c) (Some j)) as [E1 | E1],
           (Diff_error (Some j) (Some c)) as [E2 | E2];
    rewrite ?E1, ?E2; try reflexivity.
  - apply Hiff in E1. congruence.
  - apply Hiff in E2. congruence.
Qed.

(** A file compared with itself passes exactly when each of its lines is
    a complete [o], [v] or [s] record. *)
Theorem Diff_self_iff_well_formed (c : string) :
  Diff (Some c) (Some c) = 0 <-> Forall well_formed (fgets_all 200 c).
Proof.
  assert (Hline : forall line : string,
             lines_agree tolerance line line <-> well_formed line).
  { intros line. split.
    - intros (_ & fmt & n & Hfmt & Hc & _). exists fmt, n. split; assumption.
    - intros (fmt & n & Hfmt & Hc).
      split; [reflexivity |]. exists fmt, n.
      repeat split; try assumption.
      intros k Hk.
      pose proof (well_scanned_length line fmt n Hfmt Hc) as L.
      destruct (record_format_counts _ _ _ Hfmt) as (_ & _ & H7 & _).
      rewrite (nth_data_array filler_dc filler_dc 0%Q) by lia.
      rewrite (nth_data_array filler_ce filler_ce 0%Q) by lia.
      assert (E : (nth k (sc_data (sscanf line fmt)) 0
                   - nth k (sc_data (sscanf line fmt)) 0 == 0)%Q) by ring.
      rewrite E. unfold tolerance, Qle; simpl; lia. }
  split.
  - intros H. destruct (Diff_accepts c c H) as (_ & Hall).
    remember (fgets_all 200 c) as ls eqn:Els. clear Els H.
    induction ls as [| l ls IH]; [constructor |].
    inversion Hall; subst. constructor; [apply Hline; assumption |].
    apply IH. assumption.
  - intros Hwf.
    assert (Hall : Forall2 (lines_agree tolerance) (fgets_all 200 c)
                           (fgets_all 200 c)).
    { induction Hwf as [| l ls Hl _ IH]; constructor;
        [apply Hline; exact Hl | exact IH]. }
    destruct (Diff_loop_agreeing tolerance _ _ Hall 0 0%Q 0)
      as (m & w & E & Hm); [unfold tolerance, Qle; simpl; lia |].
    unfold Diff. rewrite E. cbn [Z.eqb].
    unfold Qgtb. apply Qle_bool_iff in Hm. rewrite Hm. reflexivity.
Qed.

End DiffMore.

(** ** The scanner of the other tests *)

Section ScanFacts.

Import CLib CScan.
Local Open Scope Z_scope.

Lemma conforms_nil (fmt : list conversion) : conforms fmt [].
Proof.
  induction fmt as [| d fmt IH]; [reflexivity |].
  destruct d; simpl; auto.
Qed.

Lemma take_set_spec (allowed : ascii -> bool) (w : nat) :
  forall (s l r : string),
    take_set allowed w s = (l, r) ->
    (String.length l <= w)%nat /\ all_in allowed l = true.
Proof.
  induction w as [| w IH]; intros s l r E.
  - destruct s; simpl in E; injection E as <- <-; simpl;
      (split; [lia | reflexivity]).
  - destruct s as [| c s']; simpl in E.
    + injection E as <- <-. simpl. split; [lia | reflexivity].
    + destruct (allowed c) eqn:Hc.
      * destruct (take_set allowed w s') as [l' r'] eqn:E'.
        injection E as <- <-. destruct (IH _ _ _ E') as (Hl & Ha).
        simpl. rewrite Hc, Ha. split; [lia | reflexivity].
      * injection E as <- <-. simpl. split; [lia | reflexivity].
Qed.

(** A scan only appends values, and those it appends are the ones the
    leading conversions of the format store. *)
Lemma scan_conforms (fmt : list conversion) :
  forall (s : string) (vals : list value) (b : bool) (vals' : list value),
    scan fmt s vals = (b, vals') ->
    exists new : list value, vals' = (vals ++ new)%list /\ conforms fmt new.
Proof.
  induction fmt as [| d fmt IH]; intros s vals b vals' E.
  - simpl in E. injection E as <- <-. exists []. rewrite app_nil_r.
    split; reflexivity.
  - assert (Hstop : forall b0 : bool,
               (b0, vals) = (b, vals') ->
               exists new : list value,
                 vals' = (vals ++ new)%list /\ conforms (d :: fmt) new).
    { intros b0 E0. injection E0 as <- <-. exists []. rewrite app_nil_r.
      split; [reflexivity | apply conforms_nil]. }
    destruct d; cbn [scan] in E.
    + destruct s as [| c' s']; [exact (Hstop _ E) |].
      destruct (Ascii.eqb c c'); [| exact (Hstop _ E)].
      exact (IH _ _ _ _ E).
    + exact (IH _ _ _ _ E).
    + destruct (skip_space s) as [| c' s']; [exact (Hstop _ E) |].
      destruct (scan_int (String c' s')) as [[z r] |]; [| exact (Hstop _ E)].
      destruct (IH _ _ _ _ E) as (new & -> & Hnew).
      exists (VInt z :: new). rewrite <- app_assoc. split; [reflexivity | exact Hnew].
    + destruct (skip_space s) as [| c' s']; [exact (Hstop _ E) |].
      destruct (scan_double (String c' s')) as [[q r] |]; [| exact (Hstop _ E)].
      destruct (IH _ _ _ _ E) as (new & -> & Hnew).
      exists (VDouble q :: new). rewrite <- app_assoc.
      split; [reflexivity | exact Hnew].
    + destruct s as [| c' s']; [exact (Hstop _ E) |].
      destruct (take_set allowed width (String c' s')) as [l r] eqn:Ht.
      destruct l as [| a l]; [exact (Hstop _ E) |].
      destruct (IH _ _ _ _ E) as (new & -> & Hnew).
      exists (VString (String a l) :: new). rewrite <- app_assoc.
      split; [reflexivity |].
      destruct (take_set_spec _ _ _ _ _ Ht) as (Hl & Ha).
      cbn [conforms]. split; [| exact Hnew].
      split; [discriminate |]. split; [exact Hl | exact Ha].
Qed.

(** What [sscanf] returns, when it is positive, is the number of values
    stored, and the values are those of the leading conversions. *)
Lemma sscanf_conforms (s : string) (fmt : list conversion) (n : Z)
      (vals : list value) :
  sscanf s fmt = (n, vals) ->
  conforms fmt vals /\ (0 < n -> n = Z.of_nat (List.length vals)).
Proof.
  unfold sscanf. destruct (scan fmt s []) as [b vals0] eqn:E.
  intros E'. injection E' as <- <-.
  destruct (scan_conforms _ _ _ _ _ E) as (new & -> & Hnew). simpl.
  split; [exact Hnew |].
  destruct new; [| intros _; reflexivity].
  destruct b; unfold EOF; lia.
Qed.

End ScanFacts.

(** ** [RiseSet] *)

Section RiseSetFacts.

Import CLib CTest CScan RiseSetTest.
Local Open Scope Z_scope.

(** After nine conversions [kind] holds ["r"] or ["s"]. *)
Lemma riseset_kind (line : string) (vals : list value) :
  sscanf line riseset_format = (9, vals) ->
  string_arg 8 vals = "r"%string \/ string_arg 8 vals = "s"%string.
Proof.
  intros E. destruct (sscanf_conforms _ _ _ _ E) as (Hc & Hn).
  specialize (Hn ltac:(lia)).
  do 9 (destruct vals as [| ? vals]; [simpl in Hn; lia |]).
  destruct vals; [| simpl in Hn; lia].
  unfold riseset_format in Hc. cbn [conforms] in Hc.
  repeat match type of Hc with
         | context [match ?v with _ => _ end] =>
             is_var v; destruct v; cbv iota beta in Hc; try tauto
         end.
  destruct Hc as (_ & (Hne & Hlen & Hall) & _).
  unfold string_arg. cbn [nth_error].
  destruct s0 as [| c [| c' s0]]; [contradiction | | simpl in Hlen; lia].
  simpl in Hall. rewrite andb_true_r in Hall. unfold is_rs in Hall.
  apply orb_true_iff in Hall.
  destruct Hall as [H | H]; apply Ascii.eqb_eq in H; subst c;
    [left | right]; reflexivity.
Qed.

(** The two lines the source quotes are read in full, a line without the
    kind is not. *)
Example RiseSet_sample_lines :
  RiseSet (Some ("Moon  103 -61 1944-01-02T17:08Z s" ++ newline
                 ++ "Moon  103 -61 1944-01-03T05:47Z r" ++ newline)%string) = 0
  /\ RiseSet (Some ("Moon  103 -61 1944-01-02T17:08Z" ++ newline)%string) = 1.
Proof. split; vm_compute; reflexivity. Qed.

(** [RiseSet] returns 0 exactly when the file opens and [sscanf] converts
    all nine fields of every line read; the test of [kind] that follows
    never fails, so that no other property of a line is looked at. *)
Theorem RiseSet_passes_iff_nine_fields (infile : option string) :
  (RiseSet infile = 0 <->
   exists file : string,
     infile = Some file
     /\ Forall (fun line => fst (sscanf line riseset_format) = 9)
               (fgets_all 100 file))
  /\ forall line : string,
      fst (sscanf line riseset_format) = 9 ->
      let kind := string_arg 8 (snd (sscanf line riseset_format)) in
      kind = "r"%string \/ kind = "s"%string.
Proof.
  split; cycle 1.
  { intros line H9. destruct (sscanf line riseset_format) as [n vals] eqn:E.
    simpl in H9. subst n. exact (riseset_kind line vals E). }
  assert (Hloop : forall (lines : list string) (lnum : Z),
             RiseSet_loop lines lnum = 0 <->
             Forall (fun line => fst (sscanf line riseset_format) = 9) lines).
  { induction lines as [| line rest IH]; intros lnum.
    - simpl. split; [constructor | reflexivity].
    - cbn [RiseSet_loop].
      destruct (sscanf line riseset_format) as [n vals] eqn:E.
      destruct (n =? 9) eqn:Hn; cbn [negb].
      + apply Z.eqb_eq in Hn. subst n.
        assert (Hk : RiseSet_loop rest (lnum + 1) = 0 <->
                     Forall (fun l => fst (sscanf l riseset_format) = 9) rest)
          by apply IH.
        destruct (riseset_kind line vals E) as [-> | ->]; cbn [String.eqb];
          rewrite ?Ascii.eqb_refl; cbv zeta.
        * rewrite Hk. split.
          -- intros H. constructor; [rewrite E; reflexivity | exact H].
          -- intros H. inversion H; assumption.
        * simpl. rewrite Hk. split.
          -- intros H. constructor; [rewrite E; reflexivity | exact H].
          -- intros H. inversion H; assumption.
      + apply Z.eqb_neq in Hn. split; [discriminate |].
        intros H. inversion H as [| ? ? H9 ?]. rewrite E in H9. simpl in H9.
        contradiction. }
  destruct infile as [file |]; cbn [RiseSet].
  - rewrite Hloop. split.
    + intros H. exists file. split; [reflexivity | exact H].
    + intros (f & Ef & H). injection Ef as <-. exact H.
  - split; [discriminate | intros (f & Ef & _); discriminate].
Qed.

End RiseSetFacts.

(** ** [SearchElongTest] *)

Section ElongFacts.

Import CLib CScan TimeModel AstroCheckRun ElongTest.

Variable Astronomy_MakeTime : Z -> Z -> Z -> Z -> Z -> R -> astro_time_t.
Variable Astronomy_SearchMaxElongation :
  astro_body_t -> astro_time_t -> astro_elongation_t.

Let ParseDate := ParseDate Astronomy_MakeTime.
Let TestMaxElong :=
  TestMaxElong Astronomy_MakeTime Astronomy_SearchMaxElongation.
Let SearchElongTest :=
  SearchElongTest Astronomy_MakeTime Astronomy_SearchMaxElongation.

Lemma is_success_true (st : astro_status_t) :
  is_success st = true <-> st = ASTRO_SUCCESS.
Proof. destruct st; simpl; split; intros; congruence. Qed.

(** Every row of the table names Mercury or Venus and carries two dates
    [sscanf] reads five numbers from. *)
Lemma ElongTestData_readable :
  Forall (fun test => row_readable test = true) ElongTestData.
Proof.
  unfold ElongTestData.
  repeat (constructor;
          [unfold row_readable; cbn [body searchDate eventDate];
           vm_compute; reflexivity |]).
  constructor.
Qed.

Lemma ParseDate_some (text : string) :
  fst (sscanf text date_format) = 5%Z ->
  exists time : astro_time_t, ParseDate text = Some time.
Proof.
  unfold ParseDate, ElongTest.ParseDate.
  destruct (sscanf text date_format) as [n vals]. simpl. intros ->.
  simpl. eexists. reflexivity.
Qed.

Lemma row_readable_spec (test : elong_test_t) :
  row_readable test = true ->
  (body test = BODY_MERCURY \/ body test = BODY_VENUS)
  /\ exists searchTime eventTime : astro_time_t,
      ParseDate (searchDate test) = Some searchTime
      /\ ParseDate (eventDate test) = Some eventTime.
Proof.
  unfold row_readable. intros H.
  apply andb_true_iff in H. destruct H as (H & He).
  apply andb_true_iff in H. destruct H as (Hb & Hs).
  apply Z.eqb_eq in Hs, He.
  destruct (ParseDate_some _ Hs) as (st & Est).
  destruct (ParseDate_some _ He) as (et & Eet).
  split; [| exists st, et; split; assumption].
  destruct (body test); try discriminate; [left | right]; reflexivity.
Qed.

(** What the library has to answer for a row to pass. *)
Lemma TestMaxElong_readable (test : elong_test_t)
      (searchTime eventTime : astro_time_t) :
  (body test = BODY_MERCURY \/ body test = BODY_VENUS) ->
  ParseDate (searchDate test) = Some searchTime ->
  ParseDate (eventDate test) = Some eventTime ->
  (TestMaxElong test = 0%Z <->
   let evt := Astronomy_SearchMaxElongation (body test) searchTime in
   elo_status evt = ASTRO_SUCCESS
   /\ 24 * Rabs (tt (elo_time evt) - tt eventTime) <= 0.6
   /\ 60 * Rabs (elongation evt - angle test) <= 3.1).
Proof.
  intros Hb Hs He. unfold TestMaxElong, ElongTest.TestMaxElong.
  fold ParseDate. rewrite Hs, He. cbv zeta.
  revert Hb. generalize (body test). intros b Hb.
  set (evt := Astronomy_SearchMaxElongation b searchTime).
  assert (Hgoal :
            (if negb (is_success (elo_status evt)) then 1%Z
             else if Rlt_dec 0.6 (24 * Rabs (tt (elo_time evt) - tt eventTime))
                  then 1%Z
                  else if Rlt_dec 3.1 (60 * Rabs (elongation evt - angle test))
                       then 1%Z else 0%Z) = 0%Z <->
            elo_status evt = ASTRO_SUCCESS
            /\ 24 * Rabs (tt (elo_time evt) - tt eventTime) <= 0.6
            /\ 60 * Rabs (elongation evt - angle test) <= 3.1).
  { destruct (is_success (elo_status evt)) eqn:Hok; cbn [negb].
    - apply is_success_true in Hok.
      destruct (Rlt_dec 0.6 _) as [Hh | Hh];
        [split; [discriminate | intros (_ & H & _); lra] |].
      destruct (Rlt_dec 3.1 _) as [Ha | Ha];
        [split; [discriminate | intros (_ & _ & H); lra] |].
      split; [intros _ | reflexivity].
      split; [exact Hok | split; lra].
    - split; [discriminate |]. intros (H & _).
      apply is_success_true in H. congruence. }
  destruct Hb as [Hb | Hb]; subst b; exact Hgoal.
Qed.

Lemma SearchElongTest_loop_zero (tests : list elong_test_t) :
  SearchElongTest_loop Astronomy_MakeTime Astronomy_SearchMaxElongation tests
  = 0%Z
  <-> Forall (fun test => TestMaxElong test = 0%Z) tests.
Proof.
  induction tests as [| test rest IH]; cbn [SearchElongTest_loop].
  - split; [constructor | reflexivity].
  - fold TestMaxElong. destruct (TestMaxElong test =? 0)%Z eqn:E; cbn [negb].
    + apply Z.eqb_eq in E. rewrite IH. split.
      * intros H. constructor; assumption.
      * intros H. inversion H; assumption.
    + apply Z.eqb_neq in E. split; [intros H; contradiction |].
      intros H. inversion H. contradiction.
Qed.

(** No row of the table can fail for what the table holds: each names
    Mercury or Venus and has two dates [ParseDate] reads.  So
    [SearchElongTest] returns 0 exactly when, for each of its rows,
    [Astronomy_SearchMaxElongation] from the search date succeeds and
    returns an event within 0.6 hours of the event date and an elongation
    within 3.1 arc minutes of the angle of the row. *)
Theorem SearchElongTest_passes_iff_library_agrees :
  (forall test : elong_test_t,
      In test ElongTestData ->
      (body test = BODY_MERCURY \/ body test = BODY_VENUS)
      /\ exists searchTime eventTime : astro_time_t,
          ParseDate (searchDate test) = Some searchTime
          /\ ParseDate (eventDate test) = Some eventTime)
  /\ (SearchElongTest = 0%Z <->
      forall (test : elong_test_t) (searchTime eventTime : astro_time_t),
        In test ElongTestData ->
        ParseDate (searchDate test) = Some searchTime ->
        ParseDate (eventDate test) = Some eventTime ->
        let evt := Astronomy_SearchMaxElongation (body test) searchTime in
        elo_status evt = ASTRO_SUCCESS
        /\ 24 * Rabs (tt (elo_time evt) - tt eventTime) <= 0.6
        /\ 60 * Rabs (elongation evt - angle test) <= 3.1).
Proof.
  assert (Hrows : forall test : elong_test_t,
             In test ElongTestData ->
             (body test = BODY_MERCURY \/ body test = BODY_VENUS)
             /\ exists searchTime eventTime : astro_time_t,
                 ParseDate (searchDate test) = Some searchTime
                 /\ ParseDate (eventDate test) = Some eventTime).
  { intros test Hin. apply row_readable_spec.
    pose proof ElongTestData_readable as Hall.
    rewrite Forall_forall in Hall. apply Hall. exact Hin. }
  split; [exact Hrows |].
  unfold SearchElongTest, ElongTest.SearchElongTest.
  rewrite SearchElongTest_loop_zero, Forall_forall. split.
  - intros H test st et Hin Hs He.
    destruct (Hrows test Hin) as (Hb & _).
    apply (TestMaxElong_readable test st et Hb Hs He). apply H. exact Hin.
  - intros H test Hin.
    destruct (Hrows test Hin) as (Hb & st & et & Hs & He).
    apply (TestMaxElong_readable test st et Hb Hs He).
    apply H; assumption.
Qed.

End ElongFacts.

(** ** [SeasonsTest] *)

Section SeasonsFacts.

Import CLib CScan TimeModel AstroCheckRun SeasonsRun.

Variable Astronomy_MakeTime : Z -> Z -> Z -> Z -> Z -> R -> astro_time_t.
Variable Astronomy_Seasons : Z -> astro_seasons_t.

Let SeasonsTest_loop := SeasonsTest_loop Astronomy_MakeTime Astronomy_Seasons.
Let line_confirmed := line_confirmed Astronomy_MakeTime Astronomy_Seasons.

Lemma verify_time_zero (calc_time correct_time : astro_time_t) (rest : Z) :
  verify_time calc_time correct_time rest = 0%Z <->
  (24 * 60) * Rabs (tt calc_time - tt correct_time) <= 1.7 /\ rest = 0%Z.
Proof.
  unfold verify_time.
  destruct (Rlt_dec 1.7 _) as [H | H]; split.
  - discriminate.
  - intros (H' & _). lra.
  - intros ->. split; [lra | reflexivity].
  - intros (_ & ->). reflexivity.
Qed.

(** The choice of the event by the name and the month of a line. *)
Lemma event_choice_zero (name : string) (month : Z) (seasons : astro_seasons_t)
      (correct_time : astro_time_t) (next : Z) :
  (if String.eqb name "Equinox" then
     if (month =? 3)%Z then
       verify_time (mar_equinox seasons) correct_time next
     else if (month =? 9)%Z then
       verify_time (sep_equinox seasons) correct_time next
     else 1%Z
   else if String.eqb name "Solstice" then
     if (month =? 6)%Z then
       verify_time (jun_solstice seasons) correct_time next
     else if (month =? 12)%Z then
       verify_time (dec_solstice seasons) correct_time next
     else 1%Z
   else if String.eqb name "Aphelion" then next
   else if String.eqb name "Perihelion" then next
   else 1%Z) = 0%Z
  <->
  ((name = "Equinox"%string /\ month = 3%Z
    /\ (24 * 60) * Rabs (tt (mar_equinox seasons) - tt correct_time) <= 1.7)
   \/ (name = "Equinox"%string /\ month = 9%Z
       /\ (24 * 60) * Rabs (tt (sep_equinox seasons) - tt correct_time) <= 1.7)
   \/ (name = "Solstice"%string /\ month = 6%Z
       /\ (24 * 60) * Rabs (tt (jun_solstice seasons) - tt correct_time) <= 1.7)
   \/ (name = "Solstice"%string /\ month = 12%Z
       /\ (24 * 60) * Rabs (tt (dec_solstice seasons) - tt correct_time) <= 1.7)
   \/ name = "Aphelion"%string
   \/ name = "Perihelion"%string)
  /\ next = 0%Z.
Proof.
  destruct (String.eqb name "Equinox") eqn:He.
  { apply String.eqb_eq in He. subst name.
    destruct (month =? 3)%Z eqn:H3; [apply Z.eqb_eq in H3 | apply Z.eqb_neq in H3].
    - rewrite verify_time_zero. split.
      + intros (H & Hn). split; [left; auto | exact Hn].
      + intros ([(_ & _ & H) | [(_ & Hm & _) | [(Hx & _) | [(Hx & _) | [Hx | Hx]]]]]
                & Hn); try discriminate; try lia. split; assumption.
    - destruct (month =? 9)%Z eqn:H9;
        [apply Z.eqb_eq in H9 | apply Z.eqb_neq in H9].
      + rewrite verify_time_zero. split.
        * intros (H & Hn). split; [right; left; auto | exact Hn].
        * intros ([(_ & Hm & _) | [(_ & _ & H) | [(Hx & _) | [(Hx & _) | [Hx | Hx]]]]]
                  & Hn); try discriminate; try lia. split; assumption.
      + split; [discriminate |].
        intros ([(_ & Hm & _) | [(_ & Hm & _) | [(Hx & _) | [(Hx & _) | [Hx | Hx]]]]]
                & Hn); try discriminate; lia. }
  apply String.eqb_neq in He.
  destruct (String.eqb name "Solstice") eqn:Hs.
  { apply String.eqb_eq in Hs. subst name.
    destruct (month =? 6)%Z eqn:H6; [apply Z.eqb_eq in H6 | apply Z.eqb_neq in H6].
    - rewrite verify_time_zero. split.
      + intros (H & Hn). split; [right; right; left; auto | exact Hn].
      + intros ([(Hx & _) | [(Hx & _) | [(_ & _ & H) | [(_ & Hm & _) | [Hx | Hx]]]]]
                & Hn); try discriminate; try lia. split; assumption.
    - destruct (month =? 12)%Z eqn:H12;
        [apply Z.eqb_eq in H12 | apply Z.eqb_neq in H12].
      + rewrite verify_time_zero. split.
        * intros (H & Hn). split; [right; right; right; left; auto | exact Hn].
        * intros ([(Hx & _) | [(Hx & _) | [(_ & Hm & _) | [(_ & _ & H) | [Hx | Hx]]]]]
                  & Hn); try discriminate; try lia. split; assumption.
      + split; [discriminate |].
        intros ([(Hx & _) | [(Hx & _) | [(_ & Hm & _) | [(_ & Hm & _) | [Hx | Hx]]]]]
                & Hn); try discriminate; lia. }
  apply String.eqb_neq in Hs.
  destruct (String.eqb name "Aphelion") eqn:Ha.
  { apply String.eqb_eq in Ha. subst name. split.
    - intros Hn. split; [right; right; right; right; left; reflexivity | exact Hn].
    - intros (_ & Hn). exact Hn. }
  apply String.eqb_neq in Ha.
  destruct (String.eqb name "Perihelion") eqn:Hp.
  { apply String.eqb_eq in Hp. subst name. split.
    - intros Hn. split; [right; right; right; right; right; reflexivity | exact Hn].
    - intros (_ & Hn). exact Hn. }
  apply String.eqb_neq in Hp.
  split; [discriminate |].
  intros ([(Hx & _) | [(Hx & _) | [(Hx & _) | [(Hx & _) | [Hx | Hx]]]]] & _);
    contradiction.
Qed.

(** From a state in which the next line brings a new year, or the seasons
    kept are those of the current year, the loop passes exactly when each
    line is confirmed by itself. *)
Lemma SeasonsTest_loop_zero (lines : list string) :
  forall (current_year : Z) (seasons : astro_seasons_t),
    match lines with
    | [] => True
    | line :: _ =>
        int_arg 0 (snd (sscanf line seasons_format)) <> current_year
        \/ (seasons = Astronomy_Seasons current_year
            /\ sea_status seasons = ASTRO_SUCCESS)
    end ->
    (SeasonsTest_loop lines current_year seasons = 0%Z
     <-> Forall line_confirmed lines).
Proof.
  induction lines as [| line rest IH]; intros current_year seasons Hpre.
  - split; [constructor | reflexivity].
  - unfold SeasonsTest_loop. cbn [SeasonsRun.SeasonsTest_loop].
    fold SeasonsTest_loop.
    rewrite Forall_cons_iff.
    unfold line_confirmed at 1, SeasonsRun.line_confirmed.
    destruct (sscanf line seasons_format) as [n vals] eqn:E.
    cbn [fst snd] in *.
    destruct (n =? 6)%Z eqn:Hn; cbn [negb];
      [apply Z.eqb_eq in Hn; subst n
      | apply Z.eqb_neq in Hn; split;
        [discriminate | intros ((H6 & _) & _); contradiction]].
    cbv zeta.
    set (year := int_arg 0 vals) in *.
    assert (Hnext :
               sea_status (Astronomy_Seasons year) = ASTRO_SUCCESS ->
               (SeasonsTest_loop rest year (Astronomy_Seasons year) = 0%Z
                <-> Forall line_confirmed rest)).
    { intros Hok. apply IH. destruct rest; [exact I |]. right.
      split; [reflexivity | exact Hok]. }
    destruct (year =? current_year)%Z eqn:Hy; cbn [negb andb].
    + apply Z.eqb_eq in Hy.
      destruct Hpre as [Hne | (Hs & Hok)]; [contradiction |].
      rewrite <- Hy in Hs. subst seasons. rewrite <- Hy.
      rewrite event_choice_zero, (Hnext Hok). tauto.
    + destruct (is_success (sea_status (Astronomy_Seasons year))) eqn:Hok;
        cbn [negb].
      * destruct (sea_status (Astronomy_Seasons year)) eqn:Hst;
          [| discriminate].
        rewrite event_choice_zero, (Hnext eq_refl). tauto.
      * split; [discriminate |]. intros ((_ & Hst & _) & _).
        rewrite Hst in Hok. discriminate.
Qed.

(** When the first line of the file does not carry the year 0, the year
    [current_year] starts from, [SeasonsTest] returns 0 exactly when every
    line is confirmed by itself: the seasons it keeps from line to line
    are always those of the year of the line at hand. *)
Theorem SeasonsTest_passes_iff_lines_confirmed
        (zeroed : astro_seasons_t) (file : string)
        (Hyear : forall line : string,
            hd_error (fgets_all 200 file) = Some line ->
            int_arg 0 (snd (sscanf line seasons_format)) <> 0%Z) :
  SeasonsTest Astronomy_MakeTime Astronomy_Seasons zeroed (Some file) = 0%Z
  <-> Forall line_confirmed (fgets_all 200 file).
Proof.
  unfold SeasonsTest. fold SeasonsTest_loop.
  apply SeasonsTest_loop_zero.
  destruct (fgets_all 200 file) as [| line rest]; [exact I |].
  left. apply Hyear. reflexivity.
Qed.

End SeasonsFacts.

Lemma SeasonsTest_passes_iff_lines_confirmed_witness :
  let make := fun (_ _ _ _ _ : Z) (_ : R) => TimeModel.mkTime 0 0 in
  let seasons := fun _ : Z =>
                   SeasonsRun.mkSeasons AstroCheckRun.ASTRO_SUCCESS
                     (TimeModel.mkTime 0 0) (TimeModel.mkTime 0 0)
                     (TimeModel.mkTime 0 0) (TimeModel.mkTime 0 0) in
  let file := ("2019-03-20T21:58Z Equinox" ++ CTest.newline)%string in
  SeasonsRun.SeasonsTest make seasons (seasons 0%Z) (Some file) = 0%Z
  <-> Forall (SeasonsRun.line_confirmed make seasons)
             (CLib.fgets_all 200 file).
Proof.
  intros make seasons file.
  apply SeasonsTest_passes_iff_lines_confirmed.
  intros line H. vm_compute in H. injection H as <-.
  vm_compute. intros C. discriminate C.
Defined.

(** ** [MoonPhase] *)

Section MoonPhaseFacts.

Import CLib CScan TimeModel AstroCheckRun MoonPhaseRun.

(** For an angle in [[0, 360)] and a quarter from 0 to 3, [degree_error]
    is the distance of the angle from [90 * quarter] around the circle:
    the least of the distances to the angles [90 * quarter + 360 * k]. *)
Lemma degree_error_circular (a : R) (quarter : Z) :
  0 <= a < 360 -> (0 <= quarter <= 3)%Z ->
  (exists k : Z,
      degree_error a (90 * IZR quarter)
      = Rabs (a - 90 * IZR quarter - 360 * IZR k))
  /\ forall k : Z,
      degree_error a (90 * IZR quarter)
      <= Rabs (a - 90 * IZR quarter - 360 * IZR k).
Proof.
  intros Ha (Hq0 & Hq3).
  apply IZR_le in Hq0, Hq3.
  set (e := 90 * IZR quarter) in *.
  assert (He : 0 <= e <= 270) by (unfold e; lra).
  unfold degree_error. cbv zeta.
  split.
  - destruct (Rlt_dec 180 (Rabs (a - e))) as [Hd | Hd].
    + destruct (Rle_dec 0 (a - e)) as [Hs | Hs].
      * exists 1%Z. revert Hd. unfold Rabs.
        repeat destruct (Rcase_abs _); lra.
      * exists (-1)%Z. revert Hd. unfold Rabs.
        repeat destruct (Rcase_abs _); lra.
    + exists 0%Z. f_equal. lra.
  - intros k.
    assert (Hk : IZR k <= -1 \/ IZR k = 0 \/ 1 <= IZR k).
    { destruct (Z_le_gt_dec k (-1)) as [H | H];
        [left; apply (IZR_le k (-1)); exact H |].
      destruct (Z.eq_dec k 0) as [-> | H0]; [right; left; reflexivity |].
      right; right. apply (IZR_le 1 k). lia. }
    destruct (Rlt_dec 180 (Rabs (a - e))) as [Hd | Hd];
      revert Hd; unfold Rabs; repeat destruct (Rcase_abs _);
      destruct Hk as [Hk | [Hk | Hk]]; lra.
Qed.

Variable Astronomy_MakeTime : Z -> Z -> Z -> Z -> Z -> R -> astro_time_t.
Variable Astronomy_MoonPhase : astro_time_t -> astro_angle_result_t.
Variable Astronomy_SearchMoonQuarter : astro_time_t -> astro_moon_quarter_t.
Variable Astronomy_NextMoonQuarter :
  astro_moon_quarter_t -> astro_moon_quarter_t.

Let MoonPhase_loop :=
  MoonPhase_loop Astronomy_MakeTime Astronomy_MoonPhase
                 Astronomy_SearchMoonQuarter Astronomy_NextMoonQuarter.
Let MoonPhase :=
  MoonPhase Astronomy_MakeTime Astronomy_MoonPhase
            Astronomy_SearchMoonQuarter Astronomy_NextMoonQuarter.

(** When the library keeps its phase angles in [[0, 360)], a file
    [MoonPhase] passes has, on each line, a quarter from 0 to 3 and a time
    at which the phase angle of the library is within one arc minute of
    [90 * quarter], measured around the circle. *)
Theorem MoonPhase_angles_within_arcminute
        (Hangle : forall time : astro_time_t,
            0 <= angle (Astronomy_MoonPhase time) < 360)
        (filled : astro_moon_quarter_t) (infile : option string) :
  MoonPhase filled infile = 0%Z ->
  exists file : string,
    infile = Some file
    /\ Forall
         (fun line =>
            let vals := snd (sscanf line moonphase_format) in
            let quarter := int_arg 0 vals in
            let expected_time :=
              Astronomy_MakeTime (int_arg 1 vals) (int_arg 2 vals)
                                 (int_arg 3 vals) (int_arg 4 vals)
                                 (int_arg 5 vals) (Q2R (double_arg 6 vals)) in
            fst (sscanf line moonphase_format) = 7%Z
            /\ (0 <= quarter <= 3)%Z
            /\ exists k : Z,
                60 * Rabs (angle (Astronomy_MoonPhase expected_time)
                           - 90 * IZR quarter - 360 * IZR k) <= 1)
         (fgets_all 200 file).
Proof.
  destruct infile as [file |]; [| discriminate].
  unfold MoonPhase, MoonPhaseRun.MoonPhase. fold MoonPhase_loop.
  intros Hrun. exists file. split; [reflexivity |].
  remember 0%Z as prev_year eqn:Hprev in Hrun at 1. clear Hprev.
  revert Hrun. generalize prev_year. generalize filled as mq.
  clear prev_year.
  induction (fgets_all 200 file) as [| line rest IH]; intros mq prev_year Hrun;
    [constructor |].
  unfold MoonPhase_loop in Hrun. cbn [MoonPhaseRun.MoonPhase_loop] in Hrun.
  fold MoonPhase_loop in Hrun.
  destruct (sscanf line moonphase_format) as [n vals] eqn:E.
  cbv beta iota zeta in Hrun.
  destruct (n =? 7)%Z eqn:Hn; cbn [negb] in Hrun; [| discriminate].
  apply Z.eqb_eq in Hn. subst n.
  destruct ((int_arg 0 vals <? 0)%Z || (3 <? int_arg 0 vals)%Z)%bool eqn:Hq;
    [discriminate |].
  apply orb_false_iff in Hq. destruct Hq as (Hq0 & Hq3).
  apply Z.ltb_ge in Hq0, Hq3.
  destruct (Rlt_dec 1 _) as [Ha | Ha] in Hrun; [discriminate |].
  constructor.
  - rewrite E. cbn [fst snd]. cbv zeta.
    split; [reflexivity |]. split; [lia |].
    match type of Ha with
    | ~ 1 < 60 * degree_error (angle (Astronomy_MoonPhase ?t)) _ =>
        destruct (degree_error_circular _ (int_arg 0 vals) (Hangle t)
                                        (conj Hq0 Hq3)) as ((k & Hk) & _)
    end.
    exists k. rewrite <- Hk. lra.
  - destruct (negb (is_success _)) in Hrun; [discriminate |].
    destruct (_ && _)%bool in Hrun; [discriminate |].
    destruct (Rlt_dec 120 _) in Hrun; [discriminate |].
    exact (IH _ _ Hrun).
Qed.

Let line_time := line_time Astronomy_MakeTime.
Let later_quarter := later_quarter Astronomy_NextMoonQuarter.

(** One passing iteration: what it has checked and the state it leaves. *)
Lemma MoonPhase_step (line : string) (rest : list string) (prev_year : Z)
      (mq : astro_moon_quarter_t) :
  MoonPhase_loop (line :: rest) prev_year mq = 0%Z ->
  let year := line_year line in
  let mq' :=
    if (year =? prev_year)%Z then Astronomy_NextMoonQuarter mq
    else Astronomy_SearchMoonQuarter (Astronomy_MakeTime year 1 1 0 0 0) in
  mq_status mq' = ASTRO_SUCCESS
  /\ Rabs (tt (mq_time mq') - tt (line_time line)) * (24 * 3600) <= 120
  /\ ((year =? prev_year)%Z = true ->
      Z.rem (1 + mq_quarter mq) 4 = (-1)%Z
      \/ mq_quarter mq' = Z.rem (1 + mq_quarter mq) 4)
  /\ MoonPhase_loop rest year mq' = 0%Z.
Proof.
  intros Hrun.
  unfold MoonPhase_loop in Hrun. cbn [MoonPhaseRun.MoonPhase_loop] in Hrun.
  fold MoonPhase_loop in Hrun.
  unfold line_year, line_time, MoonPhaseRun.line_time.
  destruct (sscanf line moonphase_format) as [n vals] eqn:E.
  cbn [fst snd]. cbv beta iota zeta in Hrun |- *.
  destruct (n =? 7)%Z; cbn [negb] in Hrun; [| discriminate].
  destruct (_ || _)%bool in Hrun; [discriminate |].
  destruct (Rlt_dec 1 _) in Hrun; [discriminate |].
  destruct (int_arg 1 vals =? prev_year)%Z eqn:Hy; cbn [negb] in Hrun.
  - destruct (is_success (mq_status (Astronomy_NextMoonQuarter mq))) eqn:Hok;
      cbn [negb] in Hrun; [| discriminate].
    apply is_success_true in Hok.
    assert (Hy' : int_arg 1 vals = prev_year) by (apply Z.eqb_eq; exact Hy).
    destruct (Z.rem (1 + mq_quarter mq) 4 =? -1)%Z eqn:H1; cbn [negb andb] in Hrun.
    + destruct (Rlt_dec 120 _) as [Hd | Hd] in Hrun; [discriminate |].
      apply Z.eqb_eq in H1. rewrite <- Hy' in Hrun.
      split; [exact Hok |]. split; [lra |].
      split; [intros _; left; exact H1 | exact Hrun].
    + destruct (Z.rem (1 + mq_quarter mq) 4
                =? mq_quarter (Astronomy_NextMoonQuarter mq))%Z eqn:H2;
        cbn [negb] in Hrun; [| discriminate].
      destruct (Rlt_dec 120 _) as [Hd | Hd] in Hrun; [discriminate |].
      apply Z.eqb_eq in H2. rewrite <- Hy' in Hrun.
      split; [exact Hok |]. split; [lra |].
      split; [intros _; right; symmetry; exact H2 | exact Hrun].
  - destruct (is_success _) eqn:Hok in Hrun; cbn [negb] in Hrun; [| discriminate].
    apply is_success_true in Hok.
    rewrite Z.eqb_refl in Hrun. cbn [negb andb] in Hrun.
    destruct (Rlt_dec 120 _) as [Hd | Hd] in Hrun; [discriminate |].
    split; [exact Hok |]. split; [lra |].
    split; [discriminate | exact Hrun].
Qed.

Lemma later_quarter_shift (n : nat) (mq : astro_moon_quarter_t) :
  later_quarter (S n) mq = later_quarter n (Astronomy_NextMoonQuarter mq).
Proof.
  induction n as [| n IH]; [reflexivity |].
  unfold later_quarter in *. cbn [MoonPhaseRun.later_quarter] in *.
  rewrite IH. reflexivity.
Qed.

(** After the lines [before], [prev_year] is the year of the last of
    them. *)
Lemma MoonPhase_loop_before (before ls : list string) :
  forall (prev_year : Z) (mq : astro_moon_quarter_t),
    MoonPhase_loop (before ++ ls) prev_year mq = 0%Z ->
    exists (prev_year' : Z) (mq' : astro_moon_quarter_t),
      MoonPhase_loop ls prev_year' mq' = 0%Z
      /\ (before = [] -> prev_year' = prev_year)
      /\ forall (b : list string) (l : string),
          before = (b ++ [l])%list -> prev_year' = line_year l.
Proof.
  induction before as [| x bs IH]; intros prev_year mq Hrun.
  - exists prev_year, mq. split; [exact Hrun |]. split; [reflexivity |].
    intros b l Hb. destruct b; discriminate.
  - cbn [app] in Hrun.
    destruct (MoonPhase_step _ _ _ _ Hrun) as (_ & _ & _ & Hrest).
    destruct (IH _ _ Hrest) as (py & mq' & H0 & Hnil & Hlast).
    exists py, mq'. split; [exact H0 |]. split; [discriminate |].
    intros b l Hb. destruct b as [| x' b'].
    + cbn [app] in Hb. injection Hb as -> Hbs. apply Hnil. exact Hbs.
    + cbn [app] in Hb. injection Hb as _ Hbs. apply (Hlast b' l Hbs).
Qed.

(** Through lines of the current year the quarter is advanced once a
    line. *)
Lemma MoonPhase_loop_run (year : Z) (run ls : list string) :
  Forall (fun l => line_year l = year) run ->
  forall mq : astro_moon_quarter_t,
    MoonPhase_loop (run ++ ls) year mq = 0%Z ->
    MoonPhase_loop ls year (later_quarter (List.length run) mq) = 0%Z.
Proof.
  induction 1 as [| r rs Hr _ IH]; intros mq Hrun; [exact Hrun |].
  cbn [app] in Hrun.
  destruct (MoonPhase_step _ _ _ _ Hrun) as (_ & _ & _ & Hrest).
  cbv zeta in Hrest. rewrite Hr, Z.eqb_refl in Hrest.
  cbn [List.length]. rewrite later_quarter_shift. apply IH. exact Hrest.
Qed.

(** In a file [MoonPhase] passes, take a line and the lines [run] before
    it back to where its year begins: the first line of the file, if its
    year is not 0, or the line after one of another year.  The time of
    that line is within 120 seconds of the quarter the library finds by
    searching from the start of the year and then asking as many times for
    the next quarter as [run] has lines; that quarter is found, and its
    number follows the number of the one before it. *)
Theorem MoonPhase_times_follow_quarters
        (filled : astro_moon_quarter_t) (file : string)
        (before run after : list string) (line : string) (year : Z)
        (Hrun : MoonPhase filled (Some file) = 0%Z)
        (Hsplit : fgets_all 200 file = (before ++ run ++ line :: after)%list)
        (Hyear : Forall (fun l => line_year l = year) (run ++ [line]))
        (Hstart : (before = [] /\ year <> 0%Z)
                  \/ exists (b : list string) (l : string),
                      before = (b ++ [l])%list /\ line_year l <> year) :
  let first :=
    Astronomy_SearchMoonQuarter (Astronomy_MakeTime year 1 1 0 0 0) in
  let mq := later_quarter (List.length run) first in
  mq_status mq = ASTRO_SUCCESS
  /\ Rabs (tt (mq_time mq) - tt (line_time line)) * (24 * 3600) <= 120
  /\ forall n : nat,
      List.length run = S n ->
      let prev := later_quarter n first in
      Z.rem (1 + mq_quarter prev) 4 = (-1)%Z
      \/ mq_quarter mq = Z.rem (1 + mq_quarter prev) 4.
Proof.
  unfold MoonPhase, MoonPhaseRun.MoonPhase in Hrun. fold MoonPhase_loop in Hrun.
  rewrite Hsplit in Hrun.
  destruct (MoonPhase_loop_before _ _ _ _ Hrun)
    as (py & mq0 & H0 & Hnil & Hlast).
  assert (Hpy : py <> year).
  { destruct Hstart as [(-> & Hy) | (b & l & Hb & Hy)].
    - rewrite (Hnil eq_refl). congruence.
    - rewrite (Hlast b l Hb). exact Hy. }
  apply Forall_app in Hyear. destruct Hyear as (Hyrun & Hyline).
  inversion Hyline as [| ? ? Hl _]; subst.
  cbv zeta.
  destruct run as [| r run'].
  - cbn [app] in H0.
    destruct (MoonPhase_step _ _ _ _ H0) as (Hok & Hd & _ & _).
    cbv zeta in Hok, Hd.
    destruct (line_year line =? py)%Z eqn:E;
      [apply Z.eqb_eq in E; congruence |].
    split; [exact Hok |]. split; [exact Hd |].
    intros n Hn. discriminate.
  - inversion Hyrun as [| ? ? Hr Hrun']; subst.
    cbn [app] in H0.
    destruct (MoonPhase_step _ _ _ _ H0) as (_ & _ & _ & H1).
    cbv zeta in H1.
    destruct (line_year r =? py)%Z eqn:E;
      [apply Z.eqb_eq in E; congruence |].
    rewrite Hr in H1.
    apply (MoonPhase_loop_run _ _ _ Hrun') in H1.
    destruct (MoonPhase_step _ _ _ _ H1) as (Hok & Hd & Hq & _).
    cbv zeta in Hok, Hd, Hq. rewrite Z.eqb_refl in Hok, Hd, Hq.
    cbn [List.length]. unfold later_quarter at 1 2 3.
    cbn [MoonPhaseRun.later_quarter]. fold later_quarter.
    split; [exact Hok |]. split; [exact Hd |].
    intros n Hn. injection Hn as <-. apply Hq. reflexivity.
Qed.

End MoonPhaseFacts.

(** The sample file passes on the sample library. *)
Lemma MoonPhase_sample_passes (filled : MoonPhaseRun.astro_moon_quarter_t) :
  MoonPhaseRun.MoonPhase
    MoonPhaseRun.sample_MakeTime MoonPhaseRun.sample_MoonPhase
    MoonPhaseRun.sample_SearchMoonQuarter MoonPhaseRun.sample_NextMoonQuarter
    filled (Some MoonPhaseRun.sample_file) = 0%Z.
Proof.
  unfold MoonPhaseRun.MoonPhase.
  replace (CLib.fgets_all 200 MoonPhaseRun.sample_file)
    with [MoonPhaseRun.sample_line1; MoonPhaseRun.sample_line2]
    by (vm_compute; reflexivity).
  cbn [MoonPhaseRun.MoonPhase_loop].
  destruct (CScan.sscanf MoonPhaseRun.sample_line1 MoonPhaseRun.moonphase_format)
    as [n1 vals1] eqn:E1.
  vm_compute in E1. injection E1 as <- <-.
  destruct (CScan.sscanf MoonPhaseRun.sample_line2 MoonPhaseRun.moonphase_format)
    as [n2 vals2] eqn:E2.
  vm_compute in E2. injection E2 as <- <-.
  cbv beta iota zeta.
  cbn [CScan.int_arg nth_error Z.eqb Z.ltb Z.compare negb orb andb Pos.eqb
       Pos.compare Pos.compare_cont].
  unfold MoonPhaseRun.sample_MoonPhase, MoonPhaseRun.sample_MakeTime,
    MoonPhaseRun.sample_SearchMoonQuarter, MoonPhaseRun.sample_NextMoonQuarter.
  cbn [MoonPhaseRun.angle MoonPhaseRun.mq_status MoonPhaseRun.mq_time
       MoonPhaseRun.mq_quarter TimeModel.tt AstroCheckRun.is_success negb].
  assert (Hd : MoonPhaseRun.degree_error 0 (90 * 0) = 0).
  { unfold MoonPhaseRun.degree_error. replace (0 - 90 * 0) with 0 by ring.
    rewrite Rabs_R0. destruct (Rlt_dec 180 0); [lra | reflexivity]. }
  rewrite Hd. replace (0 - 0) with 0 by ring. rewrite Rabs_R0.
  repeat match goal with
         | |- context [Rlt_dec ?a ?b] =>
             destruct (Rlt_dec a b) as [C | _]; [exfalso; lra |]
         end.
  reflexivity.
Qed.

Lemma MoonPhase_angles_within_arcminute_witness :
  Forall
    (fun line =>
       exists k : Z,
         60 * Rabs (MoonPhaseRun.angle
                      (MoonPhaseRun.sample_MoonPhase
                         (MoonPhaseRun.line_time
                            MoonPhaseRun.sample_MakeTime line))
                    - 90 * IZR (CScan.int_arg
                                  0 (snd (CScan.sscanf
                                            line
                                            MoonPhaseRun.moonphase_format)))
                    - 360 * IZR k) <= 1)
    (CLib.fgets_all 200 MoonPhaseRun.sample_file).
Proof.
  assert (Hangle : forall time : TimeModel.astro_time_t,
             0 <= MoonPhaseRun.angle (MoonPhaseRun.sample_MoonPhase time) < 360)
    by (intros time; simpl; lra).
  destruct (MoonPhase_angles_within_arcminute
              MoonPhaseRun.sample_MakeTime MoonPhaseRun.sample_MoonPhase
              MoonPhaseRun.sample_SearchMoonQuarter
              MoonPhaseRun.sample_NextMoonQuarter Hangle
              (MoonPhaseRun.sample_SearchMoonQuarter (TimeModel.mkTime 0 0))
              (Some MoonPhaseRun.sample_file)
              (MoonPhase_sample_passes _))
    as (file & Efile & Hall).
  injection Efile as <-.
  eapply Forall_impl; [| exact Hall].
  intros line (_ & _ & Hk). exact Hk.
Defined.

Lemma MoonPhase_times_follow_quarters_witness :
  let first :=
    MoonPhaseRun.sample_SearchMoonQuarter
      (MoonPhaseRun.sample_MakeTime 1800 1 1 0 0 0) in
  let mq := MoonPhaseRun.sample_NextMoonQuarter first in
  MoonPhaseRun.mq_status mq = AstroCheckRun.ASTRO_SUCCESS
  /\ Rabs (TimeModel.tt (MoonPhaseRun.mq_time mq)
           - TimeModel.tt (MoonPhaseRun.line_time
                             MoonPhaseRun.sample_MakeTime
                             MoonPhaseRun.sample_line2))
     * (24 * 3600) <= 120.
Proof.
  intros first mq.
  assert (Hsplit : CLib.fgets_all 200 MoonPhaseRun.sample_file
                   = ([] ++ [MoonPhaseRun.sample_line1]
                         ++ MoonPhaseRun.sample_line2 :: [])%list)
    by (vm_compute; reflexivity).
  assert (Hyear : Forall (fun l => MoonPhaseRun.line_year l = 1800%Z)
                         ([MoonPhaseRun.sample_line1]
                            ++ [MoonPhaseRun.sample_line2])).
  { repeat constructor; vm_compute; reflexivity. }
  assert (Hstart : (@nil string = [] /\ 1800%Z <> 0%Z)
                   \/ exists (b : list string) (l : string),
                       [] = (b ++ [l])%list
                       /\ MoonPhaseRun.line_year l <> 1800%Z)
    by (left; split; [reflexivity | lia]).
  destruct (MoonPhase_times_follow_quarters
              MoonPhaseRun.sample_MakeTime MoonPhaseRun.sample_MoonPhase
              MoonPhaseRun.sample_SearchMoonQuarter
              MoonPhaseRun.sample_NextMoonQuarter
              (MoonPhaseRun.sample_SearchMoonQuarter (TimeModel.mkTime 0 0))
              MoonPhaseRun.sample_file [] [MoonPhaseRun.sample_line1] []
              MoonPhaseRun.sample_line2 1800%Z
              (MoonPhase_sample_passes _) Hsplit Hyear Hstart)
    as (Hok & Hd & _).
  split; [exact Hok | exact Hd].
Defined.

(** ** [AstroCheck]: the complete run *)

Section AstroCheckComplete.

Import TimeModel AstroCheckRun.

Variable DeltaT : R -> R.
Variable Astronomy_MakeObserver : R -> R -> R -> astro_observer_t.
Variable Astronomy_HelioVector : astro_body_t -> astro_time_t -> astro_vector_t.
Variable Astronomy_GeoVector :
  astro_body_t -> astro_time_t -> Z -> astro_vector_t.
Variable Astronomy_Equator :
  astro_body_t -> astro_time_t -> astro_observer_t -> Z -> Z ->
  astro_equatorial_t.
Variable Astronomy_Horizon :
  astro_time_t -> astro_observer_t -> R -> R -> astro_refraction_t ->
  astro_horizon_t.

Hypothesis Hmono : tt_monotonic DeltaT.

Let start := Astronomy_MakeTime DeltaT 1700 1 1 0 0 0.
Let stop := Astronomy_MakeTime DeltaT 2200 1 1 0 0 0.
Let step := 10 + AstroCheckRun.PI / 100.
Let sky := sky_line Astronomy_Equator Astronomy_Horizon.
Let bodies := AstroCheck_bodies Astronomy_HelioVector Astronomy_Equator
                                Astronomy_Horizon.
Let sample := AstroCheck_sample Astronomy_HelioVector Astronomy_GeoVector
                                Astronomy_Equator Astronomy_Horizon.
Let loop := AstroCheck_loop DeltaT Astronomy_HelioVector Astronomy_GeoVector
                            Astronomy_Equator Astronomy_Horizon.

(** Before round [round_count] the time is before the stop time. *)
Lemma before_stop (k : nat) :
  (k < round_count)%nat -> tt (sample_time DeltaT k) < tt stop.
Proof.
  intros Hk.
  rewrite (sample_time_ok DeltaT k). unfold stop. rewrite tt_stop.
  apply Hmono. rewrite sample_time_ut, ut_start, ut_stop.
  assert (HINR : INR k <= 18204).
  { assert (H : INR (S k) <= INR round_count) by (apply le_INR; lia).
    rewrite S_INR, INR_round_count in H. lra. }
  assert (Hstep : 0 < 10 + AstroCheckRun.PI / 100 < 10.0315)
    by (unfold AstroCheckRun.PI; lra).
  assert (Hprod : INR k * (10 + AstroCheckRun.PI / 100)
                  <= 18204 * (10 + AstroCheckRun.PI / 100))
    by (apply Rmult_le_compat_r; lra).
  lra.
Qed.

(** A run that ends with [error = 0] has made every round. *)
Lemma loop_exact (observer : astro_observer_t) (n : nat) :
  forall (fuel k : nat) (error e : Z)
         (blocks : list (astro_time_t * list line)),
    (k + n = round_count)%nat ->
    loop fuel (sample_time DeltaT k) stop observer error = Some (e, blocks) ->
    e = 0%Z -> List.length blocks = n.
Proof.
  induction n as [| n IH]; intros fuel k error e blocks Hk Hloop He;
    (destruct fuel as [| fuel]; [discriminate |]);
    unfold loop, stop in Hloop; rewrite loop_S in Hloop.
  - destruct (Rlt_dec _ _) as [Hlt | _] in Hloop.
    + exfalso. apply (not_before_stop DeltaT Hmono k); [| exact Hlt].
      replace k with round_count by lia.
      rewrite sample_time_ut. apply round_count_reaches_stop.
    + injection Hloop as _ <-. reflexivity.
  - destruct (Rlt_dec _ _) as [_ | Hge] in Hloop;
      [| exfalso; apply Hge; apply before_stop; lia].
    pose proof (sample_kinds Astronomy_HelioVector Astronomy_GeoVector
                             Astronomy_Equator Astronomy_Horizon
                             (sample_time DeltaT k) observer error) as Hs.
    destruct (AstroCheck_sample _ _ _ _ _ _ _) as [ls [e1 | e1]].
    + change (Astronomy_AddDays DeltaT (sample_time DeltaT k)
                                (10 + AstroCheckRun.PI / 100))
        with (sample_time DeltaT (S k)) in Hloop.
      destruct (AstroCheck_loop _ _ _ _ _ fuel _ _ _ _)
        as [[e' blocks'] |] eqn:Hrest in Hloop; [| discriminate].
      injection Hloop as <- <-. cbn [List.length]. f_equal.
      apply (IH fuel (S k) e1 e' blocks'); [lia | exact Hrest | exact He].
    + injection Hloop as <- _. destruct Hs as (_ & Hs). lia.
Qed.

Lemma flat_map_length_rounds (blocks : list (astro_time_t * list line)) :
  Forall (fun b => map line_kind (snd b) = round_kinds) blocks ->
  List.length (flat_map snd blocks) = (21 * List.length blocks)%nat.
Proof.
  induction 1 as [| b bs Hb _ IH]; [reflexivity |].
  cbn [flat_map List.length]. rewrite length_app, IH.
  assert (Hlen : List.length (snd b) = 21%nat).
  { rewrite <- (length_map line_kind), Hb. reflexivity. }
  lia.
Qed.

Section Success.

(** The position functions succeed in the window of the models. *)
Hypothesis Hhelio :
  forall (body : astro_body_t) (time : astro_time_t),
    in_model_window DeltaT time ->
    vec_status (Astronomy_HelioVector body time) = ASTRO_SUCCESS.
Hypothesis Hgeo :
  forall (body : astro_body_t) (time : astro_time_t),
    in_model_window DeltaT time ->
    vec_status (Astronomy_GeoVector body time 0) = ASTRO_SUCCESS.
Hypothesis Hequ :
  forall (body : astro_body_t) (time : astro_time_t)
         (observer : astro_observer_t) (equdate aberration : Z),
    in_model_window DeltaT time ->
    equ_status (Astronomy_Equator body time observer equdate aberration)
    = ASTRO_SUCCESS.

Lemma sky_success (name : string) (body : astro_body_t) (time : astro_time_t)
      (observer : astro_observer_t) :
  in_model_window DeltaT time ->
  exists ls : list line, sky name body time observer = (ls, Next 0%Z).
Proof.
  intros Hw. unfold sky, sky_line, CheckEquator.
  rewrite !Hequ by exact Hw. cbn [is_success Z.eqb negb].
  eexists. reflexivity.
Qed.

Lemma bodies_success (time : astro_time_t) (observer : astro_observer_t) :
  in_model_window DeltaT time ->
  forall (bs : list astro_body_t) (error : Z),
  exists (ls : list line) (e : Z),
    bodies bs time observer error = (ls, Next e).
Proof.
  intros Hw. induction bs as [| body rest IH]; intros error.
  - exists [], error. reflexivity.
  - unfold bodies. rewrite bodies_cons. fold bodies sky.
    unfold CheckVector. rewrite Hhelio by exact Hw.
    cbn [is_success Z.eqb negb]. cbv zeta.
    destruct (is_earth body); cbn [negb].
    + destruct (IH 0%Z) as (more & e & ->). eexists. eexists. reflexivity.
    + destruct (sky_success (Astronomy_BodyName body) body time observer Hw)
        as (ls & ->).
      destruct (IH 0%Z) as (more & e & ->). eexists. eexists. reflexivity.
Qed.

Lemma sample_success (time : astro_time_t) (observer : astro_observer_t)
      (error : Z) :
  in_model_window DeltaT time ->
  exists ls : list line, sample time observer error = (ls, Next 0%Z).
Proof.
  intros Hw. unfold sample, AstroCheck_sample. fold bodies sky.
  destruct (bodies_success time observer Hw bodylist error) as (ls & e & ->).
  unfold CheckVector. rewrite Hgeo by exact Hw.
  cbn [is_success Z.eqb negb]. cbv zeta.
  destruct (sky_success "GM" BODY_MOON time observer Hw) as (l & ->).
  eexists. reflexivity.
Qed.

Lemma loop_success (observer : astro_observer_t) (n : nat) :
  forall (fuel k : nat) (error : Z),
    (k + n = round_count)%nat -> (n < fuel)%nat ->
    exists blocks : list (astro_time_t * list line),
      loop fuel (sample_time DeltaT k) stop observer error
      = Some (match n with O => error | S _ => 0%Z end, blocks).
Proof.
  induction n as [| n IH]; intros fuel k error Hk Hfuel;
    (destruct fuel as [| fuel]; [lia |]);
    unfold loop, stop; rewrite loop_S.
  - destruct (Rlt_dec _ _) as [Hlt | _].
    + exfalso. apply (not_before_stop DeltaT Hmono k); [| exact Hlt].
      replace k with round_count by lia.
      rewrite sample_time_ut. apply round_count_reaches_stop.
    + exists []. reflexivity.
  - destruct (Rlt_dec _ _) as [Hlt | Hge];
      [| exfalso; apply Hge; apply before_stop; lia].
    destruct (sample_success (sample_time DeltaT k) observer error
                             (sample_time_in_window DeltaT Hmono k Hlt))
      as (ls & Hs).
    unfold sample in Hs. rewrite Hs.
    change (Astronomy_AddDays DeltaT (sample_time DeltaT k)
                              (10 + AstroCheckRun.PI / 100))
      with (sample_time DeltaT (S k)).
    destruct (IH fuel (S k) 0%Z ltac:(lia) ltac:(lia)) as (blocks & Hrest).
    unfold loop, stop in Hrest. rewrite Hrest.
    eexists. destruct n; reflexivity.
Qed.

End Success.

(** With [tt] increasing in [ut] and enough fuel for the 18205 rounds from
    1700-01-01 to 2200-01-01: a run of [AstroCheck] that returns 0 has
    made all 18205 rounds and written 1 + 21 * 18205 = 382306 lines; and
    when the position functions succeed in the window of the models, the
    run does return 0. *)
Theorem AstroCheck_complete_run (fuel : nat) (Hfuel : (round_count < fuel)%nat) :
  (forall lines : list line,
      AstroCheck DeltaT Astronomy_MakeObserver Astronomy_HelioVector
                 Astronomy_GeoVector Astronomy_Equator Astronomy_Horizon
                 true fuel = Some (0%Z, lines) ->
      Z.of_nat (List.length lines) = 382306%Z)
  /\ ((forall (body : astro_body_t) (time : astro_time_t),
          in_model_window DeltaT time ->
          vec_status (Astronomy_HelioVector body time) = ASTRO_SUCCESS
          /\ vec_status (Astronomy_GeoVector body time 0) = ASTRO_SUCCESS
          /\ forall (observer : astro_observer_t) (equdate aberration : Z),
              equ_status (Astronomy_Equator body time observer
                                            equdate aberration)
              = ASTRO_SUCCESS) ->
      exists lines : list line,
        AstroCheck DeltaT Astronomy_MakeObserver Astronomy_HelioVector
                   Astronomy_GeoVector Astronomy_Equator Astronomy_Horizon
                   true fuel = Some (0%Z, lines)).
Proof.
  split.
  - intros lines Hrun. unfold AstroCheck, AstroCheck_rounds in Hrun.
    fold loop start stop in Hrun.
    destruct (loop fuel start stop _ 1%Z) as [[e blocks] |] eqn:Hloop;
      [| discriminate].
    injection Hrun as -> <-.
    change start with (sample_time DeltaT 0) in Hloop.
    pose proof (loop_exact _ round_count fuel 0%nat 1%Z 0%Z blocks
                           eq_refl Hloop eq_refl) as Hlen.
    unfold loop, stop in Hloop.
    destruct (loop_kinds DeltaT _ _ _ _ _ _ _ _ _ _ Hloop)
      as (_ & _ & Hall & _).
    cbn [List.length].
    rewrite (flat_map_length_rounds blocks (Hall eq_refl)), Hlen.
    unfold round_count.
    rewrite Nat2Z.inj_succ, Nat2Z.inj_mul, Z2Nat.id by lia. reflexivity.
  - intros Hok.
    destruct (loop_success
                (fun body time Hw => proj1 (Hok body time Hw))
                (fun body time Hw => proj1 (proj2 (Hok body time Hw)))
                (fun body time observer d a Hw =>
                   proj2 (proj2 (Hok body time Hw)) observer d a)
                (Astronomy_MakeObserver 29 (-81) 10)
                round_count fuel 0%nat 1%Z eq_refl Hfuel)
      as (blocks & Hloop).
    unfold AstroCheck, AstroCheck_rounds. fold loop start stop.
    change start with (sample_time DeltaT 0).
    rewrite Hloop.
    assert (Hpos : exists m : nat, round_count = S m).
    { exists (Nat.pred round_count).
      assert (0 < round_count)%nat; [| lia].
      unfold round_count. apply Nat2Z.inj_lt. rewrite Z2Nat.id; lia. }
    destruct Hpos as (m & ->).
    eexists. reflexivity.
Qed.

End AstroCheckComplete.

Lemma AstroCheck_complete_run_witness :
  let DeltaT := fun _ : R => 69 in
  let helio := fun (_ : AstroCheckRun.astro_body_t)
                   (t : TimeModel.astro_time_t) =>
                 AstroCheckRun.mkVector AstroCheckRun.ASTRO_SUCCESS 1 0 0 t in
  let geo := fun (_ : AstroCheckRun.astro_body_t)
                 (t : TimeModel.astro_time_t) (_ : Z) =>
               AstroCheckRun.mkVector AstroCheckRun.ASTRO_SUCCESS 1 0 0 t in
  let equator := fun (_ : AstroCheckRun.astro_body_t)
                     (_ : TimeModel.astro_time_t)
                     (_ : AstroCheckRun.astro_observer_t) (_ _ : Z) =>
                   AstroCheckRun.mkEquatorial AstroCheckRun.ASTRO_SUCCESS
                                              0 0 1 in
  let horizon := fun (_ : TimeModel.astro_time_t)
                     (_ : AstroCheckRun.astro_observer_t) (_ _ : R)
                     (_ : AstroCheckRun.astro_refraction_t) =>
                   AstroCheckRun.mkHorizon 0 0 0 0 in
  exists lines : list AstroCheckRun.line,
    AstroCheckRun.AstroCheck
      DeltaT AstroCheckRun.mkObserver helio geo equator horizon
      true (S AstroCheckRun.round_count)
    = Some (0%Z, lines)
    /\ Z.of_nat (List.length lines) = 382306%Z.
Proof.
  intros DeltaT helio geo equator horizon.
  assert (Hmono : TimeModel.tt_monotonic DeltaT).
  { intros u1 u2 H. unfold TimeModel.TerrestrialTime, DeltaT. lra. }
  destruct (AstroCheck_complete_run
              DeltaT AstroCheckRun.mkObserver helio geo equator horizon
              Hmono (S AstroCheckRun.round_count)
              (Nat.lt_succ_diag_r AstroCheckRun.round_count))
    as (Hlen & Hrun).
  destruct Hrun as (lines & Hlines).
  { intros body time _. split; [reflexivity |].
    split; [reflexivity | intros; reflexivity]. }
  exists lines. split; [exact Hlines | exact (Hlen lines Hlines)].
Defined.

(** ** [TestPlanetLongitudes] *)

Section PlanetLongitudesFacts.

Import TimeModel AstroCheckRun PlanetLongitudes.

Variable Astronomy_MakeTime : Z -> Z -> Z -> Z -> Z -> R -> astro_time_t.
Variable Astronomy_SearchRelativeLongitude :
  astro_body_t -> R -> astro_time_t -> astro_search_result_t.
Variable Astronomy_GeoVector :
  astro_body_t -> astro_time_t -> Z -> astro_vector_t.
Variable Astronomy_VectorLength : astro_vector_t -> R.

Let loop :=
  TestPlanetLongitudes_loop Astronomy_SearchRelativeLongitude
                            Astronomy_GeoVector Astronomy_VectorLength.

Lemma planet_loop_S (fuel : nat) (body : astro_body_t)
      (name zeroLonEventName : string) (stopTime time : astro_time_t)
      (rlon : R) (t : tally) :
  loop (S fuel) body name zeroLonEventName stopTime time rlon t =
  if Rlt_dec (tt time) (tt stopTime) then
    let search_result := Astronomy_SearchRelativeLongitude body rlon time in
    if negb (is_success (sr_status search_result)) then
      Some (true,
            mkTally (count t + 1) (min_diff t) (max_diff t) (sum_diff t), [])
    else
      let t1 := record_interval t (count t + 1)
                                (tt (sr_time search_result) - tt time) in
      let geo := Astronomy_GeoVector body (sr_time search_result) 0 in
      if negb (is_success (vec_status geo)) then Some (true, t1, [])
      else
        match loop fuel body name zeroLonEventName stopTime
                   (sr_time search_result) (180 - rlon) t1 with
        | Some (failed, t', lines) =>
            Some (failed, t',
                  mkEvent name
                          (if Req_dec_T rlon 0 then zeroLonEventName
                           else "sup"%string)
                          (tt (sr_time search_result))
                          (Astronomy_VectorLength geo) :: lines)
        | None => None
        end
  else Some (false, t, []).
Proof. reflexivity. Qed.

(** Every line carries the name, and the events alternate. *)
Lemma planet_loop_events (body : astro_body_t) (name zeroLonEventName : string)
      (stopTime : astro_time_t) (fuel : nat) :
  forall (time : astro_time_t) (zero : bool) (t : tally) (failed : bool)
         (t' : tally) (lines : list e_line),
    loop fuel body name zeroLonEventName stopTime time
         (if zero then 0 else 180) t = Some (failed, t', lines) ->
    forall (i : nat) (line : e_line),
      nth_error lines i = Some line ->
      e_name line = name
      /\ e_event line = if Bool.eqb (Nat.even i) zero then zeroLonEventName
                        else "sup"%string.
Proof.
  induction fuel as [| fuel IH]; intros time zero t failed t' lines Hloop;
    [discriminate |].
  rewrite planet_loop_S in Hloop. cbv zeta in Hloop.
  destruct (Rlt_dec _ _) in Hloop;
    [| injection Hloop as _ _ <-; intros [| i] line H; discriminate].
  destruct (negb (is_success (sr_status _))) in Hloop;
    [injection Hloop as _ _ <-; intros [| i] line H; discriminate |].
  destruct (negb (is_success (vec_status _))) in Hloop;
    [injection Hloop as _ _ <-; intros [| i] line H; discriminate |].
  replace (180 - (if zero then 0 else 180))
    with (if negb zero then 0 else 180) in Hloop
    by (destruct zero; simpl; lra).
  destruct (loop fuel _ _ _ _ _ _ _) as [[[f1 t1] lines1] |] eqn:Hrest in Hloop;
    [| discriminate].
  injection Hloop as _ _ <-.
  intros [| i] line H.
  - cbn [nth_error] in H. injection H as <-. cbn [e_name e_event].
    split; [reflexivity |].
    destruct zero; cbn [Nat.even Bool.eqb].
    + destruct (Req_dec_T 0 0); [reflexivity | lra].
    + destruct (Req_dec_T 180 0); [lra | reflexivity].
  - cbn [nth_error] in H.
    destruct (IH _ _ _ _ _ _ Hrest i line H) as (Hn & He).
    split; [exact Hn |]. rewrite He.
    rewrite Nat.even_succ, <- Nat.negb_even.
    destruct (Nat.even i), zero; reflexivity.
Qed.

(** From the second event on, [min_diff] and [max_diff] bound the gaps
    between the events so far, and [min_diff] is one of them. *)
Lemma planet_loop_tally (body : astro_body_t) (name zeroLonEventName : string)
      (stopTime : astro_time_t) (fuel : nat) :
  forall (time : astro_time_t) (rlon : R) (t t' : tally)
         (lines : list e_line) (G : list R),
    loop fuel body name zeroLonEventName stopTime time rlon t
    = Some (false, t', lines) ->
    count t = Z.of_nat (S (List.length G)) ->
    (G <> [] ->
     (forall g : R, In g G -> min_diff t <= g <= max_diff t)
     /\ In (min_diff t) G) ->
    let G' := (G ++ gaps_from (tt time) (map e_tt lines))%list in
    G' <> [] ->
    (forall g : R, In g G' -> min_diff t' <= g <= max_diff t')
    /\ In (min_diff t') G'.
Proof.
  induction fuel as [| fuel IH]; intros time rlon t t' lines G Hloop Hc HG;
    [discriminate |].
  rewrite planet_loop_S in Hloop. cbv zeta in Hloop.
  destruct (Rlt_dec _ _) in Hloop.
  2: { injection Hloop as <- <-. cbn [map gaps_from]. rewrite app_nil_r.
       exact HG. }
  destruct (negb (is_success (sr_status _))) in Hloop; [discriminate |].
  destruct (negb (is_success (vec_status _))) in Hloop; [discriminate |].
  set (result := Astronomy_SearchRelativeLongitude body rlon time) in *.
  set (d := tt (sr_time result) - tt time) in *.
  destruct (loop fuel _ _ _ _ _ _ _) as [[[f1 t1] lines1] |] eqn:Hrest in Hloop;
    [| discriminate].
  injection Hloop as -> -> <-.
  cbn [map gaps_from e_tt]. fold d.
  replace (G ++ d :: gaps_from (tt (sr_time result)) (map e_tt lines1))%list
    with ((G ++ [d]) ++ gaps_from (tt (sr_time result)) (map e_tt lines1))%list
    by (rewrite <- app_assoc; reflexivity).
  apply (IH _ _ _ _ _ (G ++ [d])%list Hrest).
  - unfold record_interval. rewrite Hc.
    destruct (2 <=? _)%Z eqn:H2; [| apply Z.leb_gt in H2; lia].
    rewrite length_app. cbn [List.length].
    destruct (_ =? 2)%Z; cbn [count]; lia.
  - intros _. unfold record_interval. rewrite Hc.
    destruct (2 <=? _)%Z eqn:H2; [| apply Z.leb_gt in H2; lia].
    destruct (_ =? 2)%Z eqn:E2.
    + apply Z.eqb_eq in E2.
      assert (G = []) by (destruct G; [reflexivity | cbn [List.length] in E2; lia]).
      subst G. cbn [min_diff max_diff app]. split.
      * intros g [<- | []]. lra.
      * left. reflexivity.
    + apply Z.eqb_neq in E2.
      assert (HGne : G <> []) by (intros ->; cbn [List.length] in E2; lia).
      destruct (HG HGne) as (Hb & Hin). cbn [min_diff max_diff]. split.
      * intros g Hg. apply in_app_or in Hg.
        destruct Hg as [Hg | [<- | []]].
        -- specialize (Hb g Hg).
           destruct (Rlt_dec d (min_diff t)), (Rlt_dec (max_diff t) d); lra.
        -- specialize (Hb _ Hin).
           destruct (Rlt_dec d (min_diff t)), (Rlt_dec (max_diff t) d); lra.
      * apply in_or_app.
        destruct (Rlt_dec d (min_diff t));
          [right; left; reflexivity | left; exact Hin].
Qed.

Lemma thresh_pos (body : astro_body_t) : 1 < thresh body.
Proof. destruct body; unfold thresh; lra. Qed.

(** In the file a passing run has written, every line carries the name of
    the body, the events alternate between [zeroLonEventName] and ["sup"],
    beginning with the first, and, when the times of the events increase,
    no gap between two consecutive events is longer than [thresh] times
    any other: 1.65 for Mercury, 1.30 for Mars, 1.07 for the others. *)
Theorem TestPlanetLongitudes_passed_file
        (body : astro_body_t) (zeroLonEventName : string) (fuel : nat)
        (lines : list e_line)
        (Hrun : TestPlanetLongitudes
                  Astronomy_MakeTime Astronomy_SearchRelativeLongitude
                  Astronomy_GeoVector Astronomy_VectorLength
                  body true zeroLonEventName fuel = Some (0%Z, lines)) :
  (forall (i : nat) (line : e_line),
      nth_error lines i = Some line ->
      e_name line = Astronomy_BodyName body
      /\ e_name line <> EmptyString
      /\ e_event line = if Nat.even i then zeroLonEventName
                        else "sup"%string)
  /\ (Forall (fun g => 0 < g) (gaps (map e_tt lines)) ->
      forall g g' : R,
        In g (gaps (map e_tt lines)) -> In g' (gaps (map e_tt lines)) ->
        g <= thresh body * g').
Proof.
  unfold TestPlanetLongitudes in Hrun. fold loop in Hrun. cbv zeta in Hrun.
  destruct (Astronomy_BodyName body) as [| c name'] eqn:Hname;
    [discriminate |].
  cbn [negb] in Hrun.
  destruct (loop fuel _ _ _ _ _ _ _) as [[[failed t] lines0] |] eqn:Hloop
    in Hrun; [| discriminate].
  destruct failed; [discriminate |].
  destruct (ratio_exceeds _ _ _) eqn:Hratio in Hrun; [discriminate |].
  injection Hrun as <-.
  split.
  - intros i line Hi.
    destruct (planet_loop_events _ _ _ _ fuel _ true _ _ _ _ Hloop i line Hi)
      as (Hn & He).
    rewrite Hn. split; [reflexivity |]. split; [discriminate |].
    rewrite He. destruct (Nat.even i); reflexivity.
  - intros Hpos g g' Hg Hg'.
    destruct fuel as [| fuel]; [discriminate |].
    rewrite planet_loop_S in Hloop. cbv zeta in Hloop.
    destruct (Rlt_dec _ _) in Hloop;
      [| injection Hloop as _ <-; destruct Hg].
    destruct (negb (is_success (sr_status _))) in Hloop; [discriminate |].
    destruct (negb (is_success (vec_status _))) in Hloop; [discriminate |].
    destruct (loop fuel _ _ _ _ _ _ _)
      as [[[f1 t1] lines1] |] eqn:Hrest in Hloop; [| discriminate].
    injection Hloop as -> -> <-.
    cbn [map gaps e_tt] in *.
    assert (Hne : gaps_from
                    (tt (sr_time (Astronomy_SearchRelativeLongitude
                                    body 0 (Astronomy_MakeTime 1700 1 1 0 0 0))))
                    (map e_tt lines1) <> []) by (intros E; rewrite E in Hg; destruct Hg).
    destruct (planet_loop_tally _ _ _ _ fuel _ _ _ _ _ [] Hrest)
      as (Hb & Hin); [reflexivity | intros C; contradiction | exact Hne |].
    cbn [app] in Hb, Hin.
    rewrite Forall_forall in Hpos.
    pose proof (Hpos _ Hin) as Hmin.
    pose proof (Hb g Hg) as Hg1. pose proof (Hb g' Hg') as Hg2.
    pose proof (thresh_pos body) as Hth.
    unfold ratio_exceeds in Hratio.
    destruct (Req_dec_T (min_diff t) 0) as [E0 | _]; [lra |].
    destruct (Rlt_dec _ _) as [| Hr] in Hratio; [discriminate |].
    assert (Hmax : max_diff t <= thresh body * min_diff t).
    { apply Rnot_lt_le in Hr.
      apply (Rmult_le_compat_r (min_diff t)) in Hr; [| lra].
      unfold Rdiv in Hr. rewrite Rmult_assoc, Rinv_l, Rmult_1_r in Hr by lra.
      exact Hr. }
    assert (thresh body * min_diff t <= thresh body * g')
      by (apply Rmult_le_compat_l; lra).
    lra.
Qed.

End PlanetLongitudesFacts.

(** The sample library finds two events of Mars before 2200. *)
Lemma TestPlanetLongitudes_sample_passes :
  exists lines : list PlanetLongitudes.e_line,
    PlanetLongitudes.TestPlanetLongitudes
      PlanetLongitudes.sample_MakeTime PlanetLongitudes.sample_Search
      PlanetLongitudes.sample_GeoVector PlanetLongitudes.sample_VectorLength
      AstroCheckRun.BODY_MARS true "opp" 3 = Some (0%Z, lines)
    /\ map PlanetLongitudes.e_tt lines = [1700 + 300; 1700 + 300 + 300].
Proof.
  unfold PlanetLongitudes.TestPlanetLongitudes.
  cbn [AstroCheckRun.Astronomy_BodyName negb
       PlanetLongitudes.TestPlanetLongitudes_loop].
  unfold PlanetLongitudes.sample_MakeTime, PlanetLongitudes.sample_Search,
    PlanetLongitudes.sample_GeoVector, PlanetLongitudes.record_interval.
  cbn [TimeModel.tt TimeModel.ut PlanetLongitudes.sr_status
       PlanetLongitudes.sr_time AstroCheckRun.vec_status
       AstroCheckRun.is_success negb PlanetLongitudes.count
       PlanetLongitudes.min_diff PlanetLongitudes.max_diff
       PlanetLongitudes.sum_diff Z.add Z.leb Z.eqb Z.compare Pos.compare
       Pos.compare_cont Pos.add Pos.succ Pos.eqb].
  destruct (Rlt_dec 1700 2200) as [_ | C]; [| exfalso; lra].
  destruct (Rlt_dec (1700 + 300) 2200) as [_ | C]; [| exfalso; lra].
  destruct (Rlt_dec (1700 + 300 + 300) 2200) as [C | _]; [exfalso; lra |].
  unfold PlanetLongitudes.ratio_exceeds, PlanetLongitudes.thresh.
  cbn [PlanetLongitudes.min_diff PlanetLongitudes.max_diff].
  destruct (Req_dec_T (1700 + 300 + 300 - (1700 + 300)) 0) as [C | _];
    [exfalso; lra |].
  replace ((1700 + 300 + 300 - (1700 + 300))
           / (1700 + 300 + 300 - (1700 + 300))) with 1 by (field; lra).
  destruct (Rlt_dec 1.30 1) as [C | _]; [exfalso; lra |].
  eexists. split; reflexivity.
Qed.

Lemma TestPlanetLongitudes_passed_file_witness :
  exists lines : list PlanetLongitudes.e_line,
    map PlanetLongitudes.e_tt lines = [1700 + 300; 1700 + 300 + 300]
    /\ (forall (i : nat) (line : PlanetLongitudes.e_line),
           nth_error lines i = Some line ->
           PlanetLongitudes.e_event line
           = if Nat.even i then "opp"%string else "sup"%string)
    /\ forall g g' : R,
        In g (PlanetLongitudes.gaps (map PlanetLongitudes.e_tt lines)) ->
        In g' (PlanetLongitudes.gaps (map PlanetLongitudes.e_tt lines)) ->
        g <= PlanetLongitudes.thresh AstroCheckRun.BODY_MARS * g'.
Proof.
  destruct TestPlanetLongitudes_sample_passes as (lines & Hrun & Htimes).
  destruct (TestPlanetLongitudes_passed_file
              PlanetLongitudes.sample_MakeTime PlanetLongitudes.sample_Search
              PlanetLongitudes.sample_GeoVector
              PlanetLongitudes.sample_VectorLength
              AstroCheckRun.BODY_MARS "opp" 3 lines Hrun) as (Hev & Hgaps).
  exists lines. split; [exact Htimes |]. split.
  - intros i line Hi. apply (Hev i line Hi).
  - apply Hgaps. rewrite Htimes. cbn [PlanetLongitudes.gaps
                                       PlanetLongitudes.gaps_from].
    constructor; [lra | constructor].
Defined.

(** ** The notebook: what [Solve] does not depend on, and where it is exact *)

Section SolveMore.




End SolveMore.



(** End of development. *)
